(** * DX UIM MCP server: the dispatch layer of [server.py]

    A shallow embedding of [server.py]: the transport client [UIMClient],
    the start-up code ([init_uim_client], [main]) and the dispatcher
    [call_tool] with its formatter [format_json], followed by the
    properties of the dispatch and error-handling contract.

    Conventions of the embedding.
    - Text the program builds (URLs, messages, responses) and the
      strings of the argument object are of type [string]; each character
      stands for one code point below 256.
    - A decoded response body only flows into [len] and [json.dumps],
      whose output is ASCII, so its strings are kept in full, as
      sequences of Unicode code points ([ustr]).
    - JSON-compatible Python data is the type [pyvalue], over either kind
      of string: [value] for the argument object and request payloads,
      [payload] for decoded response bodies.
    - The module-level handle [uim_client], the requests sent over the
      wire and the records written to the logger form the program state
      [State]; code that can raise runs in the monad [M], which keeps the
      state reached when an exception is raised.
    - The [requests] library and the upstream server are outside the
      repository: a [Response] is described by the attributes the code
      reads, and the upstream is a function from the requests seen so far
      and the current request to a response or a raised exception. *)

From Stdlib Require Import ZArith Ascii String List Bool Lia.
From stdpp Require Import base tactics option list strings pretty gmap.

Set Warnings "-register-all".
Local Open Scope Z_scope.

(** ** Python values *)

(** JSON-compatible Python objects over strings of type [S].  A [float]
    is carried as the text [float.__repr__] gives for it (["1.5"],
    ["nan"], ["-inf"], ...). *)
Inductive pyvalue (S : Type) : Type :=
| VNone
| VBool (b : bool)
| VInt (z : Z)
| VFloat (tok : string)
| VStr (s : S)
| VList (xs : list (pyvalue S))
| VDict (kvs : list (S * pyvalue S)).

Arguments VNone {S}.
Arguments VBool {S} b.
Arguments VInt {S} z.
Arguments VFloat {S} tok.
Arguments VStr {S} s.
Arguments VList {S} xs.
Arguments VDict {S} kvs.

(** Objects whose strings are 8-bit text: the argument object and what
    is built from it. *)
Abbreviation value := (pyvalue string).

(** A [str] in full: its Unicode code points, each below 1114112. *)
Abbreviation ustr := (list N).

(** Objects whose strings are kept in full: decoded response bodies. *)
Abbreviation payload := (pyvalue (list N)).

(** The [ustr] of an 8-bit text. *)
Fixpoint u (s : string) : ustr :=
  match s with
  | EmptyString => []
  | String c s' => N_of_ascii c :: u s'
  end.

(** A [dict] is kept as its items in insertion order; keys are distinct
    in a dict built by the operations below. *)
Definition dict : Type := list (string * value).

(** [d.get(k)] without the default: the first item stored under [k]. *)
Fixpoint dict_lookup (k : string) (d : dict) : option value :=
  match d with
  | [] => None
  | (k', v) :: d' => if String.eqb k k' then Some v else dict_lookup k d'
  end.

(** [d[k] = v]: overwrite in place, or append a new item. *)
Fixpoint dict_set (k : string) (v : value) (d : dict) : dict :=
  match d with
  | [] => [(k, v)]
  | (k', v') :: d' =>
      if String.eqb k k' then (k', v) :: d' else (k', v') :: dict_set k v d'
  end.

(** [type(v).__name__] *)
Definition type_name {S} (v : pyvalue S) : string :=
  match v with
  | VNone => "NoneType"
  | VBool _ => "bool"
  | VInt _ => "int"
  | VFloat _ => "float"
  | VStr _ => "str"
  | VList _ => "list"
  | VDict _ => "dict"
  end.

(** Truth value of an object, as tested by [if x:]. *)
Definition truthy (v : value) : bool :=
  match v with
  | VNone => false
  | VBool b => b
  | VInt z => negb (z =? 0)
  | VFloat tok => negb (String.eqb tok "0.0" || String.eqb tok "-0.0")
  | VStr s => negb (String.eqb s "")
  | VList xs => match xs with [] => false | _ => true end
  | VDict kvs => match kvs with [] => false | _ => true end
  end.

(** ** Text of Python objects *)

Definition hex_digit (n : N) : ascii :=
  match n with
  | 0 => "0" | 1 => "1" | 2 => "2" | 3 => "3" | 4 => "4" | 5 => "5"
  | 6 => "6" | 7 => "7" | 8 => "8" | 9 => "9" | 10 => "a" | 11 => "b"
  | 12 => "c" | 13 => "d" | 14 => "e" | _ => "f"
  end%N%char.

(** The two lower-case hexadecimal digits of a character code. *)
Definition hex2 (c : ascii) : string :=
  let n := N_of_ascii c in
  String (hex_digit (n / 16)%N) (String (hex_digit (n mod 16)%N) "").

Definition char_in (lo hi : N) (c : ascii) : bool :=
  ((lo <=? N_of_ascii c) && (N_of_ascii c <=? hi))%N.

(** [str.isprintable] on one code point below 256. *)
Definition printable (c : ascii) : bool :=
  char_in 32 126 c || (char_in 161 255 c && negb (N_of_ascii c =? 173)%N).

Fixpoint contains_char (c : ascii) (s : string) : bool :=
  match s with
  | EmptyString => false
  | String c' s' => Ascii.eqb c c' || contains_char c s'
  end.

Definition repr_char (quote c : ascii) : string :=
  if Ascii.eqb c quote || Ascii.eqb c "\" then String "\" (String c "")
  else if Ascii.eqb c "009" then "\t"
  else if Ascii.eqb c "010" then "\n"
  else if Ascii.eqb c "013" then "\r"
  else if printable c then String c ""
  else "\x" +:+ hex2 c.

Fixpoint repr_chars (quote : ascii) (s : string) : string :=
  match s with
  | EmptyString => ""
  | String c s' => repr_char quote c +:+ repr_chars quote s'
  end.

(** [repr] of a [str]: single quotes, unless the text holds a single
    quote and no double quote. *)
Definition repr_str (s : string) : string :=
  let quote : ascii :=
    if contains_char "'" s && negb (contains_char "034" s) then "034"%char
    else "'"%char in
  String quote (repr_chars quote s) +:+ String quote "".

(** [repr(v)] *)
Fixpoint py_repr (v : value) : string :=
  match v with
  | VNone => "None"
  | VBool true => "True"
  | VBool false => "False"
  | VInt z => pretty z
  | VFloat tok => tok
  | VStr s => repr_str s
  | VList xs => "[" +:+ String.concat ", " (map py_repr xs) +:+ "]"
  | VDict kvs =>
      "{" +:+ String.concat ", "
                (map (fun kv : string * value =>
                        let (k, x) := kv in repr_str k +:+ ": " +:+ py_repr x)
                     kvs) +:+ "}"
  end.

(** [str(v)], which is also what an f-string field [{v}] inserts. *)
Definition py_str (v : value) : string :=
  match v with
  | VStr s => s
  | _ => py_repr v
  end.

(** [s.rstrip('/')] and [s.lstrip('/')] *)
Fixpoint rstrip (c : ascii) (s : string) : string :=
  match s with
  | EmptyString => ""
  | String c' s' =>
      match rstrip c s' with
      | EmptyString => if Ascii.eqb c' c then "" else String c' ""
      | t => String c' t
      end
  end.

Fixpoint lstrip (c : ascii) (s : string) : string :=
  match s with
  | EmptyString => ""
  | String c' s' => if Ascii.eqb c' c then lstrip c s' else s
  end.

(** [s.lower()] on code points below 256. *)
Definition lower_char (c : ascii) : ascii :=
  if char_in 65 90 c || (char_in 192 222 c && negb (N_of_ascii c =? 215)%N)
  then ascii_of_N (N_of_ascii c + 32)
  else c.

Fixpoint lower (s : string) : string :=
  match s with
  | EmptyString => ""
  | String c s' => String (lower_char c) (lower s')
  end.


(** ** [format_json]: [json.dumps(data, indent=2)] *)

Definition nl : string := String "010" "".

Fixpoint spaces (n : nat) : string :=
  match n with
  | O => ""
  | S n' => String " " (spaces n')
  end.

(** The line break and indentation [json.dumps] writes before an item
    nested [level] deep. *)
Definition newline_indent (level : nat) : string :=
  nl +:+ spaces (2 * level).

(** The four lower-case hexadecimal digits of [n], as ['{0:04x}']
    writes them for a number below 65536. *)
Definition hex4 (n : N) : string :=
  String (hex_digit ((n / 4096) mod 16)%N)
    (String (hex_digit ((n / 256) mod 16)%N)
       (String (hex_digit ((n / 16) mod 16)%N)
          (String (hex_digit (n mod 16)%N) ""))).

(** One code point of a JSON string literal, as [json.dumps] escapes it
    with [ensure_ascii] on: the short escapes, printable ASCII as it is,
    [\uXXXX] below 65536, and a surrogate pair from there
    ([0xd800 | (m >> 10) & 0x3ff] and [0xdc00 | m & 0x3ff] for
    [m = n - 0x10000], written here with division and remainder). *)
Definition json_char (n : N) : string :=
  if (n =? 34)%N then String "\" (String "034" "")
  else if (n =? 92)%N then "\\"
  else if (n =? 10)%N then "\n"
  else if (n =? 13)%N then "\r"
  else if (n =? 9)%N then "\t"
  else if (n =? 8)%N then "\b"
  else if (n =? 12)%N then "\f"
  else if ((32 <=? n) && (n <=? 126))%N then String (ascii_of_N n) ""
  else if (n <? 65536)%N then "\u" +:+ hex4 n
  else
    let m := (n - 65536)%N in
    "\u" +:+ hex4 (55296 + (m / 1024) mod 1024)%N
      +:+ "\u" +:+ hex4 (56320 + m mod 1024)%N.

Fixpoint json_chars (s : ustr) : string :=
  match s with
  | [] => ""
  | n :: s' => json_char n +:+ json_chars s'
  end.

Definition json_str (s : ustr) : string :=
  String "034" (json_chars s) +:+ String "034" "".

Definition json_float (tok : string) : string :=
  if String.eqb tok "nan" then "NaN"
  else if String.eqb tok "inf" then "Infinity"
  else if String.eqb tok "-inf" then "-Infinity"
  else tok.

Fixpoint dumps (level : nat) (v : payload) : string :=
  match v with
  | VNone => "null"
  | VBool true => "true"
  | VBool false => "false"
  | VInt z => pretty z
  | VFloat tok => json_float tok
  | VStr s => json_str s
  | VList [] => "[]"
  | VList xs =>
      "[" +:+ newline_indent (S level)
          +:+ String.concat ("," +:+ newline_indent (S level))
                (map (dumps (S level)) xs)
          +:+ newline_indent level +:+ "]"
  | VDict [] => "{}"
  | VDict kvs =>
      "{" +:+ newline_indent (S level)
          +:+ String.concat ("," +:+ newline_indent (S level))
                (map (fun kv : ustr * payload =>
                        let (k, x) := kv in
                        json_str k +:+ ": " +:+ dumps (S level) x)
                     kvs)
          +:+ newline_indent level +:+ "}"
  end.

Definition format_json (data : payload) : string := dumps 0 data.

(** [len(v)]: defined on strings (the number of code points), lists
    and dicts; the other objects have no length. *)
Definition py_len (v : payload) : option Z :=
  match v with
  | VStr s => Some (Z.of_nat (length s))
  | VList xs => Some (Z.of_nat (length xs))
  | VDict kvs => Some (Z.of_nat (length kvs))
  | _ => None
  end.

(** ** The HTTP library as the client sees it *)

(** A header mapping ([requests]' case-insensitive dict): items in
    insertion order, names compared without regard to case. *)
Definition headers : Type := list (string * string).

Fixpoint header_lookup (k : string) (h : headers) : option string :=
  match h with
  | [] => None
  | (k', v) :: h' =>
      if String.eqb (lower k) (lower k') then Some v else header_lookup k h'
  end.

Fixpoint header_set (k v : string) (h : headers) : headers :=
  match h with
  | [] => [(k, v)]
  | (k', v') :: h' =>
      if String.eqb (lower k) (lower k') then (k, v) :: h'
      else (k', v') :: header_set k v h'
  end.

(** [h.update(new)] *)
Definition headers_update (new h : headers) : headers :=
  fold_left (fun acc kv => header_set kv.1 kv.2 acc) new h.

(** What [response.json()] gives: the decoded body, or the message of
    the decoding error. *)
Inductive decoding : Type :=
| Decoded (v : payload)
| Malformed (msg : string).

(** A [requests.Response], by the attributes the client reads. *)
Record Response : Type := mkResponse {
  status_code : Z;
  reason : string;
  url : string;
  content : string;
  body : decoding
}.

(** Exceptions.  Every class listed derives from [Exception]; the last
    five are [requests.exceptions.RequestException] and subclasses. *)
Inductive exn : Type :=
| KeyError (key : string)
| TypeError (msg : string)
| AttributeError (msg : string)
| ValueError (msg : string)
| RequestException (msg : string)
| HTTPError (msg : string) (response : Response)
| ConnectionError (msg : string)
| Timeout (msg : string)
| JSONDecodeError (msg : string).

(** [str(e)]: the message, and for a [KeyError] the [repr] of the key. *)
Definition exn_str (e : exn) : string :=
  match e with
  | KeyError key => repr_str key
  | TypeError msg | AttributeError msg | ValueError msg
  | RequestException msg | HTTPError msg _ | ConnectionError msg
  | Timeout msg | JSONDecodeError msg => msg
  end.

(** [isinstance(e, requests.exceptions.RequestException)] *)
Definition is_RequestException (e : exn) : bool :=
  match e with
  | RequestException _ | HTTPError _ _ | ConnectionError _
  | Timeout _ | JSONDecodeError _ => true
  | _ => false
  end.

(** [isinstance(e, Exception)] *)
Definition is_Exception (e : exn) : bool := true.

(** The upstream status an exception carries, when it has one. *)
Definition upstream_status (e : exn) : option Z :=
  match e with
  | HTTPError _ response => Some (status_code response)
  | _ => None
  end.

(** The keyword arguments [_make_request] forwards to the session. *)
Record Kwargs : Type := mkKwargs {
  kw_params : option dict;
  kw_json : option value
}.

Definition no_kwargs : Kwargs := mkKwargs None None.

(** One call of [session.request], with the session settings merged in. *)
Record Request : Type := mkRequest {
  method : string;
  req_url : string;
  req_headers : headers;
  params : option dict;
  json : option value;
  req_auth : string * string;
  req_verify : bool
}.

Record Session : Type := mkSession {
  s_auth : string * string;
  s_verify : bool;
  s_headers : headers
}.

Record UIMClient : Type := mkUIMClient {
  base_url : string;
  auth : string * string;
  verify_ssl : bool;
  session : Session
}.

(** ** Program state and the monad of raising code *)

Record LogRecord : Type := mkLog {
  levelname : string;
  message : string
}.

Record State : Type := mkState {
  uim_client : option UIMClient;
  issued : list Request;
  logged : list LogRecord
}.

Definition M (A : Type) : Type := State -> (exn + A) * State.

Definition ret {A} (a : A) : M A := fun st => (inr a, st).

Definition raise {A} (e : exn) : M A := fun st => (inl e, st).

Definition bind {A B} (m : M A) (k : A -> M B) : M B :=
  fun st =>
    match m st with
    | (inl e, st') => (inl e, st')
    | (inr a, st') => k a st'
    end.

(** [try: m  except <class> as e: handler e] *)
Definition try_except {A} (m : M A) (catches : exn -> bool)
    (handler : exn -> M A) : M A :=
  fun st =>
    match m st with
    | (inl e, st') => if catches e then handler e st' else (inl e, st')
    | (inr a, st') => (inr a, st')
    end.

Declare Scope py_scope.
Delimit Scope py_scope with py.
Notation "x <- m ;; k" := (bind m (fun x => k))
  (at level 100, m at level 99, k at level 200, only parsing) : py_scope.
Notation "m ;; k" := (bind m (fun _ => k))
  (at level 100, k at level 200, only parsing) : py_scope.
Local Open Scope py_scope.

Definition lift_option {A} (o : option A) (e : exn) : M A :=
  match o with
  | Some a => ret a
  | None => raise e
  end.

Definition with_log (st : State) (level msg : string) : State :=
  mkState (uim_client st) (issued st) (logged st ++ [mkLog level msg]).

Definition with_request (st : State) (r : Request) : State :=
  mkState (uim_client st) (issued st ++ [r]) (logged st).

(** [logger.error(msg)], [logger.info(msg)] *)
Definition log (level msg : string) : M unit :=
  fun st => (inr tt, with_log st level msg).

Definition set_uim_client (c : UIMClient) : M unit :=
  fun st => (inr tt, mkState (Some c) (issued st) (logged st)).

(** ** Access to the argument object *)

(** [arguments.get(key, default)] *)
Definition py_get (arguments : value) (key : string) (dflt : value)
    : M value :=
  match arguments with
  | VDict d => ret (default dflt (dict_lookup key d))
  | _ => raise (AttributeError ("'" +:+ type_name arguments
                                  +:+ "' object has no attribute 'get'"))
  end.

(** [arguments[key]] with a [str] key (messages as CPython 3.11 words
    them). *)
Definition py_getitem (arguments : value) (key : string) : M value :=
  match arguments with
  | VDict d => lift_option (dict_lookup key d) (KeyError key)
  | VStr _ => raise (TypeError "string indices must be integers, not 'str'")
  | VList _ =>
      raise (TypeError "list indices must be integers or slices, not str")
  | _ => raise (TypeError ("'" +:+ type_name arguments
                             +:+ "' object is not subscriptable"))
  end.

(** [len(v)] as an operation that raises. *)
Definition len (v : payload) : M Z :=
  lift_option (py_len v)
    (TypeError ("object of type '" +:+ type_name v +:+ "' has no len()")).

(** ** The transport client *)

Section Server.

(** The upstream server behind the HTTP library: given the requests
    issued so far and the current one, it answers with a response or the
    library raises. *)
Variable upstream : list Request -> Request -> exn + Response.

(** The headers a fresh [requests.Session()] starts with. *)
Variable default_headers : headers.

(** [UIMClient.__init__] *)
Definition UIMClient_init (base_url username password : string)
    (verify_ssl : bool) : UIMClient :=
  let auth := (username, password) in
  mkUIMClient (rstrip "/" base_url) auth verify_ssl
    (mkSession auth verify_ssl
       (headers_update [("Accept", "application/json");
                        ("Content-Type", "application/json")]
                       default_headers)).

(** The request [session.request(method, url, **kwargs)] prepares: the
    session's headers, credentials and TLS policy are merged in; a JSON
    body gets its content type unless one is set already. *)
Definition prepare_request (s : Session) (method url : string) (kw : Kwargs)
    : Request :=
  let hs :=
    match kw_json kw, header_lookup "Content-Type" (s_headers s) with
    | Some _, None =>
        header_set "Content-Type" "application/json" (s_headers s)
    | _, _ => s_headers s
    end in
  mkRequest method url hs (kw_params kw) (kw_json kw) (s_auth s) (s_verify s).

(** [session.request(method, url, **kwargs)].  The request is recorded
    as issued whether the upstream answers or not. *)
Definition session_request (s : Session) (method url : string) (kw : Kwargs)
    : M Response :=
  fun st =>
    let r := prepare_request s method url kw in
    match upstream (issued st) r with
    | inl e => (inl e, with_request st r)
    | inr response => (inr response, with_request st r)
    end.

(** The statuses [raise_for_status] treats as errors: 4xx and 5xx. *)
Definition error_status (status : Z) : bool :=
  (400 <=? status) && (status <? 600).

(** The message [raise_for_status] builds; empty when the status is no
    error status. *)
Definition http_error_msg (response : Response) : string :=
  if (400 <=? status_code response) && (status_code response <? 500) then
    pretty (status_code response) +:+ " Client Error: "
      +:+ reason response +:+ " for url: " +:+ url response
  else if (500 <=? status_code response) && (status_code response <? 600)
  then
    pretty (status_code response) +:+ " Server Error: "
      +:+ reason response +:+ " for url: " +:+ url response
  else "".

(** [response.raise_for_status()] *)
Definition raise_for_status (response : Response) : M unit :=
  if String.eqb (http_error_msg response) "" then ret tt
  else raise (HTTPError (http_error_msg response) response).

(** [response.json()] *)
Definition response_json (response : Response) : M payload :=
  match body response with
  | Decoded v => ret v
  | Malformed msg => raise (JSONDecodeError msg)
  end.

(** [UIMClient._make_request] *)
Definition _make_request (self : UIMClient) (method endpoint : string)
    (kwargs : Kwargs) : M payload :=
  let url := base_url self +:+ "/" +:+ lstrip "/" endpoint in
  try_except
    (response <- session_request (session self) method url kwargs ;;
     raise_for_status response ;;
     if negb (String.eqb (content response) "") then response_json response
     else ret (VDict []))
    is_RequestException
    (fun e =>
       log "ERROR" ("API request failed: " +:+ exn_str e) ;;
       raise e).

(** The request a call of [_make_request] issues. *)
Definition request_of (self : UIMClient) (method endpoint : string)
    (kwargs : Kwargs) : Request :=
  prepare_request (session self) method
    (base_url self +:+ "/" +:+ lstrip "/" endpoint) kwargs.

(** [UIMClient.get_devices] *)
Definition get_devices (self : UIMClient) (domain hub : value) : M payload :=
  let params : dict := [] in
  let params := if truthy domain then dict_set "domain" domain params
                else params in
  let params := if truthy hub then dict_set "hub" hub params else params in
  _make_request self "GET" "/devices" (mkKwargs (Some params) None).

(** [UIMClient.get_device_info] *)
Definition get_device_info (self : UIMClient) (device_id : value) : M payload :=
  _make_request self "GET" ("/devices/" +:+ py_str device_id) no_kwargs.

(** [UIMClient.get_alarms] *)
Definition get_alarms (self : UIMClient) (severity source limit : value)
    : M payload :=
  let params : dict := [] in
  let params := if truthy limit then dict_set "limit" limit params
                else params in
  let params :=
    match severity with
    | VNone => params
    | _ => dict_set "severity" severity params
    end in
  let params := if truthy source then dict_set "source" source params
                else params in
  _make_request self "GET" "/alarms" (mkKwargs (Some params) None).

(** [UIMClient.get_alarm_summary] *)
Definition get_alarm_summary (self : UIMClient) : M payload :=
  _make_request self "GET" "/alarms/summary" no_kwargs.

(** [UIMClient.acknowledge_alarm] *)
Definition acknowledge_alarm (self : UIMClient) (alarm_id message : value)
    : M payload :=
  let payload : dict := [] in
  let payload := if truthy message then dict_set "message" message payload
                 else payload in
  _make_request self "PUT" ("/alarms/" +:+ py_str alarm_id +:+ "/ack")
    (mkKwargs None (Some (VDict payload))).

(** [UIMClient.accept_alarm] *)
Definition accept_alarm (self : UIMClient) (alarm_id : value) : M payload :=
  _make_request self "PUT" ("/alarms/" +:+ py_str alarm_id +:+ "/accept")
    no_kwargs.

(** [UIMClient.assign_alarm] *)
Definition assign_alarm (self : UIMClient) (alarm_id username : value)
    : M payload :=
  _make_request self "PUT"
    ("/alarms/" +:+ py_str alarm_id +:+ "/assign/" +:+ py_str username)
    no_kwargs.

(** [UIMClient.get_metrics] *)
Definition get_metrics (self : UIMClient) : M payload :=
  _make_request self "GET" "/metrics" no_kwargs.

(** [UIMClient.get_metric_definitions] *)
Definition get_metric_definitions (self : UIMClient) : M payload :=
  _make_request self "GET" "/configuration_items/metricdefinitions" no_kwargs.

(** [UIMClient.get_metric_by_id] *)
Definition get_metric_by_id (self : UIMClient) (metric_id : value) : M payload :=
  _make_request self "GET"
    ("/configuration_items/metrics/" +:+ py_str metric_id) no_kwargs.

(** [UIMClient.get_probes] *)
Definition get_probes (self : UIMClient) : M payload :=
  _make_request self "GET" "/probes" no_kwargs.

(** [UIMClient.get_robots] *)
Definition get_robots (self : UIMClient) : M payload :=
  _make_request self "GET" "/robots" no_kwargs.

(** ** The tool schema registry *)

(** One entry of a schema's ["properties"]. *)
Record Property : Type := mkProperty {
  p_name : string;
  p_type : string;
  p_description : string;
  p_default : option value;
  p_minimum : option Z;
  p_maximum : option Z
}.

Definition prop (name type description : string) : Property :=
  mkProperty name type description None None None.

Record Tool : Type := mkTool {
  t_name : string;
  t_description : string;
  t_properties : list Property;
  t_required : list string
}.

(** [list_tools] *)
Definition list_tools : list Tool :=
  [ mkTool "list_devices"
      "List all devices/systems in DX UIM. Optionally filter by domain or hub."
      [prop "domain" "string" "Filter by domain name (optional)";
       prop "hub" "string" "Filter by hub name (optional)"]
      [];
    mkTool "get_device_info"
      "Get detailed information about a specific device by its ID"
      [prop "device_id" "string" "The device identifier"]
      ["device_id"];
    mkTool "list_alarms"
      "List alarms from DX UIM with optional filtering by severity and source"
      [mkProperty "severity" "integer"
         "Filter by severity: 0=clear, 1=info, 2=warning, 3=minor, 4=major, 5=critical"
         None (Some 0) (Some 5);
       prop "source" "string" "Filter by source/device name";
       mkProperty "limit" "integer" "Maximum number of alarms to return"
         (Some (VInt 100)) None None]
      [];
    mkTool "get_alarm_summary"
      "Get a summary of alarms with counts by severity level"
      [] [];
    mkTool "acknowledge_alarm"
      "Acknowledge an alarm by its ID"
      [prop "alarm_id" "string" "The alarm identifier";
       prop "message" "string" "Optional acknowledgment message"]
      ["alarm_id"];
    mkTool "accept_alarm"
      "Accept an alarm by its ID"
      [prop "alarm_id" "string" "The alarm identifier"]
      ["alarm_id"];
    mkTool "assign_alarm"
      "Assign an alarm to a specific user"
      [prop "alarm_id" "string" "The alarm identifier";
       prop "username" "string" "Username to assign the alarm to"]
      ["alarm_id"; "username"];
    mkTool "list_metrics"
      "List all available metrics in the system"
      [] [];
    mkTool "get_metric_definitions"
      "Get complete list of UIM metric definitions with their properties"
      [] [];
    mkTool "get_metric_by_id"
      "Get specific metric data by its ID"
      [prop "metric_id" "string"
         "The metric identifier (e.g., 'M0AEA025E353AEC88F86A55481CDAFA6A')"]
      ["metric_id"];
    mkTool "list_probes"
      "List all probes in the UIM infrastructure"
      [] [];
    mkTool "list_robots"
      "List all robots in the UIM infrastructure"
      [] [] ].

(** ** The dispatcher *)

Record TextContent : Type := mkTextContent {
  type_ : string;
  text : string
}.

Definition text_content (s : string) : TextContent := mkTextContent "text" s.

(** The [try] block of [call_tool], run with an initialized client. *)
Definition call_tool_body (client : UIMClient) (name : string)
    (arguments : value) : M (list TextContent) :=
  if String.eqb name "list_devices" then
    domain <- py_get arguments "domain" VNone ;;
    hub <- py_get arguments "hub" VNone ;;
    result <- get_devices client domain hub ;;
    n <- len result ;;
    ret [text_content ("Found " +:+ pretty n +:+ " devices:" +:+ nl +:+ nl
                         +:+ format_json result)]
  else if String.eqb name "get_device_info" then
    device_id <- py_getitem arguments "device_id" ;;
    result <- get_device_info client device_id ;;
    ret [text_content ("Device Information:" +:+ nl +:+ nl
                         +:+ format_json result)]
  else if String.eqb name "list_alarms" then
    severity <- py_get arguments "severity" VNone ;;
    source <- py_get arguments "source" VNone ;;
    limit <- py_get arguments "limit" (VInt 100) ;;
    result <- get_alarms client severity source limit ;;
    n <- len result ;;
    ret [text_content ("Found " +:+ pretty n +:+ " alarms:" +:+ nl +:+ nl
                         +:+ format_json result)]
  else if String.eqb name "get_alarm_summary" then
    result <- get_alarm_summary client ;;
    ret [text_content ("Alarm Summary:" +:+ nl +:+ nl +:+ format_json result)]
  else if String.eqb name "acknowledge_alarm" then
    alarm_id <- py_getitem arguments "alarm_id" ;;
    message <- py_get arguments "message" VNone ;;
    result <- acknowledge_alarm client alarm_id message ;;
    ret [text_content ("Alarm acknowledged successfully:" +:+ nl +:+ nl
                         +:+ format_json result)]
  else if String.eqb name "accept_alarm" then
    alarm_id <- py_getitem arguments "alarm_id" ;;
    result <- accept_alarm client alarm_id ;;
    ret [text_content ("Alarm accepted successfully:" +:+ nl +:+ nl
                         +:+ format_json result)]
  else if String.eqb name "assign_alarm" then
    alarm_id <- py_getitem arguments "alarm_id" ;;
    username <- py_getitem arguments "username" ;;
    result <- assign_alarm client alarm_id username ;;
    username' <- py_getitem arguments "username" ;;
    ret [text_content ("Alarm assigned successfully to " +:+ py_str username'
                         +:+ ":" +:+ nl +:+ nl +:+ format_json result)]
  else if String.eqb name "list_metrics" then
    result <- get_metrics client ;;
    n <- len result ;;
    ret [text_content ("Found " +:+ pretty n +:+ " metrics:" +:+ nl +:+ nl
                         +:+ format_json result)]
  else if String.eqb name "get_metric_definitions" then
    result <- get_metric_definitions client ;;
    ret [text_content ("Metric Definitions:" +:+ nl +:+ nl
                         +:+ format_json result)]
  else if String.eqb name "get_metric_by_id" then
    metric_id <- py_getitem arguments "metric_id" ;;
    result <- get_metric_by_id client metric_id ;;
    ret [text_content ("Metric Data:" +:+ nl +:+ nl +:+ format_json result)]
  else if String.eqb name "list_probes" then
    result <- get_probes client ;;
    n <- len result ;;
    ret [text_content ("Found " +:+ pretty n +:+ " probes:" +:+ nl +:+ nl
                         +:+ format_json result)]
  else if String.eqb name "list_robots" then
    result <- get_robots client ;;
    n <- len result ;;
    ret [text_content ("Found " +:+ pretty n +:+ " robots:" +:+ nl +:+ nl
                         +:+ format_json result)]
  else
    ret [text_content ("Error: Unknown tool '" +:+ name +:+ "'")].

(** The [except Exception as e] clause of [call_tool]. *)
Definition call_tool_handler (name : string) (e : exn)
    : M (list TextContent) :=
  log "ERROR" ("Error executing tool '" +:+ name +:+ "': " +:+ exn_str e) ;;
  ret [text_content ("Error: " +:+ exn_str e)].

(** [call_tool] *)
Definition call_tool (name : string) (arguments : value)
    : M (list TextContent) :=
  fun st =>
    match uim_client st with
    | None =>
        ret [text_content
               "Error: UIM client not initialized. Please check environment variables."]
            st
    | Some client =>
        try_except (call_tool_body client name arguments) is_Exception
          (call_tool_handler name) st
    end.

(** ** Start-up *)

(** Truth value of what [os.getenv] returns. *)
Definition truthy_env (o : option string) : bool :=
  match o with
  | Some s => negb (String.eqb s "")
  | None => false
  end.

(** [init_uim_client], reading the environment [env]. *)
Definition init_uim_client (env : gmap string string) : M unit :=
  let base_url := env !! "UIM_BASE_URL" in
  let username := env !! "UIM_USERNAME" in
  let password := env !! "UIM_PASSWORD" in
  let verify_ssl :=
    String.eqb (lower (default "true" (env !! "UIM_VERIFY_SSL"))) "true" in
  if negb (forallb truthy_env [base_url; username; password]) then
    raise (ValueError
      "Missing required environment variables: UIM_BASE_URL, UIM_USERNAME, UIM_PASSWORD")
  else
    match base_url, username, password with
    | Some b, Some u, Some p =>
        set_uim_client (UIMClient_init b u p verify_ssl) ;;
        log "INFO" ("Initialized UIM client for " +:+ b)
    | _, _, _ =>
        raise (AttributeError "'NoneType' object has no attribute 'rstrip'")
    end.

(** The RPC host's loop [app.run] belongs to the [mcp] library; it is
    represented by the tool calls it delivers, one after the other. *)
Fixpoint serve (calls : list (string * value)) : M (list (list TextContent)) :=
  match calls with
  | [] => ret []
  | (name, arguments) :: rest =>
      r <- call_tool name arguments ;;
      rs <- serve rest ;;
      ret (r :: rs)
  end.

(** [main]: initialize, then hand over to the host. *)
Definition main (env : gmap string string) (calls : list (string * value))
    : M (list (list TextContent)) :=
  try_except (init_uim_client env) is_Exception
    (fun e =>
       log "ERROR" ("Failed to initialize UIM client: " +:+ exn_str e) ;;
       raise e) ;;
  serve calls.

End Server.

(** The state of a freshly loaded module. *)
Definition initial_state : State := mkState None [] [].


(** ** Vocabulary of the properties *)

(** [m] can only return one text element. *)
Definition returns_one_text (m : M (list TextContent)) : Prop :=
  forall st r st', m st = (inr r, st') -> exists s, r = [text_content s].

(** Running [m] only adds requests that satisfy [P] to the issued ones. *)
Definition sends (P : Request -> Prop) {A} (m : M A) : Prop :=
  forall st, exists new,
    issued (snd (m st)) = issued st ++ new /\ Forall P new.

(** The request carries both JSON headers. *)
Definition carries_json_headers (r : Request) : Prop :=
  header_lookup "Accept" (req_headers r) = Some "application/json"
  /\ header_lookup "Content-Type" (req_headers r) = Some "application/json".

Definition is_Some_b {A} (o : option A) : bool :=
  match o with
  | Some _ => true
  | None => false
  end.

(** The arguments the schema of [list_tools] declares as required. *)
Definition required_arguments (name : string) : list string :=
  match find (fun t => String.eqb name (t_name t)) list_tools with
  | Some t => t_required t
  | None => []
  end.

(** The default the schema of [list_tools] declares for a property. *)
Definition declared_default (name property : string) : option value :=
  match find (fun t => String.eqb name (t_name t)) list_tools with
  | Some t =>
      match find (fun q => String.eqb property (p_name q)) (t_properties t)
      with
      | Some q => p_default q
      | None => None
      end
  | None => None
  end.

(** The environment variables [init_uim_client] requires. *)
Definition required_variables : list string :=
  ["UIM_BASE_URL"; "UIM_USERNAME"; "UIM_PASSWORD"].

(** The list-shaped operations, each with the noun of its summary. *)
Definition list_shaped : list (string * string) :=
  [("list_devices", "devices"); ("list_alarms", "alarms");
   ("list_metrics", "metrics"); ("list_probes", "probes");
   ("list_robots", "robots")].

(** What running [m] may do to the state: the client handle stays, at
    most [n] requests are issued and at most [k] records are logged, all
    of them errors; nothing issued or logged before is touched. *)
Definition footprint (n k : nat) {A} (m : M A) : Prop :=
  forall st,
    uim_client (snd (m st)) = uim_client st
    /\ exists rs ls,
         issued (snd (m st)) = issued st ++ rs /\ (length rs <= n)%nat
         /\ logged (snd (m st)) = logged st ++ ls /\ (length ls <= k)%nat
         /\ Forall (fun l => levelname l = "ERROR") ls.

(** The result of [m] and the client handle it leaves depend on the
    client handle alone, not on what was issued or logged before. *)
Definition state_blind {A} (m : M A) : Prop :=
  forall st1 st2,
    uim_client st1 = uim_client st2 ->
    fst (m st1) = fst (m st2)
    /\ uim_client (snd (m st1)) = uim_client (snd (m st2)).

(** The settings a client puts on a request: its credentials, its TLS
    policy, and a URL under its base address. *)
Definition sent_by (self : UIMClient) (r : Request) : Prop :=
  req_auth r = s_auth (session self)
  /\ req_verify r = s_verify (session self)
  /\ exists path, req_url r = base_url self +:+ "/" +:+ path.

(** [n] copies of one character. *)
Fixpoint repeat_char (c : ascii) (n : nat) : string :=
  match n with
  | O => ""
  | S n' => String c (repeat_char c n')
  end.

Definition ends_with (c : ascii) (s : string) : Prop :=
  exists t, s = t +:+ String c "".

Definition starts_with (c : ascii) (s : string) : Prop :=
  exists t, s = String c t.

(** No two headers have the same name up to case. *)
Definition header_names_distinct (h : headers) : Prop :=
  NoDup (map (fun kv => lower kv.1) h).

(** *** The operation catalog, as a table

    The upstream HTTP surface the server consumes, written as data: for
    each operation the method, the endpoint as literal pieces and path
    parameters, and what accompanies the request.  The dispatcher and
    the client are compared with it below. *)

Inductive segment : Type :=
| Lit (s : string)
| Arg (key : string).

Inductive payload_kind : Type :=
| Bare     (* neither query parameters nor body *)
| Query    (* a [params] mapping *)
| Body.    (* a JSON body *)

Record Operation : Type := mkOperation {
  op_method : string;
  op_endpoint : list segment;
  op_kind : payload_kind
}.

Definition catalog : list (string * Operation) :=
  [("list_devices", mkOperation "GET" [Lit "/devices"] Query);
   ("get_device_info",
      mkOperation "GET" [Lit "/devices/"; Arg "device_id"] Bare);
   ("list_alarms", mkOperation "GET" [Lit "/alarms"] Query);
   ("get_alarm_summary", mkOperation "GET" [Lit "/alarms/summary"] Bare);
   ("acknowledge_alarm",
      mkOperation "PUT" [Lit "/alarms/"; Arg "alarm_id"; Lit "/ack"] Body);
   ("accept_alarm",
      mkOperation "PUT" [Lit "/alarms/"; Arg "alarm_id"; Lit "/accept"] Bare);
   ("assign_alarm",
      mkOperation "PUT"
        [Lit "/alarms/"; Arg "alarm_id"; Lit "/assign/"; Arg "username"] Bare);
   ("list_metrics", mkOperation "GET" [Lit "/metrics"] Bare);
   ("get_metric_definitions",
      mkOperation "GET" [Lit "/configuration_items/metricdefinitions"] Bare);
   ("get_metric_by_id",
      mkOperation "GET"
        [Lit "/configuration_items/metrics/"; Arg "metric_id"] Bare);
   ("list_probes", mkOperation "GET" [Lit "/probes"] Bare);
   ("list_robots", mkOperation "GET" [Lit "/robots"] Bare)].

Definition catalog_lookup (name : string) : option Operation :=
  match find (fun e => String.eqb name e.1) catalog with
  | Some e => Some e.2
  | None => None
  end.

(** The path parameters of an endpoint, in order. *)
Fixpoint path_parameters (segs : list segment) : list string :=
  match segs with
  | [] => []
  | Lit _ :: rest => path_parameters rest
  | Arg key :: rest => key :: path_parameters rest
  end.

(** The endpoint with each path parameter replaced by the text of the
    argument of that name; [None] when an argument is missing. *)
Fixpoint expand (d : dict) (segs : list segment) : option string :=
  match segs with
  | [] => Some ""
  | Lit s :: rest =>
      match expand d rest with
      | Some t => Some (s +:+ t)
      | None => None
      end
  | Arg key :: rest =>
      match dict_lookup key d, expand d rest with
      | Some v, Some t => Some (py_str v +:+ t)
      | _, _ => None
      end
  end.

(** What a request carries agrees with the kind of its operation. *)
Definition payload_matches (kind : payload_kind) (r : Request) : Prop :=
  match kind with
  | Bare => params r = None /\ json r = None
  | Query => (exists ps, params r = Some ps) /\ json r = None
  | Body => params r = None /\ exists payload, json r = Some (VDict payload)
  end.

(** Whether the schema of [list_tools] gives the tool any property. *)
Definition declares_arguments (name : string) : bool :=
  match find (fun t => String.eqb name (t_name t)) list_tools with
  | Some t => match t_properties t with [] => false | _ => true end
  | None => false
  end.

(** What [_make_request] returns for a response, when it returns. *)
Definition payload_of (response : Response) : option payload :=
  if error_status (status_code response) then None
  else if String.eqb (content response) "" then Some (VDict [])
  else match body response with
       | Decoded v => Some v
       | Malformed _ => None
       end.

(** The first line of the success text of the operations that report
    no count. *)
Definition success_title (name : string) (d : dict) : option string :=
  if String.eqb name "get_device_info" then Some "Device Information:"
  else if String.eqb name "get_alarm_summary" then Some "Alarm Summary:"
  else if String.eqb name "acknowledge_alarm" then
    Some "Alarm acknowledged successfully:"
  else if String.eqb name "accept_alarm" then
    Some "Alarm accepted successfully:"
  else if String.eqb name "assign_alarm" then
    Some ("Alarm assigned successfully to "
            +:+ py_str (default VNone (dict_lookup "username" d)) +:+ ":")
  else if String.eqb name "get_metric_definitions" then
    Some "Metric Definitions:"
  else if String.eqb name "get_metric_by_id" then Some "Metric Data:"
  else None.

(** The record the client writes for a transport failure, and the one
    the dispatcher writes for any failure. *)
Definition client_log (e : exn) : list LogRecord :=
  if is_RequestException e
  then [mkLog "ERROR" ("API request failed: " +:+ exn_str e)]
  else [].

Definition dispatcher_log (name : string) (e : exn) : LogRecord :=
  mkLog "ERROR" ("Error executing tool '" +:+ name +:+ "': " +:+ exn_str e).

(** [m] logs nothing when it returns, and only the client's record of
    a transport failure when it raises. *)
Definition logs_failures_only {A} (m : M A) : Prop :=
  forall st,
    match m st with
    | (inr _, st') => logged st' = logged st
    | (inl e, st') => logged st' = logged st ++ client_log e
    end.

(** The exception [_make_request] raises for an outcome of the
    upstream, when it raises. *)
Definition failure_of (outcome : exn + Response) : option exn :=
  match outcome with
  | inl e => Some e
  | inr response =>
      if error_status (status_code response)
      then Some (HTTPError (http_error_msg response) response)
      else if String.eqb (content response) "" then None
      else match body response with
           | Decoded _ => None
           | Malformed msg => Some (JSONDecodeError msg)
           end
  end.

(** *** Reading the serialization back

    A reader for the JSON text that [format_json] writes, in the manner
    of [json.loads]: white space is skipped between tokens, [\uXXXX]
    escapes are decoded and a high surrogate followed by a low one is
    joined into one code point.  A number that is no integer literal is
    kept as the text of a float; [NaN], [Infinity] and [-Infinity] are
    read as [json.loads] reads them.  The reader checks less than
    [json.loads] does (it takes any run of number characters for a
    number, and control characters inside a string): it is only used
    on what [format_json] wrote, to state that the whole payload is
    in the text. *)

Definition is_ws (c : ascii) : bool :=
  let n := N_of_ascii c in
  ((n =? 32) || (n =? 10) || (n =? 13) || (n =? 9))%N.

Fixpoint skip_ws (s : string) : string :=
  match s with
  | EmptyString => ""
  | String c s' => if is_ws c then skip_ws s' else s
  end.

Definition hex_value (c : ascii) : option N :=
  let n := N_of_ascii c in
  if ((48 <=? n) && (n <=? 57))%N then Some (n - 48)%N
  else if ((97 <=? n) && (n <=? 102))%N then Some (n - 87)%N
  else if ((65 <=? n) && (n <=? 70))%N then Some (n - 55)%N
  else None.

Definition hex4_value (a b c d : ascii) : option N :=
  match hex_value a, hex_value b, hex_value c, hex_value d with
  | Some x, Some y, Some z, Some w =>
      Some (4096 * x + 256 * y + 16 * z + w)%N
  | _, _, _, _ => None
  end.

Definition high_surrogate (n : N) : bool :=
  ((55296 <=? n) && (n <=? 56319))%N.

Definition low_surrogate (n : N) : bool :=
  ((56320 <=? n) && (n <=? 57343))%N.

(** The character a one-letter escape stands for. *)
Definition short_escape (c : ascii) : option N :=
  let n := N_of_ascii c in
  if (n =? 34)%N then Some 34%N
  else if (n =? 92)%N then Some 92%N
  else if (n =? 47)%N then Some 47%N
  else if (n =? 98)%N then Some 8%N
  else if (n =? 102)%N then Some 12%N
  else if (n =? 110)%N then Some 10%N
  else if (n =? 114)%N then Some 13%N
  else if (n =? 116)%N then Some 9%N
  else None.

Definition cons_char (n : N) (r : option (ustr * string))
    : option (ustr * string) :=
  match r with
  | Some (t, rest) => Some (n :: t, rest)
  | None => None
  end.

(** The low surrogate whose escape the text starts with, if any. *)
Definition low_escape_ahead (s : string) : option N :=
  match s with
  | String b0 r0 =>
      if negb (N_of_ascii b0 =? 92)%N then None
      else
        match r0 with
        | String b1 r1 =>
            if negb (N_of_ascii b1 =? 117)%N then None
            else
              match r1 with
              | String b2 (String b3 (String b4 (String b5 _))) =>
                  match hex4_value b2 b3 b4 b5 with
                  | Some lo => if low_surrogate lo then Some lo else None
                  | None => None
                  end
              | _ => None
              end
        | EmptyString => None
        end
  | EmptyString => None
  end.

(** The characters of a string literal after its opening quote, up to
    the closing quote, and the text after it. *)
Fixpoint read_chars (s : string) : option (ustr * string) :=
  match s with
  | EmptyString => None
  | String c rest =>
      if (N_of_ascii c =? 34)%N then Some ([], rest)
      else if (N_of_ascii c =? 92)%N then
        match rest with
        | EmptyString => None
        | String e r1 =>
            if (N_of_ascii e =? 117)%N then
              match r1 with
              | String a1 (String a2 (String a3 (String a4 r2))) =>
                  match hex4_value a1 a2 a3 a4 with
                  | Some hi =>
                      match r2 with
                      | String _ (String _ (String _ (String _
                          (String _ (String _ r3))))) =>
                          match (if high_surrogate hi
                                 then low_escape_ahead r2 else None) with
                          | Some lo =>
                              cons_char
                                (65536 + (hi - 55296) * 1024 + (lo - 56320))%N
                                (read_chars r3)
                          | None => cons_char hi (read_chars r2)
                          end
                      | _ => cons_char hi (read_chars r2)
                      end
                  | None => None
                  end
              | _ => None
              end
            else
              match short_escape e with
              | Some n => cons_char n (read_chars r1)
              | None => None
              end
        end
      else cons_char (N_of_ascii c) (read_chars rest)
  end.

Definition is_digit (c : ascii) : bool :=
  ((48 <=? N_of_ascii c) && (N_of_ascii c <=? 57))%N.

(** The characters a JSON number is made of. *)
Definition number_char (c : ascii) : bool :=
  let n := N_of_ascii c in
  (is_digit c || (n =? 43) || (n =? 45) || (n =? 46) || (n =? 101)
   || (n =? 69))%N.

Fixpoint all_chars (p : ascii -> bool) (s : string) : bool :=
  match s with
  | EmptyString => true
  | String c s' => p c && all_chars p s'
  end.

(** The longest prefix made of characters that satisfy [p], and the
    rest. *)
Fixpoint span (p : ascii -> bool) (s : string) : string * string :=
  match s with
  | EmptyString => ("", "")
  | String c s' =>
      if p c then let (a, b) := span p s' in (String c a, b) else ("", s)
  end.

Fixpoint read_nat (s : string) (acc : N) : option N :=
  match s with
  | EmptyString => Some acc
  | String c s' =>
      if is_digit c then read_nat s' (10 * acc + (N_of_ascii c - 48))%N
      else None
  end.

(** An integer literal: digits, after an optional minus sign. *)
Definition read_int (tok : string) : option Z :=
  match tok with
  | EmptyString => None
  | String c t =>
      if (N_of_ascii c =? 45)%N then
        match t with
        | EmptyString => None
        | _ => match read_nat t 0 with
               | Some n => Some (- Z.of_N n)
               | None => None
               end
        end
      else match read_nat tok 0 with
           | Some n => Some (Z.of_N n)
           | None => None
           end
  end.

Fixpoint strip_prefix (p s : string) : option string :=
  match p with
  | EmptyString => Some s
  | String c p' =>
      match s with
      | String c' s' => if Ascii.eqb c c' then strip_prefix p' s' else None
      | EmptyString => None
      end
  end.

Definition read_number (s : string) : option (payload * string) :=
  let (tok, rest) := span number_char s in
  match read_int tok with
  | Some z => Some (VInt z, rest)
  | None =>
      match tok with
      | EmptyString => None
      | _ => Some (VFloat tok, rest)
      end
  end.

Definition read_word (word : string) (v : payload) (s : string)
    : option (payload * string) :=
  match strip_prefix word s with
  | Some rest => Some (v, rest)
  | None => None
  end.

(** A value that is no list and no object: a string, a word or a
    number. *)
Definition parse_scalar (t : string) : option (payload * string) :=
  match t with
  | EmptyString => None
  | String c rest =>
      let n := N_of_ascii c in
      if (n =? 34)%N then
        match read_chars rest with
        | Some (x, r) => Some (VStr x, r)
        | None => None
        end
      else if (n =? 110)%N then read_word "null" VNone t
      else if (n =? 116)%N then read_word "true" (VBool true) t
      else if (n =? 102)%N then read_word "false" (VBool false) t
      else if (n =? 78)%N then read_word "NaN" (VFloat "nan") t
      else if (n =? 73)%N then read_word "Infinity" (VFloat "inf") t
      else
        match strip_prefix "-Infinity" t with
        | Some r => Some (VFloat "-inf", r)
        | None => read_number t
        end
  end.

Fixpoint parse_value (fuel : nat) (s : string) : option (payload * string) :=
  match fuel with
  | O => None
  | S fuel' =>
      match skip_ws s with
      | EmptyString => None
      | String c rest as t =>
          if (N_of_ascii c =? 91)%N then
            match skip_ws rest with
            | EmptyString => None
            | String c' rest' as r =>
                if (N_of_ascii c' =? 93)%N then Some (VList [], rest')
                else match parse_items fuel' r with
                     | Some (xs, r') => Some (VList xs, r')
                     | None => None
                     end
            end
          else if (N_of_ascii c =? 123)%N then
            match skip_ws rest with
            | EmptyString => None
            | String c' rest' as r =>
                if (N_of_ascii c' =? 125)%N then Some (VDict [], rest')
                else match parse_members fuel' r with
                     | Some (kvs, r') => Some (VDict kvs, r')
                     | None => None
                     end
            end
          else parse_scalar t
      end
  end
with parse_items (fuel : nat) (s : string) : option (list payload * string) :=
  match fuel with
  | O => None
  | S fuel' =>
      match parse_value fuel' s with
      | None => None
      | Some (x, r) =>
          match skip_ws r with
          | EmptyString => None
          | String c r' =>
              if (N_of_ascii c =? 44)%N then
                match parse_items fuel' r' with
                | Some (xs, r'') => Some (x :: xs, r'')
                | None => None
                end
              else if (N_of_ascii c =? 93)%N then Some ([x], r')
              else None
          end
      end
  end
with parse_members (fuel : nat) (s : string)
    : option (list (ustr * payload) * string) :=
  match fuel with
  | O => None
  | S fuel' =>
      match skip_ws s with
      | EmptyString => None
      | String q r0 =>
          if negb (N_of_ascii q =? 34)%N then None
          else
            match read_chars r0 with
            | None => None
            | Some (k, r1) =>
                match skip_ws r1 with
                | EmptyString => None
                | String c r2 =>
                    if negb (N_of_ascii c =? 58)%N then None
                    else
                      match parse_value fuel' r2 with
                      | None => None
                      | Some (x, r3) =>
                          match skip_ws r3 with
                          | EmptyString => None
                          | String c' r4 =>
                              if (N_of_ascii c' =? 44)%N then
                                match parse_members fuel' r4 with
                                | Some (kvs, r5) => Some ((k, x) :: kvs, r5)
                                | None => None
                                end
                              else if (N_of_ascii c' =? 125)%N
                              then Some ([(k, x)], r4)
                              else None
                          end
                      end
                end
            end
      end
  end.

(** [json.loads] on the model's payloads: the value the whole text
    stands for. *)
Definition json_loads (s : string) : option payload :=
  match parse_value (S (String.length s)) s with
  | Some (v, rest) =>
      match skip_ws rest with
      | EmptyString => Some v
      | _ => None
      end
  | None => None
  end.

(** No high surrogate stands directly before a low one. *)
Fixpoint no_surrogate_pair (s : ustr) : bool :=
  match s with
  | a :: (b :: _) as t =>
      negb (high_surrogate a && low_surrogate b) && no_surrogate_pair t
  | _ => true
  end.

(** A string [response.json()] can produce: code points below 1114112,
    and no high surrogate directly before a low one (the decoder joins
    such a pair into one code point). *)
Definition wf_str (s : ustr) : bool :=
  forallb (fun n => (n <? 1114112)%N) s && no_surrogate_pair s.

(** The text of a float: one of [nan], [inf], [-inf], or a number that
    is no integer literal. *)
Definition wf_float (tok : string) : bool :=
  String.eqb tok "nan" || String.eqb tok "inf" || String.eqb tok "-inf"
  || (all_chars number_char tok
      && match tok with EmptyString => false | _ => true end
      && match read_int tok with Some _ => false | None => true end).

(** A payload [response.json()] can produce: such strings and keys,
    and floats with such texts. *)
Fixpoint wf_payload (v : payload) : bool :=
  match v with
  | VFloat tok => wf_float tok
  | VStr s => wf_str s
  | VList xs => forallb wf_payload xs
  | VDict kvs =>
      forallb (fun kv : ustr * payload =>
                 let (k, x) := kv in wf_str k && wf_payload x) kvs
  | _ => true
  end.

(** What follows a value in the text: the end, a comma or a line
    break. *)
Definition delim (rest : string) : bool :=
  match rest with
  | EmptyString => true
  | String c _ => ((N_of_ascii c =? 44) || (N_of_ascii c =? 10))%N
  end.

(** A text that starts with the first character of a value: no white
    space and no closing bracket. *)
Definition starts_value (t : string) : bool :=
  match t with
  | EmptyString => false
  | String c _ =>
      negb (is_ws c) && negb (N_of_ascii c =? 93)%N
      && negb (N_of_ascii c =? 125)%N
  end.

(** The depth of recursion the reader needs for a value. *)
Fixpoint cost (v : payload) : nat :=
  match v with
  | VList xs =>
      S ((fix go (xs : list payload) : nat :=
            match xs with
            | [] => O
            | x :: xs' => S (Nat.max (cost x) (go xs'))
            end) xs)
  | VDict kvs =>
      S ((fix go (kvs : list (ustr * payload)) : nat :=
            match kvs with
            | [] => O
            | (_, x) :: kvs' => S (Nat.max (cost x) (go kvs'))
            end) kvs)
  | _ => 1%nat
  end.

Fixpoint items_cost (xs : list payload) : nat :=
  match xs with
  | [] => O
  | x :: xs' => S (Nat.max (cost x) (items_cost xs'))
  end.

Fixpoint members_cost (kvs : list (ustr * payload)) : nat :=
  match kvs with
  | [] => O
  | (_, x) :: kvs' => S (Nat.max (cost x) (members_cost kvs'))
  end.

(** *** The layout of the serialization

    The indented serialization as lines: each line has the depth at
    which it is nested and its text, and is written after two spaces
    per level of depth.  The items of a list and the members of an
    object stand on lines of their own, one level deeper than the
    brackets around them, with a comma after each but the last. *)
Definition line : Type := nat * string.

Definition write_line (l : line) : string := spaces (2 * l.1) +:+ l.2.

Definition write_lines (ls : list line) : string :=
  String.concat nl (map write_line ls).

(** [t] added at the end of the last line. *)
Fixpoint suffix_last (t : string) (ls : list line) : list line :=
  match ls with
  | [] => []
  | (d, s) :: ls' =>
      match ls' with
      | [] => [(d, s +:+ t)]
      | _ => (d, s) :: suffix_last t ls'
      end
  end.

(** [t] added in front of the text of the first line. *)
Definition prefix_first (t : string) (ls : list line) : list line :=
  match ls with
  | [] => []
  | (d, s) :: ls' => (d, t +:+ s) :: ls'
  end.

(** The lines of several items, a comma after each but the last. *)
Fixpoint separated (blocks : list (list line)) : list line :=
  match blocks with
  | [] => []
  | b :: bs =>
      match bs with
      | [] => b
      | _ => suffix_last "," b ++ separated bs
      end
  end.

Fixpoint layout (depth : nat) (v : payload) : list line :=
  match v with
  | VNone => [(depth, "null")]
  | VBool true => [(depth, "true")]
  | VBool false => [(depth, "false")]
  | VInt z => [(depth, pretty z)]
  | VFloat tok => [(depth, json_float tok)]
  | VStr s => [(depth, json_str s)]
  | VList [] => [(depth, "[]")]
  | VList xs =>
      (depth, "[") :: separated (map (layout (S depth)) xs)
        ++ [(depth, "]")]
  | VDict [] => [(depth, "{}")]
  | VDict kvs =>
      (depth, "{")
        :: separated
             (map (fun kv : ustr * payload =>
                     let (k, x) := kv in
                     prefix_first (json_str k +:+ ": ") (layout (S depth) x))
                kvs)
        ++ [(depth, "}")]
  end.

(** The text of the lines after the first one. *)
Fixpoint following (ls : list line) : string :=
  match ls with
  | [] => ""
  | l :: ls' => nl +:+ write_line l +:+ following ls'
  end.

(** Printable ASCII, or the line feed. *)
Definition plain_char (c : ascii) : bool :=
  char_in 32 126 c || Ascii.eqb c "010".

Fixpoint plain (s : string) : bool :=
  match s with
  | EmptyString => true
  | String c s' => plain_char c && plain s'
  end.

(** The texts of the floats inside a payload. *)
Fixpoint float_tokens (v : payload) : list string :=
  match v with
  | VFloat tok => [tok]
  | VList xs => flat_map float_tokens xs
  | VDict kvs => flat_map (fun kv : ustr * payload =>
                             let (_, x) := kv in float_tokens x) kvs
  | _ => []
  end.

(** A block of lines that starts at depth [d] and whose text, after
    the indentation of its first line, is [t]. *)
Definition writes (d : nat) (b : list line) (t : string) : Prop :=
  exists s rest, b = (d, s) :: rest /\ s +:+ following rest = t.

(** ** Sample environment *)

Module Sample.

(** The headers of a fresh session of [requests] 2.31. *)
Definition session_headers : headers :=
  [("User-Agent", "python-requests/2.31.0");
   ("Accept-Encoding", "gzip, deflate");
   ("Accept", "*/*");
   ("Connection", "keep-alive")].

Definition client : UIMClient :=
  UIMClient_init session_headers "https://uim.example.com:8443/" "admin"
    "secret" true.

(** The module state once [init_uim_client] has run. *)
Definition ready : State := mkState (Some client) [] [].

(** An upstream that answers every request with the same response. *)
Definition stub (response : Response) : list Request -> Request -> exn + Response :=
  fun _ _ => inr response.

(** An upstream that cannot be reached. *)
Definition unreachable : list Request -> Request -> exn + Response :=
  fun _ _ => inl (ConnectionError "Connection refused").

(** A successful response whose body decodes to [v]. *)
Definition fixture (v : payload) : Response :=
  mkResponse 200 "OK" "https://uim.example.com:8443/" (format_json v)
    (Decoded v).

Definition two_devices : list payload :=
  [VDict [(u "id", VStr (u "D1")); (u "name", VStr (u "router"))];
   VDict [(u "id", VStr (u "D2")); (u "name", VStr (u "switch"))]].

(** Two devices with nested values: a list inside an object inside
    the list, a string with characters beyond ASCII (U+00E9, U+20AC and
    U+1F600), a float and an empty list. *)
Definition inventory : list payload :=
  [VDict [(u "id", VStr (u "D1"));
          (u "tags", VList [VStr [233; 8364; 128512]%N; VInt 2]);
          (u "load", VFloat "1.5")];
   VDict [(u "id", VStr (u "D2"));
          (u "tags", VList []);
          (u "up", VBool true)]].

(** A text between double quotes. *)
Definition quoted (s : string) : string :=
  String "034" s +:+ String "034" "".

(** The indented serialization of [inventory], line by line. *)
Definition inventory_text : string :=
  String.concat nl
    ["[";
     "  {";
     "    " +:+ quoted "id" +:+ ": " +:+ quoted "D1" +:+ ",";
     "    " +:+ quoted "tags" +:+ ": [";
     "      " +:+ quoted "\u00e9\u20ac\ud83d\ude00" +:+ ",";
     "      2";
     "    ],";
     "    " +:+ quoted "load" +:+ ": 1.5";
     "  },";
     "  {";
     "    " +:+ quoted "id" +:+ ": " +:+ quoted "D2" +:+ ",";
     "    " +:+ quoted "tags" +:+ ": [],";
     "    " +:+ quoted "up" +:+ ": true";
     "  }";
     "]"].

Definition not_found : Response :=
  mkResponse 404 "Not Found" "https://uim.example.com:8443/devices/D1" ""
    (Malformed "Expecting value: line 1 column 1 (char 0)").

Definition not_modified : Response :=
  mkResponse 304 "Not Modified" "https://uim.example.com:8443/devices/D1" ""
    (Malformed "Expecting value: line 1 column 1 (char 0)").

Definition no_content : Response :=
  mkResponse 204 "No Content" "https://uim.example.com:8443/alarms/A1/ack" ""
    (Malformed "Expecting value: line 1 column 1 (char 0)").

Definition full_env : gmap string string :=
  {[ "UIM_BASE_URL" := "https://uim.example.com:8443/";
     "UIM_USERNAME" := "admin";
     "UIM_PASSWORD" := "secret" ]}.

Definition env_without_password : gmap string string :=
  {[ "UIM_BASE_URL" := "https://uim.example.com:8443/";
     "UIM_USERNAME" := "admin" ]}.

Definition env_without_anything : gmap string string := ∅.

Definition env_empty_password : gmap string string :=
  {[ "UIM_BASE_URL" := "https://uim.example.com:8443/";
     "UIM_USERNAME" := "admin";
     "UIM_PASSWORD" := "" ]}.

End Sample.

(** ** Further sample values *)

Module Sample2.

(** An upstream that always answers with the two sample devices. *)
Definition devices_upstream : list Request -> Request -> exn + Response :=
  Sample.stub (Sample.fixture (VList Sample.two_devices)).

Definition assign_arguments : dict :=
  [("alarm_id", VStr "A1"); ("username", VStr "bob")].

Definition alarm_filters : dict :=
  [("severity", VInt 0); ("limit", VInt 0); ("source", VStr "")].

(** A payload with a float, a control character and characters beyond
    ASCII, one of them (U+1F600) beyond 65535, in a key and in a
    string. *)
Definition mixed_payload : payload :=
  VDict [(u "load", VFloat "1.5");
         ([110; 225; 109; 128512]%N,
          VStr [233; 9; 120; 8364; 128512; 55357]%N)].

(** The indented serialization of [mixed_payload], line by line. *)
Definition mixed_payload_text : string :=
  String.concat nl
    ["{";
     "  " +:+ Sample.quoted "load" +:+ ": 1.5,";
     "  " +:+ Sample.quoted "n\u00e1m\ud83d\ude00" +:+ ": "
          +:+ Sample.quoted "\u00e9\tx\u20ac\ud83d\ude00\ud83d";
     "}"].

(** The characters of a double quote followed by [a\b], and of [a\b]
    alone. *)
Definition with_quote : ustr := [34; 97; 92; 98]%N.

Definition without_quote : ustr := [97; 92; 98]%N.

(** The payload an upstream sends back for an accepted alarm. *)
Definition accepted_alarm : payload :=
  VDict [(u "alarm",
          VDict [(u "id", VStr (u "A1")); (u "severity", VInt 4)]);
         (u "accepted", VBool true);
         (u "note", VNone)].

(** The indented serialization of [accepted_alarm], line by line. *)
Definition accepted_alarm_text : string :=
  String.concat nl
    ["{";
     "  " +:+ Sample.quoted "alarm" +:+ ": {";
     "    " +:+ Sample.quoted "id" +:+ ": " +:+ Sample.quoted "A1" +:+ ",";
     "    " +:+ Sample.quoted "severity" +:+ ": 4";
     "  },";
     "  " +:+ Sample.quoted "accepted" +:+ ": true,";
     "  " +:+ Sample.quoted "note" +:+ ": null";
     "}"].

End Sample2.

(** * Properties of the dispatch layer *)

(** ** Reasoning about raising code *)

Lemma returns_one_text_ret s : returns_one_text (ret [text_content s]).
Proof. intros st r st' [= <- _]. eauto. Qed.

Lemma returns_one_text_bind {A} (m : M A) k :
  (forall a, returns_one_text (k a)) -> returns_one_text (bind m k).
Proof.
  intros Hk st r st'. unfold bind.
  destruct (m st) as [[e | a] st1]; [discriminate |].
  apply Hk.
Qed.

Create HintDb one_text.
#[local] Hint Resolve returns_one_text_ret : one_text.
#[local] Hint Extern 1 (returns_one_text (bind _ _)) =>
  apply returns_one_text_bind; intros : one_text.

(** Splits the chain of comparisons of [call_tool_body] on [name]. *)
Ltac dispatch_cases name :=
  repeat match goal with
         | |- context [if String.eqb name ?s then _ else _] =>
             destruct (String.eqb_spec name s); [subst name |]
         end.

(** Picks the branch of [call_tool_body] for a literal operation name. *)
Ltac select_branch :=
  unfold call_tool_body; cbn [String.eqb Ascii.eqb Bool.eqb andb].

Lemma bind_ret_l {A B} (a : A) (k : A -> M B) st : bind (ret a) k st = k a st.
Proof. reflexivity. Qed.

Lemma py_getitem_dict d key v :
  dict_lookup key d = Some v -> py_getitem (VDict d) key = ret v.
Proof. intros H. unfold py_getitem. rewrite H. reflexivity. Qed.

Lemma py_getitem_missing d key :
  dict_lookup key d = None -> py_getitem (VDict d) key = raise (KeyError key).
Proof. intros H. unfold py_getitem. rewrite H. reflexivity. Qed.

Lemma py_get_dict d key dflt :
  py_get (VDict d) key dflt = ret (default dflt (dict_lookup key d)).
Proof. reflexivity. Qed.

(** ** Requests issued by a computation *)

Lemma sends_silent {A} P (m : M A) :
  (forall st, issued (snd (m st)) = issued st) -> sends P m.
Proof.
  intros H st. exists []. rewrite H, app_nil_r. split; constructor.
Qed.

Lemma sends_ret {A} P (a : A) : sends P (ret a).
Proof. apply sends_silent. reflexivity. Qed.

Lemma sends_raise {A} P e : sends P (@raise A e).
Proof. apply sends_silent. reflexivity. Qed.

Lemma sends_log P level msg : sends P (log level msg).
Proof. apply sends_silent. reflexivity. Qed.

Lemma sends_lift_option {A} P (o : option A) e : sends P (lift_option o e).
Proof. destruct o; [apply sends_ret | apply sends_raise]. Qed.

Lemma sends_py_get P arguments key dflt : sends P (py_get arguments key dflt).
Proof. destruct arguments; first [apply sends_ret | apply sends_raise]. Qed.

Lemma sends_py_getitem P arguments key : sends P (py_getitem arguments key).
Proof.
  destruct arguments; first [apply sends_lift_option | apply sends_raise].
Qed.

Lemma sends_len P v : sends P (len v).
Proof. apply sends_lift_option. Qed.

Lemma sends_bind {A B} P (m : M A) (k : A -> M B) :
  sends P m -> (forall a, sends P (k a)) -> sends P (bind m k).
Proof.
  intros Hm Hk st. unfold bind.
  destruct (Hm st) as (new1 & E1 & F1).
  destruct (m st) as [[e | a] st1]; simpl in *; [eauto |].
  destruct (Hk a st1) as (new2 & E2 & F2).
  exists (new1 ++ new2). rewrite E2, E1, app_assoc.
  split; [reflexivity | apply Forall_app; auto].
Qed.

Lemma sends_try_except {A} P (m : M A) catches handler :
  sends P m -> (forall e, sends P (handler e)) ->
  sends P (try_except m catches handler).
Proof.
  intros Hm Hh st. unfold try_except.
  destruct (Hm st) as (new1 & E1 & F1).
  destruct (m st) as [[e | a] st1]; simpl in *; [| eauto].
  destruct (catches e); simpl; [| eauto].
  destruct (Hh e st1) as (new2 & E2 & F2).
  exists (new1 ++ new2). rewrite E2, E1, app_assoc.
  split; [reflexivity | apply Forall_app; auto].
Qed.

Create HintDb sends.
#[local] Hint Resolve sends_ret sends_raise sends_log sends_lift_option
  sends_py_get sends_py_getitem sends_len : sends.
#[local] Hint Extern 1 (sends _ (bind _ _)) =>
  apply sends_bind; [| intros] : sends.
#[local] Hint Extern 1 (sends _ (try_except _ _ _)) =>
  apply sends_try_except; [| intros] : sends.

(** ** Header mappings *)

Lemma header_lookup_set_same k v h :
  header_lookup k (header_set k v h) = Some v.
Proof.
  induction h as [| [k' v'] h IH]; simpl.
  - rewrite String.eqb_refl. reflexivity.
  - destruct (String.eqb (lower k) (lower k')) eqn:E; simpl.
    + rewrite String.eqb_refl. reflexivity.
    + rewrite E. exact IH.
Qed.

Lemma header_lookup_set_other k k' v h :
  String.eqb (lower k) (lower k') = false ->
  header_lookup k (header_set k' v h) = header_lookup k h.
Proof.
  intros Hk. induction h as [| [k'' v''] h IH]; simpl.
  - rewrite Hk. reflexivity.
  - destruct (String.eqb (lower k') (lower k'')) eqn:E; simpl.
    + apply String.eqb_eq in E. rewrite <- E, Hk. reflexivity.
    + rewrite IH. reflexivity.
Qed.

(** A client built by [UIMClient.__init__] puts both JSON headers on
    every request it prepares, with or without a body. *)
Lemma client_request_headers default_headers b u p v method url kwargs :
  carries_json_headers
    (prepare_request (session (UIMClient_init default_headers b u p v))
       method url kwargs).
Proof.
  assert (Ha : header_lookup "Accept"
                 (s_headers (session (UIMClient_init default_headers b u p v)))
               = Some "application/json").
  { simpl. unfold headers_update. simpl.
    rewrite header_lookup_set_other by reflexivity.
    apply header_lookup_set_same. }
  assert (Hc : header_lookup "Content-Type"
                 (s_headers (session (UIMClient_init default_headers b u p v)))
               = Some "application/json").
  { simpl. unfold headers_update. simpl. apply header_lookup_set_same. }
  unfold carries_json_headers, prepare_request. rewrite Hc.
  destruct (kw_json kwargs); simpl; auto.
Qed.

(** ** Reading the serialization back

    What [format_json] writes for a payload is read back as that
    payload: first the string literals, with their escapes and
    surrogate pairs, then the numbers, then whole values through their
    nesting.  The layout of the text in lines and its characters
    follow. *)

Lemma append_cons c (a b : string) : String c a +:+ b = String c (a +:+ b).
Proof. reflexivity. Qed.

Lemma append_nil_l (b : string) : "" +:+ b = b.
Proof. reflexivity. Qed.

Lemma append_empty_r (s : string) : s +:+ "" = s.
Proof.
  induction s as [| c s IH]; [reflexivity |].
  rewrite append_cons. congruence.
Qed.

Lemma string_append_assoc (a b c : string) :
  (a +:+ b) +:+ c = a +:+ (b +:+ c).
Proof.
  induction a as [| x a IH]; [reflexivity |].
  rewrite !append_cons. congruence.
Qed.

Lemma length_append (a b : string) :
  String.length (a +:+ b) = (String.length a + String.length b)%nat.
Proof.
  induction a as [| x a IH]; [reflexivity |].
  rewrite append_cons. simpl. congruence.
Qed.

(** *** String literals *)

Lemma hex_value_digit d : (d < 16)%N -> hex_value (hex_digit d) = Some d.
Proof.
  intros H.
  assert (d = 0 \/ d = 1 \/ d = 2 \/ d = 3 \/ d = 4 \/ d = 5 \/ d = 6
          \/ d = 7 \/ d = 8 \/ d = 9 \/ d = 10 \/ d = 11 \/ d = 12
          \/ d = 13 \/ d = 14 \/ d = 15)%N as Hd by lia.
  repeat (destruct Hd as [-> | Hd]; [reflexivity |]).
  subst. reflexivity.
Qed.

Lemma hex4_digits n :
  (n < 65536)%N ->
  (4096 * ((n / 4096) mod 16) + 256 * ((n / 256) mod 16)
   + 16 * ((n / 16) mod 16) + n mod 16 = n)%N.
Proof.
  intros H.
  pose proof (N.div_mod n 16 ltac:(lia)).
  pose proof (N.div_mod (n / 16) 16 ltac:(lia)).
  pose proof (N.div_mod (n / 256) 16 ltac:(lia)).
  assert (n / 256 = n / 16 / 16)%N by (rewrite N.Div0.div_div; reflexivity).
  assert (n / 4096 = n / 256 / 16)%N by (rewrite N.Div0.div_div; reflexivity).
  assert (n / 4096 < 16)%N by (apply N.Div0.div_lt_upper_bound; lia).
  rewrite (N.mod_small (n / 4096) 16) by assumption.
  lia.
Qed.

Lemma hex4_value_hex4 n :
  (n < 65536)%N ->
  hex4_value (hex_digit ((n / 4096) mod 16)) (hex_digit ((n / 256) mod 16))
    (hex_digit ((n / 16) mod 16)) (hex_digit (n mod 16)) = Some n.
Proof.
  intros H. unfold hex4_value.
  rewrite !hex_value_digit by (apply N.mod_lt; lia).
  rewrite hex4_digits by assumption. reflexivity.
Qed.

(** A [\uXXXX] escape that is not the first half of a pair. *)
Lemma read_chars_escape a1 a2 a3 a4 hi t :
  hex4_value a1 a2 a3 a4 = Some hi ->
  (high_surrogate hi = true -> low_escape_ahead t = None) ->
  read_chars (String "\" (String "u"
                (String a1 (String a2 (String a3 (String a4 t))))))
  = cons_char hi (read_chars t).
Proof.
  intros Hhex Hlow.
  change (read_chars (String "\" (String "u"
            (String a1 (String a2 (String a3 (String a4 t)))))))
    with (match hex4_value a1 a2 a3 a4 with
          | Some hi =>
              match t with
              | String _ (String _ (String _ (String _
                  (String _ (String _ r3))))) =>
                  match (if high_surrogate hi
                         then low_escape_ahead t else None) with
                  | Some lo =>
                      cons_char
                        (65536 + (hi - 55296) * 1024 + (lo - 56320))%N
                        (read_chars r3)
                  | None => cons_char hi (read_chars t)
                  end
              | _ => cons_char hi (read_chars t)
              end
          | None => None
          end).
  rewrite Hhex.
  destruct (high_surrogate hi).
  - rewrite (Hlow eq_refl).
    destruct t as [| ? [| ? [| ? [| ? [| ? [| ? ?]]]]]]; reflexivity.
  - destruct t as [| ? [| ? [| ? [| ? [| ? [| ? ?]]]]]]; reflexivity.
Qed.

(** A surrogate pair. *)
Lemma read_chars_pair a1 a2 a3 a4 b1 b2 b3 b4 hi lo t :
  hex4_value a1 a2 a3 a4 = Some hi ->
  hex4_value b1 b2 b3 b4 = Some lo ->
  high_surrogate hi = true ->
  low_surrogate lo = true ->
  read_chars (String "\" (String "u"
                (String a1 (String a2 (String a3 (String a4
                   (String "\" (String "u"
                      (String b1 (String b2 (String b3 (String b4 t))))))))))))
  = cons_char (65536 + (hi - 55296) * 1024 + (lo - 56320))%N (read_chars t).
Proof.
  intros Hhi Hlo Hh Hl.
  change (read_chars (String "\" (String "u"
            (String a1 (String a2 (String a3 (String a4
               (String "\" (String "u"
                  (String b1 (String b2 (String b3 (String b4 t)))))))))))))
    with (match hex4_value a1 a2 a3 a4 with
          | Some hi =>
              match (if high_surrogate hi
                     then match hex4_value b1 b2 b3 b4 with
                          | Some lo =>
                              if low_surrogate lo then Some lo else None
                          | None => None
                          end
                     else None) with
              | Some lo =>
                  cons_char (65536 + (hi - 55296) * 1024 + (lo - 56320))%N
                    (read_chars t)
              | None =>
                  cons_char hi
                    (read_chars
                       (String "\" (String "u"
                          (String b1 (String b2 (String b3 (String b4 t)))))))
              end
          | None => None
          end).
  rewrite Hhi, Hh, Hlo, Hl. reflexivity.
Qed.

Lemma escape_text n (t : string) :
  ("\u" +:+ hex4 n) +:+ t =
    String "\" (String "u"
      (String (hex_digit ((n / 4096) mod 16))
         (String (hex_digit ((n / 256) mod 16))
            (String (hex_digit ((n / 16) mod 16))
               (String (hex_digit (n mod 16)) t))))).
Proof. reflexivity. Qed.

Lemma low_escape_ahead_escape n t :
  (n < 65536)%N ->
  low_escape_ahead (("\u" +:+ hex4 n) +:+ t) =
    if low_surrogate n then Some n else None.
Proof.
  intros H. rewrite escape_text.
  change (match hex4_value (hex_digit ((n / 4096) mod 16))
                  (hex_digit ((n / 256) mod 16))
                  (hex_digit ((n / 16) mod 16)) (hex_digit (n mod 16)) with
          | Some lo => if low_surrogate lo then Some lo else None
          | None => None
          end = if low_surrogate n then Some n else None).
  rewrite hex4_value_hex4 by assumption. reflexivity.
Qed.

Lemma json_char_pair n :
  (65536 <= n)%N -> (n < 1114112)%N ->
  let m := (n - 65536)%N in
  let hi := (55296 + (m / 1024) mod 1024)%N in
  let lo := (56320 + m mod 1024)%N in
  (hi < 65536)%N /\ (lo < 65536)%N
  /\ high_surrogate hi = true /\ low_surrogate hi = false
  /\ low_surrogate lo = true
  /\ (65536 + (hi - 55296) * 1024 + (lo - 56320))%N = n.
Proof.
  intros Hlo Hhi m hi lo.
  assert (n = m + 65536)%N as Em by (unfold m; lia).
  assert (hi = 55296 + (m / 1024) mod 1024)%N as Eh by reflexivity.
  assert (lo = 56320 + m mod 1024)%N as El by reflexivity.
  clearbody lo hi m.
  assert (m / 1024 < 1024)%N by (apply N.Div0.div_lt_upper_bound; lia).
  assert (m mod 1024 < 1024)%N by (apply N.mod_lt; lia).
  pose proof (N.div_mod m 1024 ltac:(lia)) as Hm.
  rewrite (N.mod_small (m / 1024)) in Eh by assumption.
  generalize dependent (m / 1024)%N. intros q Eh Hq.
  generalize dependent (m mod 1024)%N. intros r El Hr Hm.
  unfold high_surrogate, low_surrogate.
  split; [lia |]. split; [lia |].
  split; [apply andb_true_iff; split; apply N.leb_le; lia |].
  split; [apply andb_false_iff; left; apply N.leb_gt; lia |].
  split; [apply andb_true_iff; split; apply N.leb_le; lia |].
  lia.
Qed.

(** No escape written for a code point other than a low surrogate reads
    as the escape of a low surrogate. *)
Lemma low_escape_ahead_json_char m t :
  (m < 1114112)%N -> low_surrogate m = false ->
  low_escape_ahead (json_char m +:+ t) = None.
Proof.
  intros Hm Hlow. unfold json_char.
  repeat match goal with
         | |- context [if (m =? ?k)%N then _ else _] =>
             destruct (m =? k)%N eqn:?; [reflexivity |]
         end.
  destruct ((32 <=? m) && (m <=? 126))%N eqn:Hp.
  - apply andb_true_iff in Hp as [Hp1 Hp2].
    apply N.leb_le in Hp1, Hp2.
    change (String (ascii_of_N m) "" +:+ t) with (String (ascii_of_N m) t).
    unfold low_escape_ahead.
    rewrite N_ascii_embedding by lia.
    replace (m =? 92)%N with false by (symmetry; assumption).
    reflexivity.
  - destruct (m <? 65536)%N eqn:Hs.
    + apply N.ltb_lt in Hs.
      rewrite low_escape_ahead_escape by lia. rewrite Hlow. reflexivity.
    + apply N.ltb_ge in Hs.
      destruct (json_char_pair m) as (H1 & H2 & H3 & H4 & H5 & H6);
        [lia | lia |].
      cbv zeta. rewrite !string_append_assoc.
      rewrite <- (string_append_assoc "\u" (hex4 _)).
      rewrite low_escape_ahead_escape by assumption.
      rewrite H4. reflexivity.
Qed.

Lemma read_chars_json_char n t :
  (n < 1114112)%N ->
  (high_surrogate n = true -> low_escape_ahead t = None) ->
  read_chars (json_char n +:+ t) = cons_char n (read_chars t).
Proof.
  intros Hn Hlow. unfold json_char.
  repeat match goal with
         | |- context [if (n =? ?k)%N then _ else _] =>
             let E := fresh "E" in
             destruct (n =? k)%N eqn:E;
               [apply N.eqb_eq in E; subst n; reflexivity |]
         end.
  destruct ((32 <=? n) && (n <=? 126))%N eqn:Hp.
  - apply andb_true_iff in Hp as [Hp1 Hp2].
    apply N.leb_le in Hp1, Hp2.
    change (String (ascii_of_N n) "" +:+ t) with (String (ascii_of_N n) t).
    change (read_chars (String (ascii_of_N n) t))
      with (if (N_of_ascii (ascii_of_N n) =? 34)%N then Some ([], t)
            else if (N_of_ascii (ascii_of_N n) =? 92)%N then
              match t with
              | EmptyString => None
              | String e r1 =>
                  if (N_of_ascii e =? 117)%N then
                    match r1 with
                    | String a1 (String a2 (String a3 (String a4 r2))) =>
                        match hex4_value a1 a2 a3 a4 with
                        | Some hi =>
                            match r2 with
                            | String _ (String _ (String _ (String _
                                (String _ (String _ r3))))) =>
                                match (if high_surrogate hi
                                       then low_escape_ahead r2
                                       else None) with
                                | Some lo =>
                                    cons_char
                                      (65536 + (hi - 55296) * 1024
                                       + (lo - 56320))%N
                                      (read_chars r3)
                                | None => cons_char hi (read_chars r2)
                                end
                            | _ => cons_char hi (read_chars r2)
                            end
                        | None => None
                        end
                    | _ => None
                    end
                  else
                    match short_escape e with
                    | Some n => cons_char n (read_chars r1)
                    | None => None
                    end
              end
            else cons_char (N_of_ascii (ascii_of_N n)) (read_chars t)).
    rewrite N_ascii_embedding by lia.
    rewrite E, E0. reflexivity.
  - destruct (n <? 65536)%N eqn:Hs.
    + apply N.ltb_lt in Hs. rewrite escape_text.
      apply read_chars_escape; [apply hex4_value_hex4; lia | assumption].
    + apply N.ltb_ge in Hs.
      destruct (json_char_pair n) as (H1 & H2 & H3 & H4 & H5 & H6);
        [lia | lia |].
      cbv zeta. rewrite !string_append_assoc.
      rewrite <- (string_append_assoc "\u" (hex4 _) t).
      rewrite (escape_text _ t).
      rewrite <- (string_append_assoc "\u" (hex4 _)).
      rewrite escape_text.
      etransitivity;
        [apply (read_chars_pair _ _ _ _ _ _ _ _ _ _ t
                  (hex4_value_hex4 _ H1) (hex4_value_hex4 _ H2) H3 H5) |].
      rewrite H6. reflexivity.
Qed.

Lemma wf_str_cons n s :
  wf_str (n :: s) = true ->
  (n < 1114112)%N /\ wf_str s = true
  /\ (high_surrogate n = true ->
      match s with m :: _ => low_surrogate m = false | [] => True end).
Proof.
  unfold wf_str. cbn [forallb no_surrogate_pair].
  intros H. apply andb_true_iff in H as [H1 H2].
  apply andb_true_iff in H1 as [Hn Hs].
  destruct s as [| m s'].
  - split; [apply N.ltb_lt, Hn |]. split; [reflexivity | intros _; exact I].
  - apply andb_true_iff in H2 as [Hp H2].
    split; [apply N.ltb_lt, Hn |]. split.
    + apply andb_true_iff. split; assumption.
    + intros Hh. rewrite Hh in Hp. simpl in Hp.
      destruct (low_surrogate m); [discriminate | reflexivity].
Qed.

(** Reading the characters [json_chars] wrote, up to the closing
    quote, gives the string back. *)
Lemma read_chars_json_chars s rest :
  wf_str s = true ->
  read_chars (json_chars s +:+ String "034" rest) = Some (s, rest).
Proof.
  induction s as [| n s IH]; intros Hwf; [reflexivity |].
  apply wf_str_cons in Hwf as (Hn & Hs & Hpair).
  cbn [json_chars]. rewrite string_append_assoc.
  rewrite read_chars_json_char; [rewrite IH by assumption; reflexivity
                                | assumption |].
  intros Hh. specialize (Hpair Hh).
  destruct s as [| m s']; [reflexivity |].
  cbn [json_chars]. rewrite string_append_assoc.
  apply wf_str_cons in Hs as (Hm & _ & _).
  apply low_escape_ahead_json_char; assumption.
Qed.

(** *** Numbers *)

Lemma all_chars_app p a b :
  all_chars p (a +:+ b) = all_chars p a && all_chars p b.
Proof.
  induction a as [| c a IH]; [reflexivity |].
  rewrite append_cons. cbn [all_chars]. rewrite IH, andb_assoc. reflexivity.
Qed.

Lemma span_token p tok rest :
  all_chars p tok = true ->
  match rest with EmptyString => True | String c _ => p c = false end ->
  span p (tok +:+ rest) = (tok, rest).
Proof.
  intros Htok Hrest. induction tok as [| c tok IH].
  - rewrite append_nil_l. destruct rest as [| c r]; [reflexivity |].
    cbn [span]. rewrite Hrest. reflexivity.
  - cbn [all_chars] in Htok. apply andb_true_iff in Htok as [Hc Htok].
    rewrite append_cons. cbn [span]. rewrite Hc, (IH Htok). reflexivity.
Qed.

Lemma read_nat_app a b acc :
  read_nat (a +:+ b) acc =
    match read_nat a acc with
    | Some n => read_nat b n
    | None => None
    end.
Proof.
  revert acc. induction a as [| c a IH]; intros acc; [reflexivity |].
  rewrite append_cons. cbn [read_nat].
  destruct (is_digit c); [apply IH | reflexivity].
Qed.

Lemma pretty_N_char_digit d :
  (d < 10)%N ->
  is_digit (pretty_N_char d) = true
  /\ (N_of_ascii (pretty_N_char d) - 48 = d)%N.
Proof.
  intros H.
  assert (d = 0 \/ d = 1 \/ d = 2 \/ d = 3 \/ d = 4 \/ d = 5 \/ d = 6
          \/ d = 7 \/ d = 8 \/ d = 9)%N as Hd by lia.
  repeat (destruct Hd as [-> | Hd]; [split; reflexivity |]).
  subst. split; reflexivity.
Qed.

(** The digits [pretty] writes for a natural number, read back. *)
Lemma pretty_N_go_digits x :
  exists ds p,
    (forall s, pretty_N_go x s = ds +:+ s)
    /\ all_chars is_digit ds = true
    /\ (forall acc, read_nat ds acc = Some (acc * p + x)%N).
Proof.
  induction (N.lt_wf_0 x) as [x _ IH].
  assert (x = 0 \/ 0 < x)%N as [-> | Hx] by lia.
  - exists "", 1%N. split; [intros s; apply pretty_N_go_0 |].
    split; [reflexivity |]. intros acc. cbn [read_nat]. f_equal. lia.
  - destruct (IH (x / 10)%N) as (ds & p & Hds & Hall & Hread);
      [apply N.div_lt; lia |].
    destruct (pretty_N_char_digit (x mod 10)) as [Hdig Hval];
      [apply N.mod_lt; lia |].
    exists (ds +:+ String (pretty_N_char (x mod 10)) ""), (10 * p)%N.
    split; [| split].
    + intros s. rewrite pretty_N_go_step by exact Hx.
      rewrite Hds, string_append_assoc. reflexivity.
    + rewrite all_chars_app, Hall. cbn [all_chars]. rewrite Hdig.
      reflexivity.
    + intros acc. rewrite read_nat_app, Hread. cbn [read_nat].
      rewrite Hdig, Hval. f_equal.
      pose proof (N.div_mod x 10 ltac:(lia)) as Hdm.
      remember (x / 10)%N as q eqn:Eq. remember (x mod 10)%N as r eqn:Er.
      clear - Hdm. lia.
Qed.

Lemma pretty_Npos_token p :
  all_chars is_digit (pretty_N_go (Npos p) "") = true
  /\ read_nat (pretty_N_go (Npos p) "") 0 = Some (Npos p).
Proof.
  destruct (pretty_N_go_digits (Npos p)) as (ds & q & Hds & Hall & Hread).
  rewrite Hds, append_empty_r. split; [exact Hall |].
  rewrite Hread. f_equal.
Qed.

Lemma is_digit_number_char c : is_digit c = true -> number_char c = true.
Proof. intros H. unfold number_char. rewrite H. reflexivity. Qed.

Lemma all_digits_number_chars s :
  all_chars is_digit s = true -> all_chars number_char s = true.
Proof.
  induction s as [| c s IH]; [reflexivity |].
  cbn [all_chars]. intros H. apply andb_true_iff in H as [Hc Hs].
  rewrite (is_digit_number_char c Hc), (IH Hs). reflexivity.
Qed.

(** An integer is written with number characters only and reads back
    as itself. *)
Lemma pretty_Z_token z :
  all_chars number_char (pretty z) = true /\ read_int (pretty z) = Some z.
Proof.
  destruct z as [| p | p].
  - split; reflexivity.
  - change (pretty (Zpos p)) with (pretty_N_go (Npos p) "").
    destruct (pretty_Npos_token p) as [Hall Hread].
    split; [apply all_digits_number_chars, Hall |].
    destruct (pretty_N_go (Npos p) "") as [| c t]; [discriminate |].
    unfold read_int.
    destruct (N_of_ascii c =? 45)%N eqn:Hc.
    + cbn [read_nat] in Hread. unfold is_digit in Hread.
      apply N.eqb_eq in Hc. rewrite Hc in Hread. discriminate.
    + rewrite Hread. reflexivity.
  - change (pretty (Zneg p)) with (String "-" (pretty_N_go (Npos p) "")).
    destruct (pretty_Npos_token p) as [Hall Hread].
    split.
    + cbn [all_chars]. rewrite (all_digits_number_chars _ Hall).
      reflexivity.
    + destruct (pretty_N_go (Npos p) "") as [| c t]; [discriminate |].
      unfold read_int.
      change (N_of_ascii "-" =? 45)%N with true. cbv iota.
      rewrite Hread. reflexivity.
Qed.

(** *** Values *)

(** Induction on payloads through the lists and objects they hold. *)
Lemma payload_nested_ind (P : payload -> Prop) :
  P VNone ->
  (forall b, P (VBool b)) ->
  (forall z, P (VInt z)) ->
  (forall tok, P (VFloat tok)) ->
  (forall s, P (VStr s)) ->
  (forall xs, Forall P xs -> P (VList xs)) ->
  (forall kvs, Forall (fun kv => P kv.2) kvs -> P (VDict kvs)) ->
  forall v, P v.
Proof.
  intros HNone HBool HInt HFloat HStr HList HDict.
  fix IH 1. intros [| b | z | tok | s | xs | kvs].
  - exact HNone.
  - apply HBool.
  - apply HInt.
  - apply HFloat.
  - apply HStr.
  - apply HList. revert xs. fix go 1. intros [| x xs]; constructor.
    + apply IH.
    + apply go.
  - apply HDict. revert kvs. fix go 1. intros [| [k x] kvs]; constructor.
    + apply IH.
    + apply go.
Qed.

Lemma cost_list xs : cost (VList xs) = S (items_cost xs).
Proof.
  reflexivity.
Qed.

Lemma cost_dict kvs : cost (VDict kvs) = S (members_cost kvs).
Proof.
  reflexivity.
Qed.

Lemma skip_ws_spaces n t : skip_ws (spaces n +:+ t) = skip_ws t.
Proof. induction n as [| n IH]; [reflexivity | exact IH]. Qed.

Lemma skip_ws_newline_indent level t :
  skip_ws (newline_indent level +:+ t) = skip_ws t.
Proof.
  unfold newline_indent. rewrite string_append_assoc.
  change (skip_ws (spaces (2 * level) +:+ t) = skip_ws t).
  apply skip_ws_spaces.
Qed.

Lemma skip_ws_starts t : starts_value t = true -> skip_ws t = t.
Proof.
  destruct t as [| c t]; [reflexivity |].
  cbn [starts_value skip_ws]. destruct (is_ws c); [discriminate |].
  reflexivity.
Qed.

Lemma skip_ws_idem s : skip_ws (skip_ws s) = skip_ws s.
Proof.
  induction s as [| c s IH]; [reflexivity |].
  cbn [skip_ws]. destruct (is_ws c) eqn:Hc; [exact IH |].
  cbn [skip_ws]. rewrite Hc. reflexivity.
Qed.

Lemma parse_value_skip fuel s :
  parse_value fuel (skip_ws s) = parse_value fuel s.
Proof.
  destruct fuel as [| f]; [reflexivity |].
  cbn [parse_value]. rewrite skip_ws_idem. reflexivity.
Qed.

Lemma parse_items_skip fuel s :
  parse_items fuel (skip_ws s) = parse_items fuel s.
Proof.
  destruct fuel as [| f]; [reflexivity |].
  cbn [parse_items]. rewrite parse_value_skip. reflexivity.
Qed.

Lemma parse_members_skip fuel s :
  parse_members fuel (skip_ws s) = parse_members fuel s.
Proof.
  destruct fuel as [| f]; [reflexivity |].
  cbn [parse_members]. rewrite skip_ws_idem. reflexivity.
Qed.

Lemma number_char_head c :
  number_char c = true ->
  is_ws c = false
  /\ (N_of_ascii c =? 91)%N = false /\ (N_of_ascii c =? 123)%N = false
  /\ (N_of_ascii c =? 93)%N = false /\ (N_of_ascii c =? 125)%N = false
  /\ (N_of_ascii c =? 34)%N = false /\ (N_of_ascii c =? 110)%N = false
  /\ (N_of_ascii c =? 116)%N = false /\ (N_of_ascii c =? 102)%N = false
  /\ (N_of_ascii c =? 78)%N = false /\ (N_of_ascii c =? 73)%N = false.
Proof.
  destruct c as [[] [] [] [] [] [] [] []]; vm_compute;
    first [discriminate | intros _; repeat split].
Qed.

Lemma delim_head rest :
  delim rest = true ->
  match rest with
  | EmptyString => True
  | String c _ => number_char c = false /\ (N_of_ascii c =? 73)%N = false
  end.
Proof.
  destruct rest as [| c r]; [intros _; exact I |].
  destruct c as [[] [] [] [] [] [] [] []]; vm_compute;
    first [discriminate | intros _; split; reflexivity].
Qed.

Lemma parse_value_scalar f c r :
  is_ws c = false ->
  (N_of_ascii c =? 91)%N = false -> (N_of_ascii c =? 123)%N = false ->
  parse_value (S f) (String c r) = parse_scalar (String c r).
Proof.
  intros Hws H1 H2. cbn [parse_value skip_ws]. rewrite Hws, H1, H2.
  reflexivity.
Qed.

(** A number token in front of a delimiter reads as an integer when it
    is an integer literal and as a float otherwise. *)
Lemma parse_scalar_number tok rest :
  all_chars number_char tok = true -> tok <> "" -> delim rest = true ->
  parse_scalar (tok +:+ rest) =
    match read_int tok with
    | Some z => Some (VInt z, rest)
    | None => Some (VFloat tok, rest)
    end.
Proof.
  intros Hall Hne Hd. apply delim_head in Hd.
  destruct tok as [| c tok']; [congruence |].
  pose proof Hall as Hall'.
  cbn [all_chars] in Hall'. apply andb_true_iff in Hall' as [Hc Htok'].
  destruct (number_char_head c Hc)
    as (_ & _ & _ & _ & _ & H34 & H110 & H116 & H102 & H78 & H73).
  assert (Hstrip : strip_prefix "-Infinity" (String c tok' +:+ rest) = None).
  { rewrite append_cons. cbn [strip_prefix].
    destruct (Ascii.eqb "-" c); [| reflexivity].
    destruct tok' as [| d tok''].
    - rewrite append_nil_l. destruct rest as [| d r]; [reflexivity |].
      destruct Hd as [_ Hd]. unfold Ascii.eqb at 1.
      destruct d as [[] [] [] [] [] [] [] []]; try reflexivity.
      vm_compute in Hd. discriminate.
    - rewrite append_cons. cbn [all_chars] in Htok'.
      apply andb_true_iff in Htok' as [Hd' _].
      destruct (number_char_head d Hd') as (_ & _ & _ & _ & _ & _ & _ & _
                                            & _ & _ & Hd73).
      destruct d as [[] [] [] [] [] [] [] []]; try reflexivity.
      vm_compute in Hd73. discriminate. }
  unfold parse_scalar at 1.
  rewrite append_cons at 1. cbv zeta.
  rewrite H34, H110, H116, H102, H78, H73.
  rewrite Hstrip.
  unfold read_number. rewrite span_token; [| exact Hall |].
  - destruct (read_int (String c tok')); reflexivity.
  - destruct rest as [| d r]; [exact I | apply Hd].
Qed.

Lemma token_starts_value tok rest :
  all_chars number_char tok = true -> tok <> "" ->
  starts_value (tok +:+ rest) = true.
Proof.
  intros Hall Hne. destruct tok as [| c tok']; [congruence |].
  cbn [all_chars] in Hall. apply andb_true_iff in Hall as [Hc _].
  destruct (number_char_head c Hc) as (Hws & _ & _ & H93 & H125 & _).
  rewrite append_cons. cbn [starts_value]. rewrite Hws, H93, H125.
  reflexivity.
Qed.

Lemma token_parse_value f tok rest :
  all_chars number_char tok = true -> tok <> "" -> delim rest = true ->
  parse_value (S f) (tok +:+ rest) =
    match read_int tok with
    | Some z => Some (VInt z, rest)
    | None => Some (VFloat tok, rest)
    end.
Proof.
  intros Hall Hne Hd.
  rewrite <- (parse_scalar_number tok rest Hall Hne Hd).
  destruct tok as [| c tok']; [congruence |].
  cbn [all_chars] in Hall. apply andb_true_iff in Hall as [Hc _].
  destruct (number_char_head c Hc) as (Hws & H91 & H123 & _).
  rewrite append_cons. apply parse_value_scalar; assumption.
Qed.

Lemma pretty_Z_not_empty (z : Z) : pretty z <> "".
Proof.
  intros H. destruct (pretty_Z_token z) as [_ Hread].
  rewrite H in Hread. discriminate.
Qed.

(** The four shapes of a float's text. *)
Lemma wf_float_cases tok :
  wf_float tok = true ->
  tok = "nan" \/ tok = "inf" \/ tok = "-inf"
  \/ (json_float tok = tok /\ all_chars number_char tok = true
      /\ tok <> "" /\ read_int tok = None).
Proof.
  unfold wf_float. intros H.
  apply orb_true_iff in H as [H | H].
  - apply orb_true_iff in H as [H | H].
    + apply orb_true_iff in H as [H | H].
      * left. apply String.eqb_eq, H.
      * right. left. apply String.eqb_eq, H.
    + right. right. left. apply String.eqb_eq, H.
  - do 3 right.
    apply andb_true_iff in H as [H Hint].
    apply andb_true_iff in H as [Hall Hne].
    split; [| split; [exact Hall | split]].
    + unfold json_float.
      destruct (String.eqb tok "nan") eqn:E1;
        [apply String.eqb_eq in E1; subst tok; discriminate |].
      destruct (String.eqb tok "inf") eqn:E2;
        [apply String.eqb_eq in E2; subst tok; discriminate |].
      destruct (String.eqb tok "-inf") eqn:E3;
        [apply String.eqb_eq in E3; subst tok; discriminate |].
      reflexivity.
    + intros ->. discriminate.
    + destruct (read_int tok); [discriminate | reflexivity].
Qed.

Lemma json_str_text s (rest : string) :
  json_str s +:+ rest = String "034" (json_chars s +:+ String "034" rest).
Proof.
  unfold json_str. rewrite string_append_assoc. reflexivity.
Qed.

(** A value that is no list and no object reads back as itself. *)
Lemma parse_scalar_dumps v level rest fuel :
  match v with VList _ | VDict _ => False | _ => True end ->
  wf_payload v = true -> delim rest = true ->
  parse_value (S fuel) (dumps level v +:+ rest) = Some (v, rest).
Proof.
  intros Hscalar Hwf Hd.
  destruct v as [| [] | z | tok | s | xs | kvs]; try contradiction;
    try reflexivity.
  - cbn [dumps]. destruct (pretty_Z_token z) as [Hall Hread].
    rewrite token_parse_value by
      (first [exact Hall | exact Hd | apply pretty_Z_not_empty]).
    rewrite Hread. reflexivity.
  - cbn [dumps wf_payload] in *.
    destruct (wf_float_cases tok Hwf)
      as [-> | [-> | [-> | (Hj & Hall & Hne & Hint)]]]; try reflexivity.
    rewrite Hj, token_parse_value by assumption.
    rewrite Hint. reflexivity.
  - cbn [dumps wf_payload] in *. rewrite json_str_text.
    rewrite parse_value_scalar by reflexivity.
    unfold parse_scalar.
    change (N_of_ascii "034" =? 34)%N with true. cbv iota zeta.
    rewrite read_chars_json_chars by assumption. reflexivity.
Qed.

Lemma dumps_starts_value v level rest :
  wf_payload v = true -> starts_value (dumps level v +:+ rest) = true.
Proof.
  intros Hwf.
  destruct v as [| [] | z | tok | s | [| x xs] | [| kv kvs]];
    try reflexivity.
  - cbn [dumps]. destruct (pretty_Z_token z) as [Hall _].
    apply token_starts_value; [exact Hall | apply pretty_Z_not_empty].
  - cbn [dumps wf_payload] in *.
    destruct (wf_float_cases tok Hwf)
      as [-> | [-> | [-> | (Hj & Hall & Hne & Hint)]]]; try reflexivity.
    rewrite Hj. apply token_starts_value; assumption.
Qed.

Lemma parse_value_list f r :
  starts_value (skip_ws r) = true ->
  parse_value (S f) (String "[" r) =
    match parse_items f r with
    | Some (xs, r') => Some (VList xs, r')
    | None => None
    end.
Proof.
  intros H. rewrite <- (parse_items_skip f r).
  cbn [parse_value skip_ws].
  change (is_ws "[") with false. change (N_of_ascii "[" =? 91)%N with true.
  cbv iota.
  destruct (skip_ws r) as [| c t]; [discriminate |].
  cbn [starts_value] in H.
  destruct (N_of_ascii c =? 93)%N; [| reflexivity].
  rewrite andb_false_r in H. discriminate.
Qed.

Lemma parse_value_dict f r :
  starts_value (skip_ws r) = true ->
  parse_value (S f) (String "{" r) =
    match parse_members f r with
    | Some (kvs, r') => Some (VDict kvs, r')
    | None => None
    end.
Proof.
  intros H. rewrite <- (parse_members_skip f r).
  cbn [parse_value skip_ws].
  change (is_ws "{") with false. change (N_of_ascii "{" =? 91)%N with false.
  change (N_of_ascii "{" =? 123)%N with true.
  cbv iota.
  destruct (skip_ws r) as [| c t]; [discriminate |].
  cbn [starts_value] in H.
  destruct (N_of_ascii c =? 125)%N; [| reflexivity].
  rewrite andb_false_r in H. discriminate.
Qed.

Lemma concat_cons sep (t : string) ts :
  ts <> [] ->
  String.concat sep (t :: ts) = t +:+ sep +:+ String.concat sep ts.
Proof. destruct ts; [congruence | reflexivity]. Qed.

Lemma comma_text (r : string) : "," +:+ r = String "," r.
Proof. reflexivity. Qed.

Lemma colon_text (r : string) : ": " +:+ r = String ":" (String " " r).
Proof. reflexivity. Qed.

Section Items.

Variable P : payload -> Prop.
Hypothesis P_parse :
  forall v, P v -> wf_payload v = true ->
  forall level rest fuel,
    (cost v <= fuel)%nat -> delim rest = true ->
    parse_value fuel (dumps level v +:+ rest) = Some (v, rest).

Lemma parse_items_dumps level rest xs :
  Forall P xs -> forallb wf_payload xs = true -> xs <> [] ->
  forall fuel, (items_cost xs <= fuel)%nat ->
  parse_items fuel
    (String.concat ("," +:+ newline_indent (S level))
       (map (dumps (S level)) xs)
     +:+ newline_indent level +:+ String "]" rest) = Some (xs, rest).
Proof.
  intros HP. induction HP as [| x xs Hx HP IH]; [congruence |].
  intros Hwf _ fuel Hfuel.
  cbn [forallb] in Hwf. apply andb_true_iff in Hwf as [Hwx Hwxs].
  cbn [items_cost] in Hfuel.
  destruct fuel as [| f]; [lia |].
  cbn [parse_items map].
  destruct xs as [| y ys].
  - cbn [String.concat map].
    rewrite (P_parse x Hx Hwx) by (first [lia | reflexivity]).
    rewrite skip_ws_newline_indent. reflexivity.
  - rewrite concat_cons by discriminate.
    rewrite !string_append_assoc.
    rewrite (P_parse x Hx Hwx) by (first [lia | reflexivity]).
    rewrite comma_text. cbn [skip_ws].
    change (is_ws ",") with false. change (N_of_ascii "," =? 44)%N with true.
    cbv iota.
    rewrite <- parse_items_skip, skip_ws_newline_indent, parse_items_skip.
    rewrite IH by (first [assumption | discriminate | lia]).
    reflexivity.
Qed.

Lemma parse_members_dumps level rest kvs :
  Forall (fun kv => P kv.2) kvs ->
  forallb (fun kv : ustr * payload =>
             let (k, x) := kv in wf_str k && wf_payload x) kvs = true ->
  kvs <> [] ->
  forall fuel, (members_cost kvs <= fuel)%nat ->
  parse_members fuel
    (String.concat ("," +:+ newline_indent (S level))
       (map (fun kv : ustr * payload =>
               let (k, x) := kv in
               json_str k +:+ ": " +:+ dumps (S level) x) kvs)
     +:+ newline_indent level +:+ String "}" rest) = Some (kvs, rest).
Proof.
  intros HP. induction HP as [| [k x] kvs Hx HP IH]; [congruence |].
  intros Hwf _ fuel Hfuel.
  cbn [forallb] in Hwf. apply andb_true_iff in Hwf as [Hwx Hwxs].
  apply andb_true_iff in Hwx as [Hwk Hwx].
  cbn [members_cost] in Hfuel. cbn [snd] in Hx.
  destruct fuel as [| f]; [lia |].
  cbn [map].
  assert (Hstep : forall R,
             delim R = true ->
             parse_members (S f)
               ((json_str k +:+ ": " +:+ dumps (S level) x) +:+ R) =
               match skip_ws R with
               | EmptyString => None
               | String c' r4 =>
                   if (N_of_ascii c' =? 44)%N then
                     match parse_members f r4 with
                     | Some (kvs, r5) => Some ((k, x) :: kvs, r5)
                     | None => None
                     end
                   else if (N_of_ascii c' =? 125)%N
                   then Some ([(k, x)], r4)
                   else None
               end).
  { intros R HR. rewrite !string_append_assoc, json_str_text.
    cbn [parse_members skip_ws].
    change (is_ws "034") with false.
    change (N_of_ascii "034" =? 34)%N with true. cbv iota. cbn [negb].
    rewrite read_chars_json_chars by assumption.
    rewrite colon_text. cbn [skip_ws].
    change (is_ws ":") with false.
    change (N_of_ascii ":" =? 58)%N with true. cbv iota. cbn [negb].
    rewrite <- parse_value_skip. cbn [skip_ws].
    change (is_ws " ") with true. cbv iota.
    rewrite parse_value_skip.
    rewrite (P_parse x Hx Hwx) by (first [lia | assumption]).
    reflexivity. }
  destruct kvs as [| kv' kvs'].
  - cbn [String.concat map].
    rewrite Hstep by reflexivity.
    rewrite skip_ws_newline_indent. reflexivity.
  - rewrite concat_cons by discriminate.
    rewrite (string_append_assoc
               (json_str k +:+ ": " +:+ dumps (S level) x)).
    rewrite Hstep by reflexivity.
    rewrite !string_append_assoc.
    rewrite comma_text. cbn [skip_ws].
    change (is_ws ",") with false. change (N_of_ascii "," =? 44)%N with true.
    cbv iota.
    rewrite <- parse_members_skip, skip_ws_newline_indent,
      parse_members_skip.
    rewrite IH by (first [assumption | discriminate | lia]).
    reflexivity.
Qed.

End Items.

Lemma concat_head sep (t : string) ts (T : string) :
  exists R, String.concat sep (t :: ts) +:+ T = t +:+ R.
Proof.
  destruct ts as [| t' ts].
  - exists T. reflexivity.
  - exists (sep +:+ String.concat sep (t' :: ts) +:+ T).
    rewrite concat_cons by discriminate.
    rewrite !string_append_assoc. reflexivity.
Qed.

(** Every well-formed payload, written by [dumps] at any level and
    followed by a delimiter, is read back as itself. *)
Lemma parse_value_dumps v :
  wf_payload v = true ->
  forall level rest fuel,
    (cost v <= fuel)%nat -> delim rest = true ->
    parse_value fuel (dumps level v +:+ rest) = Some (v, rest).
Proof.
  induction v as [| b | z | tok | s | xs IH | kvs IH]
    using payload_nested_ind;
    intros Hwf level rest fuel Hfuel Hd;
    try (destruct fuel as [| f]; [cbn [cost] in Hfuel; lia |];
         apply parse_scalar_dumps; [exact I | assumption | assumption]).
  - rewrite cost_list in Hfuel.
    destruct fuel as [| f]; [lia |].
    destruct xs as [| x xs]; [reflexivity |].
    cbn [wf_payload] in Hwf.
    change (dumps level (VList (x :: xs)))
      with ("[" +:+ newline_indent (S level)
              +:+ String.concat ("," +:+ newline_indent (S level))
                    (map (dumps (S level)) (x :: xs))
              +:+ newline_indent level +:+ "]").
    rewrite !string_append_assoc.
    change ("]" +:+ rest) with (String "]" rest).
    match goal with
    | |- parse_value _ ("[" +:+ ?r) = _ =>
        change ("[" +:+ r) with (String "[" r)
    end.
    rewrite parse_value_list.
    + rewrite <- parse_items_skip, skip_ws_newline_indent, parse_items_skip.
      rewrite (parse_items_dumps
                 (fun v => wf_payload v = true ->
                           forall level rest fuel,
                             (cost v <= fuel)%nat -> delim rest = true ->
                             parse_value fuel (dumps level v +:+ rest)
                             = Some (v, rest)));
        first [reflexivity | assumption | discriminate | lia | idtac].
      intros v Hv Hwv. exact (Hv Hwv).
    + rewrite skip_ws_newline_indent. cbn [map].
      destruct (concat_head ("," +:+ newline_indent (S level))
                  (dumps (S level) x) (map (dumps (S level)) xs)
                  (newline_indent level +:+ String "]" rest)) as [R ->].
      cbn [forallb] in Hwf. apply andb_true_iff in Hwf as [Hwx _].
      rewrite skip_ws_starts; apply dumps_starts_value; exact Hwx.
  - rewrite cost_dict in Hfuel.
    destruct fuel as [| f]; [lia |].
    destruct kvs as [| [k x] kvs]; [reflexivity |].
    cbn [wf_payload] in Hwf.
    change (dumps level (VDict ((k, x) :: kvs)))
      with ("{" +:+ newline_indent (S level)
              +:+ String.concat ("," +:+ newline_indent (S level))
                    (map (fun kv : ustr * payload =>
                            let (k, x) := kv in
                            json_str k +:+ ": " +:+ dumps (S level) x)
                       ((k, x) :: kvs))
              +:+ newline_indent level +:+ "}").
    rewrite !string_append_assoc.
    change ("}" +:+ rest) with (String "}" rest).
    match goal with
    | |- parse_value _ ("{" +:+ ?r) = _ =>
        change ("{" +:+ r) with (String "{" r)
    end.
    rewrite parse_value_dict.
    + rewrite <- parse_members_skip, skip_ws_newline_indent,
        parse_members_skip.
      rewrite (parse_members_dumps
                 (fun v => wf_payload v = true ->
                           forall level rest fuel,
                             (cost v <= fuel)%nat -> delim rest = true ->
                             parse_value fuel (dumps level v +:+ rest)
                             = Some (v, rest)));
        first [reflexivity | assumption | discriminate | lia | idtac].
      intros v Hv Hwv. exact (Hv Hwv).
    + rewrite skip_ws_newline_indent. cbn [map].
      destruct (concat_head ("," +:+ newline_indent (S level))
                  (json_str k +:+ ": " +:+ dumps (S level) x)
                  (map (fun kv : ustr * payload =>
                          let (k, x) := kv in
                          json_str k +:+ ": " +:+ dumps (S level) x) kvs)
                  (newline_indent level +:+ String "}" rest)) as [R ->].
      rewrite !string_append_assoc, json_str_text. reflexivity.
Qed.

(** The text of a value is long enough for the reader's recursion. *)
Lemma items_cost_bound sep (f : payload -> string) xs :
  (2 <= String.length sep)%nat ->
  Forall (fun x => (cost x <= S (String.length (f x)))%nat) xs ->
  (items_cost xs <= String.length (String.concat sep (map f xs)) + 2)%nat.
Proof.
  intros Hsep H. induction H as [| x xs Hx H IH]; [cbn; lia |].
  cbn [items_cost map].
  destruct xs as [| y ys].
  - cbn [String.concat items_cost map]. lia.
  - rewrite concat_cons by discriminate.
    rewrite !length_append. lia.
Qed.

Lemma members_cost_bound sep (f : ustr * payload -> string) kvs :
  (2 <= String.length sep)%nat ->
  Forall (fun kv => (cost kv.2 <= S (String.length (f kv)))%nat) kvs ->
  (members_cost kvs <= String.length (String.concat sep (map f kvs)) + 2)%nat.
Proof.
  intros Hsep H. induction H as [| [k x] kvs Hx H IH]; [cbn; lia |].
  cbn [members_cost map]. cbn [snd] in Hx.
  destruct kvs as [| kv kvs'].
  - cbn [String.concat members_cost map]. lia.
  - rewrite concat_cons by discriminate.
    rewrite !length_append. lia.
Qed.

Lemma length_newline_indent level :
  (1 <= String.length (newline_indent level))%nat.
Proof. unfold newline_indent. rewrite length_append. cbn. lia. Qed.

Lemma cost_bound v level :
  (cost v <= S (String.length (dumps level v)))%nat.
Proof.
  revert level.
  induction v as [| b | z | tok | s | xs IH | kvs IH]
    using payload_nested_ind; intros level; try (cbn [cost]; lia).
  - rewrite cost_list. destruct xs as [| x xs]; [cbn; lia |].
    change (dumps level (VList (x :: xs)))
      with ("[" +:+ newline_indent (S level)
              +:+ String.concat ("," +:+ newline_indent (S level))
                    (map (dumps (S level)) (x :: xs))
              +:+ newline_indent level +:+ "]").
    pose proof (items_cost_bound ("," +:+ newline_indent (S level))
                  (dumps (S level)) (x :: xs)) as Hb.
    rewrite !length_append in *.
    pose proof (length_newline_indent (S level)).
    pose proof (length_newline_indent level).
    cbn [String.length] in *.
    assert (Forall (fun x => (cost x <= S (String.length (dumps (S level) x)))%nat)
              (x :: xs)) as HF.
    { eapply Forall_impl; [exact IH |]. intros v Hv. apply Hv. }
    specialize (Hb ltac:(lia) HF). lia.
  - rewrite cost_dict. destruct kvs as [| kv kvs]; [cbn; lia |].
    change (dumps level (VDict (kv :: kvs)))
      with ("{" +:+ newline_indent (S level)
              +:+ String.concat ("," +:+ newline_indent (S level))
                    (map (fun kv : ustr * payload =>
                            let (k, x) := kv in
                            json_str k +:+ ": " +:+ dumps (S level) x)
                       (kv :: kvs))
              +:+ newline_indent level +:+ "}").
    pose proof (members_cost_bound ("," +:+ newline_indent (S level))
                  (fun kv : ustr * payload =>
                     let (k, x) := kv in
                     json_str k +:+ ": " +:+ dumps (S level) x)
                  (kv :: kvs)) as Hb.
    rewrite !length_append in *.
    pose proof (length_newline_indent (S level)).
    pose proof (length_newline_indent level).
    cbn [String.length] in *.
    assert (Forall (fun kv : ustr * payload =>
                      (cost kv.2 <=
                       S (String.length
                            (let (k, x) := kv in
                             json_str k +:+ ": " +:+ dumps (S level) x)))%nat)
              (kv :: kvs)) as HF.
    { eapply Forall_impl; [exact IH |]. intros [k v] Hv. cbn [snd] in *.
      rewrite !length_append. specialize (Hv (S level)). lia. }
    specialize (Hb ltac:(lia) HF). lia.
Qed.

(** Reading back what [format_json] wrote gives the payload. *)
Lemma json_loads_format_json v :
  wf_payload v = true -> json_loads (format_json v) = Some v.
Proof.
  intros Hwf. unfold json_loads, format_json.
  rewrite <- (append_empty_r (dumps 0 v)) at 2.
  rewrite (parse_value_dumps v Hwf 0 "");
    [reflexivity | apply cost_bound | reflexivity].
Qed.

(** *** The layout *)

Lemma write_lines_cons l ls :
  write_lines (l :: ls) = write_line l +:+ following ls.
Proof.
  unfold write_lines. revert l.
  induction ls as [| l' ls IH]; intros l.
  - cbn [map String.concat following]. rewrite append_empty_r. reflexivity.
  - cbn [map]. rewrite concat_cons by discriminate.
    change (String.concat nl (write_line l' :: map write_line ls))
      with (String.concat nl (map write_line (l' :: ls))).
    rewrite IH. reflexivity.
Qed.

Lemma following_app a b : following (a ++ b) = following a +:+ following b.
Proof.
  induction a as [| l a IH]; [reflexivity |].
  cbn [app following]. rewrite IH, !string_append_assoc. reflexivity.
Qed.

Lemma following_cons d s rest :
  following ((d, s) :: rest) = newline_indent d +:+ s +:+ following rest.
Proof.
  cbn [following]. unfold write_line, newline_indent. cbn [fst snd].
  rewrite !string_append_assoc. reflexivity.
Qed.

Lemma suffix_last_text t d s rest :
  exists s' rest',
    suffix_last t ((d, s) :: rest) = (d, s') :: rest'
    /\ s' +:+ following rest' = s +:+ following rest +:+ t.
Proof.
  revert d s. induction rest as [| [d1 s1] rest IH]; intros d s.
  - exists (s +:+ t), []. split; [reflexivity |].
    cbn [following]. rewrite append_empty_r. reflexivity.
  - destruct (IH d1 s1) as (s1' & rest1 & Heq & Htext).
    exists s, ((d1, s1') :: rest1). split.
    + change (suffix_last t ((d, s) :: (d1, s1) :: rest))
        with ((d, s) :: suffix_last t ((d1, s1) :: rest)).
      rewrite Heq. reflexivity.
    + rewrite !following_cons, Htext, !string_append_assoc. reflexivity.
Qed.

Lemma following_separated d blocks texts :
  Forall2 (writes d) blocks texts -> blocks <> [] ->
  following (separated blocks) =
    newline_indent d +:+ String.concat ("," +:+ newline_indent d) texts.
Proof.
  intros H. induction H as [| b t bs ts Hb H IH]; [congruence |].
  intros _. destruct Hb as (s & rest & -> & <-).
  destruct H as [| b' t' bs' ts' Hb' H].
  - cbn [separated String.concat]. apply following_cons.
  - rewrite concat_cons by discriminate.
    change (separated (((d, s) :: rest) :: b' :: bs'))
      with (suffix_last "," ((d, s) :: rest) ++ separated (b' :: bs')).
    destruct (suffix_last_text "," d s rest) as (s' & rest' & -> & Htext).
    rewrite following_app, following_cons, Htext, IH by discriminate.
    rewrite !string_append_assoc. reflexivity.
Qed.

Lemma layout_writes v :
  forall d, writes d (layout d v) (dumps d v).
Proof.
  induction v as [| b | z | tok | s | xs IH | kvs IH]
    using payload_nested_ind; intros d;
    try (eexists _, []; split; [reflexivity | apply append_empty_r]).
  - destruct b; eexists _, []; (split; [reflexivity | apply append_empty_r]).
  - destruct xs as [| x xs];
      [eexists _, []; split; [reflexivity | apply append_empty_r] |].
    exists "[", (separated (map (layout (S d)) (x :: xs)) ++ [(d, "]")]).
    split; [reflexivity |].
    rewrite following_app.
    rewrite (following_separated (S d) _ (map (dumps (S d)) (x :: xs)));
      [| | discriminate].
    + rewrite following_cons. cbn [following].
      rewrite append_empty_r, !string_append_assoc. reflexivity.
    + induction IH as [| y ys Hy _ IHys]; constructor; [apply Hy | exact IHys].
  - destruct kvs as [| kv kvs];
      [eexists _, []; split; [reflexivity | apply append_empty_r] |].
    exists "{",
      (separated
         (map (fun kv : ustr * payload =>
                 let (k, x) := kv in
                 prefix_first (json_str k +:+ ": ") (layout (S d) x))
            (kv :: kvs)) ++ [(d, "}")]).
    split; [reflexivity |].
    rewrite following_app.
    rewrite (following_separated (S d) _
               (map (fun kv : ustr * payload =>
                       let (k, x) := kv in
                       json_str k +:+ ": " +:+ dumps (S d) x) (kv :: kvs)));
      [| | discriminate].
    + rewrite following_cons. cbn [following].
      rewrite append_empty_r, !string_append_assoc. reflexivity.
    + induction IH as [| [k y] ys Hy _ IHys]; constructor; [| exact IHys].
      cbn [snd] in Hy. destruct (Hy (S d)) as (s & rest & Heq & <-).
      cbv beta iota. rewrite Heq.
      exists ((json_str k +:+ ": ") +:+ s), rest.
      split; [reflexivity |]. rewrite !string_append_assoc. reflexivity.
Qed.

(** The serialization is the text of its lines, each indented by two
    spaces per level of nesting. *)
Lemma format_json_layout v : format_json v = write_lines (layout 0 v).
Proof.
  destruct (layout_writes v 0) as (s & rest & Heq & Htext).
  rewrite Heq, write_lines_cons. unfold format_json. rewrite <- Htext.
  reflexivity.
Qed.

(** *** Plain text *)

Lemma plain_app a b : plain (a +:+ b) = plain a && plain b.
Proof.
  induction a as [| c a IH]; [reflexivity |].
  rewrite append_cons. cbn [plain]. rewrite IH, andb_assoc. reflexivity.
Qed.

Lemma plain_concat sep l :
  plain sep = true -> Forall (fun s => plain s = true) l ->
  plain (String.concat sep l) = true.
Proof.
  intros Hsep Hl. induction Hl as [| s l Hs Hl IH]; [reflexivity |].
  destruct l as [| s' l]; [exact Hs |].
  rewrite concat_cons by discriminate.
  rewrite !plain_app, Hs, Hsep, IH. reflexivity.
Qed.

Lemma plain_spaces n : plain (spaces n) = true.
Proof. induction n; [reflexivity | exact IHn]. Qed.

Lemma plain_newline_indent level : plain (newline_indent level) = true.
Proof. unfold newline_indent. rewrite plain_app, plain_spaces. reflexivity. Qed.

Lemma plain_hex_digit d : plain_char (hex_digit d) = true.
Proof. unfold hex_digit. repeat case_match; reflexivity. Qed.

Lemma plain_hex4 n : plain (hex4 n) = true.
Proof.
  unfold hex4. cbn [plain]. rewrite !plain_hex_digit. reflexivity.
Qed.

(** Every code point is written in plain ASCII. *)
Lemma plain_json_char n : plain (json_char n) = true.
Proof.
  unfold json_char.
  repeat match goal with
         | |- context [if (n =? ?k)%N then _ else _] =>
             destruct (n =? k)%N; [reflexivity |]
         end.
  destruct ((32 <=? n) && (n <=? 126))%N eqn:Hp.
  - cbn [plain]. unfold plain_char, char_in.
    apply andb_true_iff in Hp as [Hp1 Hp2].
    pose proof Hp2 as Hle. apply N.leb_le in Hle.
    rewrite N_ascii_embedding by lia.
    rewrite Hp1, Hp2. reflexivity.
  - destruct (n <? 65536)%N; cbv zeta;
      rewrite !plain_app, !plain_hex4; reflexivity.
Qed.

Lemma plain_json_str s : plain (json_str s) = true.
Proof.
  unfold json_str. rewrite append_cons. cbn [plain].
  rewrite plain_app. cbn [plain]. 
  replace (plain (json_chars s)) with true; [reflexivity |].
  symmetry. induction s as [| n s IH]; [reflexivity |].
  cbn [json_chars]. rewrite plain_app, plain_json_char, IH. reflexivity.
Qed.

Lemma plain_pretty_N_char x : plain_char (pretty_N_char x) = true.
Proof.
  unfold pretty_N_char. repeat case_match; reflexivity.
Qed.

Lemma plain_pretty_N_go x s : plain s = true -> plain (pretty_N_go x s) = true.
Proof.
  revert s. induction (N.lt_wf_0 x) as [x _ IH]; intros s Hs.
  assert (x = 0 \/ 0 < x)%N as [-> | Hx] by lia.
  - rewrite pretty_N_go_0. exact Hs.
  - rewrite pretty_N_go_step by exact Hx. apply IH.
    + apply N.div_lt; lia.
    + cbn [plain]. rewrite plain_pretty_N_char. exact Hs.
Qed.

Lemma plain_pretty_Z (z : Z) : plain (pretty z) = true.
Proof.
  destruct z as [| p | p]; [reflexivity | |].
  - apply (plain_pretty_N_go (Npos p)). reflexivity.
  - change (plain (String "-" (pretty_N_go (Npos p) "")) = true).
    cbn [plain]. rewrite plain_pretty_N_go; reflexivity.
Qed.

Lemma plain_json_float tok : plain tok = true -> plain (json_float tok) = true.
Proof.
  intros H. unfold json_float.
  repeat match goal with |- context [String.eqb tok ?s] =>
           destruct (String.eqb tok s) end; auto.
Qed.

Lemma plain_dumps v :
  Forall (fun tok => plain tok = true) (float_tokens v) ->
  forall level, plain (dumps level v) = true.
Proof.
  induction v as [| b | z | tok | s | xs IH | kvs IH]
    using payload_nested_ind; intros Hf level.
  - reflexivity.
  - destruct b; reflexivity.
  - apply plain_pretty_Z.
  - apply plain_json_float. inversion Hf; assumption.
  - apply plain_json_str.
  - destruct xs as [| x xs]; [reflexivity |].
    change (plain ("[" +:+ newline_indent (S level)
                     +:+ String.concat ("," +:+ newline_indent (S level))
                           (map (dumps (S level)) (x :: xs))
                     +:+ newline_indent level +:+ "]") = true).
    rewrite !plain_app, !plain_newline_indent, plain_concat; [reflexivity | |].
    + rewrite plain_app, plain_newline_indent. reflexivity.
    + change (Forall (fun tok => plain tok = true)
                (flat_map float_tokens (x :: xs))) in Hf.
      rewrite Forall_flat_map in Hf. rewrite Forall_map.
      rewrite List.Forall_forall in *. intros y Hy.
      apply (IH y Hy). apply (Hf y Hy).
  - destruct kvs as [| kv kvs]; [reflexivity |].
    change (plain ("{" +:+ newline_indent (S level)
                     +:+ String.concat ("," +:+ newline_indent (S level))
                           (map (fun kv : ustr * payload =>
                                   let (k, x) := kv in
                                   json_str k +:+ ": " +:+ dumps (S level) x)
                                (kv :: kvs))
                     +:+ newline_indent level +:+ "}") = true).
    rewrite !plain_app, !plain_newline_indent, plain_concat; [reflexivity | |].
    + rewrite plain_app, plain_newline_indent. reflexivity.
    + change (Forall (fun tok => plain tok = true)
                (flat_map (fun kv : ustr * payload =>
                             let (_, x) := kv in float_tokens x)
                   (kv :: kvs))) in Hf.
      rewrite Forall_flat_map in Hf. rewrite Forall_map.
      rewrite List.Forall_forall in *. intros [k y] Hy.
      rewrite !plain_app, plain_json_str. cbn [plain andb].
      change (plain_char ":") with true. change (plain_char " ") with true.
      cbn [andb].
      apply (IH (k, y) Hy). apply (Hf (k, y) Hy).
Qed.

Section Properties.

Variable upstream : list Request -> Request -> exn + Response.

(** ** The transport client *)

Lemma append_not_empty (a b : string) :
  b <> "" -> String.eqb (a +:+ b) "" = false.
Proof.
  intros Hb. apply String.eqb_neq. destruct a; simpl; [assumption | discriminate].
Qed.

Lemma http_error_msg_empty response :
  String.eqb (http_error_msg response) "" =
    negb (error_status (status_code response)).
Proof.
  unfold http_error_msg, error_status.
  destruct (400 <=? status_code response) eqn:H1;
    destruct (status_code response <? 500) eqn:H2;
    destruct (500 <=? status_code response) eqn:H3;
    destruct (status_code response <? 600) eqn:H4;
    simpl; try reflexivity; try (apply append_not_empty; discriminate); lia.
Qed.

(** One run of [_make_request], case by case. *)
Lemma make_request_run self method endpoint kwargs st :
  let r := request_of self method endpoint kwargs in
  let st1 := with_request st r in
  let failed e :=
    (inl e, if is_RequestException e
            then with_log st1 "ERROR" ("API request failed: " +:+ exn_str e)
            else st1) in
  _make_request upstream self method endpoint kwargs st =
    match upstream (issued st) r with
    | inl e => failed e
    | inr response =>
        if error_status (status_code response)
        then failed (HTTPError (http_error_msg response) response)
        else if String.eqb (content response) "" then (inr (VDict []), st1)
        else match body response with
             | Decoded v => (inr v, st1)
             | Malformed msg => failed (JSONDecodeError msg)
             end
    end.
Proof.
  unfold _make_request, try_except, bind, session_request, request_of.
  destruct (upstream _ _) as [e | response]; simpl.
  - destruct (is_RequestException e); reflexivity.
  - unfold raise_for_status. rewrite http_error_msg_empty.
    destruct (error_status _); simpl; [reflexivity |].
    destruct (String.eqb (content response) ""); simpl; [reflexivity |].
    unfold response_json. destruct (body response); reflexivity.
Qed.

(** ** The dispatcher *)

Lemma call_tool_body_one_text client name arguments :
  returns_one_text (call_tool_body upstream client name arguments).
Proof.
  unfold call_tool_body.
  repeat match goal with
         | |- context [if String.eqb name ?s then _ else _] =>
             destruct (String.eqb name s)
         end; auto 10 with one_text.
Qed.

Lemma call_tool_handler_run name e st :
  call_tool_handler name e st =
    (inr [text_content ("Error: " +:+ exn_str e)],
     with_log st "ERROR"
       ("Error executing tool '" +:+ name +:+ "': " +:+ exn_str e)).
Proof. reflexivity. Qed.

Lemma call_tool_no_client name arguments st :
  uim_client st = None ->
  call_tool upstream name arguments st =
    (inr [text_content
            "Error: UIM client not initialized. Please check environment variables."],
     st).
Proof.
  intros H. unfold call_tool. rewrite H. reflexivity.
Qed.

(** With a client, the [try] block either returns or raises into the
    handler. *)
Lemma call_tool_initialized client name arguments st :
  uim_client st = Some client ->
  call_tool upstream name arguments st =
    match call_tool_body upstream client name arguments st with
    | (inl e, st') => call_tool_handler name e st'
    | (inr r, st') => (inr r, st')
    end.
Proof.
  intros H. unfold call_tool, try_except. rewrite H.
  destruct (call_tool_body _ _ _ _ _) as [[e | r] st']; reflexivity.
Qed.

Lemma call_tool_total name arguments st :
  exists s, fst (call_tool upstream name arguments st) = inr [text_content s].
Proof.
  destruct (uim_client st) as [client |] eqn:Hc.
  - rewrite (call_tool_initialized client) by assumption.
    destruct (call_tool_body _ _ _ _ _) as [[e | r] st'] eqn:Hb.
    + rewrite call_tool_handler_run. eauto.
    + apply call_tool_body_one_text in Hb as [s ->]. eauto.
  - rewrite call_tool_no_client by assumption. eauto.
Qed.

(** C2: with the client uninitialized, every call returns the one
    "not initialized" error response and leaves the state as it was: no
    request is issued and no client method runs. *)
Theorem call_tool_uninitialized name arguments st :
  uim_client st = None ->
  call_tool upstream name arguments st =
    (inr [text_content
            "Error: UIM client not initialized. Please check environment variables."],
     st)
  /\ issued (snd (call_tool upstream name arguments st)) = issued st.
Proof.
  intros H. rewrite call_tool_no_client by assumption. split; reflexivity.
Qed.

(** C10: whatever the operation name and the argument object, and in
    whatever state (client initialized or not, known name or not,
    exception or not), [call_tool] returns a list of exactly one
    element, of type "text". *)
Theorem call_tool_single_text name arguments st :
  exists t, fst (call_tool upstream name arguments st) = inr [t]
            /\ type_ t = "text".
Proof.
  destruct (call_tool_total name arguments st) as [s Hs].
  exists (text_content s). split; [exact Hs | reflexivity].
Qed.

(** C1: an exception raised anywhere in the [try] block (argument
    extraction, the client call, rendering) is turned into the single
    response "Error: <message>" after being logged, and [call_tool]
    itself never raises. *)
Theorem call_tool_catches name arguments st :
  (forall client e st',
      uim_client st = Some client ->
      call_tool_body upstream client name arguments st = (inl e, st') ->
      call_tool upstream name arguments st =
        (inr [text_content ("Error: " +:+ exn_str e)],
         with_log st' "ERROR"
           ("Error executing tool '" +:+ name +:+ "': " +:+ exn_str e)))
  /\ (forall e, fst (call_tool upstream name arguments st) <> inl e).
Proof.
  split.
  - intros client e st' Hc Hb.
    rewrite (call_tool_initialized client), Hb by assumption.
    apply call_tool_handler_run.
  - intros e He.
    destruct (call_tool_total name arguments st) as [s Hs].
    congruence.
Qed.

Lemma http_error_msg_status response :
  error_status (status_code response) = true ->
  exists rest,
    http_error_msg response = pretty (status_code response) +:+ rest.
Proof.
  unfold http_error_msg, error_status. intros H.
  destruct ((400 <=? status_code response) && (status_code response <? 500))
    eqn:H4; [eauto |].
  destruct ((500 <=? status_code response) && (status_code response <? 600))
    eqn:H5; [eauto |].
  exfalso.
  rewrite ?andb_true_iff, ?andb_false_iff, ?Z.leb_le, ?Z.ltb_lt, ?Z.leb_gt,
    ?Z.ltb_ge in *.
  lia.
Qed.

(** C7 (amended): a 4xx or 5xx status raises an [HTTPError] that
    carries the response, hence the upstream status, and a message that
    starts with that status; a failure of the library is raised on
    unchanged; an empty body under a status that is no error status
    gives the empty object; and [get_device_info] against a 404 gives
    the one response "Error: 404 Client Error: ...". *)
Theorem make_request_failures self method endpoint kwargs st :
  let r := request_of self method endpoint kwargs in
  (forall response,
      upstream (issued st) r = inr response ->
      error_status (status_code response) = true ->
      exists rest,
        fst (_make_request upstream self method endpoint kwargs st) =
          inl (HTTPError (pretty (status_code response) +:+ rest) response)
        /\ upstream_status
             (HTTPError (pretty (status_code response) +:+ rest) response) =
             Some (status_code response))
  /\ (forall e,
        upstream (issued st) r = inl e ->
        fst (_make_request upstream self method endpoint kwargs st) = inl e)
  /\ (forall response,
        upstream (issued st) r = inr response ->
        error_status (status_code response) = false ->
        content response = "" ->
        fst (_make_request upstream self method endpoint kwargs st) =
          inr (VDict []))
  /\ (forall d device_id response,
        uim_client st = Some self ->
        dict_lookup "device_id" d = Some device_id ->
        upstream (issued st)
          (request_of self "GET" ("/devices/" +:+ py_str device_id) no_kwargs)
          = inr response ->
        status_code response = 404 ->
        fst (call_tool upstream "get_device_info" (VDict d) st) =
          inr [text_content ("Error: 404 Client Error: " +:+ reason response
                               +:+ " for url: " +:+ url response)]).
Proof.
  intros r. repeat split.
  - intros response Hup Herr.
    destruct (http_error_msg_status response Herr) as [rest Hrest].
    exists rest. rewrite make_request_run. fold r.
    rewrite Hup, Herr, Hrest. split; reflexivity.
  - intros e Hup. rewrite make_request_run. fold r. rewrite Hup.
    reflexivity.
  - intros response Hup Herr Hc. rewrite make_request_run. fold r.
    rewrite Hup, Herr, Hc. reflexivity.
  - intros d device_id response Hc Hd Hup H404.
    rewrite (call_tool_initialized self) by assumption.
    select_branch. rewrite (py_getitem_dict _ _ _ Hd), bind_ret_l.
    unfold bind, get_device_info. rewrite make_request_run, Hup, H404.
    simpl. unfold http_error_msg. rewrite H404. reflexivity.
Qed.

Lemma sends_make_request P self method endpoint kwargs :
  (forall m u k, P (prepare_request (session self) m u k)) ->
  sends P (_make_request upstream self method endpoint kwargs).
Proof.
  intros HP. unfold _make_request.
  apply sends_try_except; [| auto with sends].
  apply sends_bind.
  - intros st. exists [prepare_request (session self) method
                         (base_url self +:+ "/" +:+ lstrip "/" endpoint) kwargs].
    unfold session_request. split; [| auto].
    destruct (upstream _ _); reflexivity.
  - intros response. apply sends_bind.
    + unfold raise_for_status. destruct (String.eqb _ _); auto with sends.
    + intros _. destruct (negb _); [| auto with sends].
      unfold response_json. destruct (body response); auto with sends.
Qed.

Lemma sends_call_tool_body P self name arguments :
  (forall m u k, P (prepare_request (session self) m u k)) ->
  sends P (call_tool_body upstream self name arguments).
Proof.
  intros HP. pose proof (sends_make_request P self) as Hreq.
  unfold call_tool_body, get_devices, get_device_info, get_alarms,
    get_alarm_summary, acknowledge_alarm, accept_alarm, assign_alarm,
    get_metrics, get_metric_definitions, get_metric_by_id, get_probes,
    get_robots.
  repeat match goal with
         | |- context [if String.eqb name ?s then _ else _] =>
             destruct (String.eqb name s)
         end; auto 12 with sends.
Qed.

Lemma sends_call_tool P self name arguments st :
  uim_client st = Some self ->
  (forall m u k, P (prepare_request (session self) m u k)) ->
  exists new,
    issued (snd (call_tool upstream name arguments st)) = issued st ++ new
    /\ Forall P new.
Proof.
  intros Hc HP. unfold call_tool. rewrite Hc.
  apply sends_try_except.
  - apply sends_call_tool_body, HP.
  - intros e. unfold call_tool_handler. auto with sends.
Qed.

(** C9 (amended): every request a client built by [UIMClient.__init__]
    issues carries [Accept: application/json] and
    [Content-Type: application/json], whether or not it has a body. *)
Theorem requests_carry_json_headers default_headers b u p v name arguments st :
  uim_client st = Some (UIMClient_init default_headers b u p v) ->
  exists new,
    issued (snd (call_tool upstream name arguments st)) = issued st ++ new
    /\ Forall carries_json_headers new.
Proof.
  intros Hc. apply (sends_call_tool _ _ _ _ _ Hc).
  intros m url k. apply client_request_headers.
Qed.

Lemma make_request_issued self method endpoint kwargs st :
  issued (snd (_make_request upstream self method endpoint kwargs st)) =
    issued st ++ [request_of self method endpoint kwargs].
Proof.
  rewrite make_request_run.
  destruct (upstream _ _) as [e | response].
  - destruct (is_RequestException e); reflexivity.
  - destruct (error_status _); [reflexivity |].
    destruct (String.eqb _ _); [reflexivity |].
    destruct (body response); reflexivity.
Qed.

(** A continuation that issues nothing adds nothing. *)
Lemma bind_silent_issued {A B} (m : M A) (k : A -> M B) st :
  (forall a st', issued (snd (k a st')) = issued st') ->
  issued (snd (bind m k st)) = issued (snd (m st)).
Proof.
  intros Hk. unfold bind. destruct (m st) as [[e | a] st'];
    [reflexivity | apply Hk].
Qed.

Lemma bind_ret_issued {A B} (m : M A) (f : A -> B) st :
  issued (snd (bind m (fun a => ret (f a)) st)) = issued (snd (m st)).
Proof. apply bind_silent_issued. reflexivity. Qed.

Lemma bind_len_ret_issued {A B} (m : M A) (g : A -> payload)
    (f : A -> Z -> B) st :
  issued (snd (bind m (fun a => bind (len (g a)) (fun n => ret (f a n))) st))
  = issued (snd (m st)).
Proof.
  apply bind_silent_issued. intros a st'. unfold bind, len.
  destruct (py_len (g a)); reflexivity.
Qed.

(** The handler only writes to the log. *)
Lemma call_tool_issued client name arguments st :
  uim_client st = Some client ->
  issued (snd (call_tool upstream name arguments st)) =
    issued (snd (call_tool_body upstream client name arguments st)).
Proof.
  intros Hc. rewrite (call_tool_initialized client) by assumption.
  destruct (call_tool_body _ _ _ _ _) as [[e | r] st']; reflexivity.
Qed.

(** C4 (amended): [acknowledge_alarm] issues one PUT to
    [/alarms/{id}/ack]; its JSON body is the empty object when no
    message is given or the message is empty (falsy), and holds the
    message when a non-empty one is supplied. *)
Theorem acknowledge_alarm_request client d alarm_id st :
  uim_client st = Some client ->
  dict_lookup "alarm_id" d = Some alarm_id ->
  exists r,
    issued (snd (call_tool upstream "acknowledge_alarm" (VDict d) st)) =
      issued st ++ [r]
    /\ method r = "PUT"
    /\ req_url r =
         base_url client +:+ "/alarms/" +:+ py_str alarm_id +:+ "/ack"
    /\ (dict_lookup "message" d = None -> json r = Some (VDict []))
    /\ (forall m, dict_lookup "message" d = Some m -> truthy m = false ->
                  json r = Some (VDict []))
    /\ (forall m, dict_lookup "message" d = Some m -> truthy m = true ->
                  json r = Some (VDict [("message", m)])).
Proof.
  intros Hc Hid. rewrite (call_tool_issued client) by assumption.
  select_branch.
  rewrite (py_getitem_dict _ _ _ Hid), bind_ret_l, py_get_dict, bind_ret_l.
  rewrite bind_ret_issued. unfold acknowledge_alarm.
  rewrite make_request_issued. eexists. split; [reflexivity |].
  repeat split.
  - intros ->. reflexivity.
  - intros m -> Hm. simpl. rewrite Hm. reflexivity.
  - intros m -> Hm. simpl. rewrite Hm. reflexivity.
Qed.

(** C5: [list_alarms] issues one GET to [/alarms] whose query
    parameters hold the severity that was supplied (0 included), hold no
    severity when none was supplied, and hold [limit=100] when no limit
    was supplied, which is the default the schema declares. *)
Theorem list_alarms_request client d st :
  uim_client st = Some client ->
  exists r ps,
    issued (snd (call_tool upstream "list_alarms" (VDict d) st)) =
      issued st ++ [r]
    /\ method r = "GET"
    /\ req_url r = base_url client +:+ "/alarms"
    /\ params r = Some ps
    /\ (forall v, dict_lookup "severity" d = Some v -> v <> VNone ->
                  dict_lookup "severity" ps = Some v)
    /\ (dict_lookup "severity" d = None -> dict_lookup "severity" ps = None)
    /\ (dict_lookup "limit" d = None ->
        dict_lookup "limit" ps = Some (VInt 100)
        /\ declared_default "list_alarms" "limit" = Some (VInt 100)).
Proof.
  intros Hc. rewrite (call_tool_issued client) by assumption.
  select_branch. rewrite !py_get_dict, !bind_ret_l.
  rewrite (bind_len_ret_issued _ (fun result => result)). unfold get_alarms.
  rewrite make_request_issued. do 2 eexists.
  split; [reflexivity |]. split; [reflexivity |]. split; [reflexivity |].
  split; [reflexivity |].
  set (src := default VNone (dict_lookup "source" d)).
  split; [| split].
  - intros v Hv Hne. rewrite Hv. simpl.
    destruct (truthy (default (VInt 100) (dict_lookup "limit" d))),
      (truthy src), v; simpl; congruence.
  - intros Hv. rewrite Hv. simpl.
    destruct (truthy (default (VInt 100) (dict_lookup "limit" d))),
      (truthy src); reflexivity.
  - intros Hn. rewrite Hn. simpl.
    destruct (default VNone (dict_lookup "severity" d)), (truthy src);
      split; reflexivity.
Qed.

(** C6: when a required argument is absent from the argument object,
    [call_tool] answers with the one response "Error: '<argument>'",
    naming the first missing required argument; the exception does not
    leave the dispatcher and no request is issued. *)
Theorem missing_required_argument client name d key st :
  uim_client st = Some client ->
  find (fun k => negb (is_Some_b (dict_lookup k d))) (required_arguments name)
    = Some key ->
  call_tool upstream name (VDict d) st =
    (inr [text_content ("Error: '" +:+ key +:+ "'")],
     with_log st "ERROR"
       ("Error executing tool '" +:+ name +:+ "': '" +:+ key +:+ "'"))
  /\ issued (snd (call_tool upstream name (VDict d) st)) = issued st.
Proof.
  intros Hc Hfind.
  rewrite (call_tool_initialized client) by assumption.
  revert Hfind. unfold required_arguments, list_tools.
  cbn [find t_name t_required].
  dispatch_cases name; cbn [find t_required]; try discriminate;
    select_branch;
    unfold is_Some_b;
    repeat match goal with
           | |- context [dict_lookup ?k d] =>
               let E := fresh "E" in
               destruct (dict_lookup k d) eqn:E;
               [ rewrite (py_getitem_dict _ _ _ E)
               | rewrite (py_getitem_missing _ _ E) ]
           end;
    cbn [negb]; try discriminate; intros [= <-]; split; reflexivity.
Qed.

(** The count in a summary line determines the length it was printed
    from. *)
Lemma summary_count_inj (xs ys : list payload) :
  pretty (Z.of_nat (length xs)) = pretty (Z.of_nat (length ys)) ->
  length xs = length ys.
Proof.
  intros H. apply (inj pretty) in H. lia.
Qed.

(** The serialization of a non-empty list: one item per line, indented
    by two spaces, between brackets on lines of their own. *)
Lemma format_json_list x xs :
  format_json (VList (x :: xs)) =
    "[" +:+ nl +:+ "  "
        +:+ String.concat ("," +:+ nl +:+ "  ") (map (dumps 1) (x :: xs))
        +:+ nl +:+ "]".
Proof. reflexivity. Qed.

(** C3: for a list-shaped operation, when the upstream answers with a
    JSON list, the response is the summary line "Found n <things>:"
    with n the length of that list, an empty line, and the indented
    serialization of the list; the empty list gives "Found 0 ...".
    The serialization is that of the full payload: it is the text of
    the lines of [layout], where every item and every member stands on
    lines of its own, two spaces deeper than the brackets around it,
    and reading it back gives the list the upstream sent, down to
    every nested value. *)
Theorem list_summary_count name noun d xs response st client :
  In (name, noun) list_shaped ->
  uim_client st = Some client ->
  (forall r, upstream (issued st) r = inr response) ->
  error_status (status_code response) = false ->
  content response <> "" ->
  body response = Decoded (VList xs) ->
  fst (call_tool upstream name (VDict d) st) =
    inr [text_content
           ("Found " +:+ pretty (Z.of_nat (length xs)) +:+ " " +:+ noun
              +:+ ":" +:+ nl +:+ nl +:+ format_json (VList xs))]
  /\ (xs = [] ->
      fst (call_tool upstream name (VDict d) st) =
        inr [text_content
               ("Found 0 " +:+ noun +:+ ":" +:+ nl +:+ nl +:+ "[]")])
  /\ format_json (VList xs) = write_lines (layout 0 (VList xs))
  /\ (wf_payload (VList xs) = true ->
      json_loads (format_json (VList xs)) = Some (VList xs)).
Proof.
  intros Hin Hc Hup Hst Hcontent Hbody.
  apply String.eqb_neq in Hcontent.
  assert (Hrun : forall method endpoint kwargs,
             _make_request upstream client method endpoint kwargs st =
               (inr (VList xs),
                with_request st (request_of client method endpoint kwargs))).
  { intros. rewrite make_request_run, Hup, Hst, Hcontent, Hbody.
    reflexivity. }
  assert (Hgoal : fst (call_tool upstream name (VDict d) st) =
            inr [text_content
                   ("Found " +:+ pretty (Z.of_nat (length xs)) +:+ " " +:+ noun
                      +:+ ":" +:+ nl +:+ nl +:+ format_json (VList xs))]).
  { rewrite (call_tool_initialized client) by assumption.
    simpl in Hin.
    destruct Hin as [[= <- <-] | [[= <- <-] | [[= <- <-] | [[= <- <-] |
                    [[= <- <-] | []]]]]];
      select_branch; rewrite ?py_get_dict, ?bind_ret_l;
      unfold bind, get_devices, get_alarms, get_metrics, get_probes,
        get_robots;
      rewrite Hrun; reflexivity. }
  split; [exact Hgoal |].
  split; [intros ->; exact Hgoal |].
  split; [apply format_json_layout | apply json_loads_format_json].
Qed.

(** ** Start-up *)

Variable default_headers : headers.

Lemma init_uim_client_missing env st :
  forallb truthy_env
    [env !! "UIM_BASE_URL"; env !! "UIM_USERNAME"; env !! "UIM_PASSWORD"]
    = false ->
  init_uim_client default_headers env st =
    (inl (ValueError
            "Missing required environment variables: UIM_BASE_URL, UIM_USERNAME, UIM_PASSWORD"),
     st).
Proof.
  intros H. unfold init_uim_client. rewrite H. reflexivity.
Qed.

(** C8 (amended): when one of the three variables is absent or empty,
    [main] raises a [ValueError] whose fixed message names all three
    required variables, before any call is served (no response, no
    request, no client); when all three are present and non-empty,
    [init_uim_client] succeeds and installs the client. *)
Theorem init_uim_client_checks env st :
  (forall k calls,
      In k required_variables ->
      env !! k = None \/ env !! k = Some "" ->
      main upstream default_headers env calls st =
        (inl (ValueError
                "Missing required environment variables: UIM_BASE_URL, UIM_USERNAME, UIM_PASSWORD"),
         with_log st "ERROR"
           "Failed to initialize UIM client: Missing required environment variables: UIM_BASE_URL, UIM_USERNAME, UIM_PASSWORD"))
  /\ (forall b u p,
        env !! "UIM_BASE_URL" = Some b -> b <> "" ->
        env !! "UIM_USERNAME" = Some u -> u <> "" ->
        env !! "UIM_PASSWORD" = Some p -> p <> "" ->
        init_uim_client default_headers env st =
          (inr tt,
           with_log
             (mkState
                (Some (UIMClient_init default_headers b u p
                         (String.eqb
                            (lower (default "true" (env !! "UIM_VERIFY_SSL")))
                            "true")))
                (issued st) (logged st))
             "INFO" ("Initialized UIM client for " +:+ b))).
Proof.
  split.
  - intros k calls Hk Hmiss.
    assert (Hall : forallb truthy_env
                     [env !! "UIM_BASE_URL"; env !! "UIM_USERNAME";
                      env !! "UIM_PASSWORD"] = false).
    { simpl in Hk |- *.
      destruct Hk as [<- | [<- | [<- | []]]];
        destruct Hmiss as [-> | ->]; simpl;
        rewrite ?andb_false_r; reflexivity. }
    unfold main, try_except, bind.
    rewrite init_uim_client_missing by exact Hall. reflexivity.
  - intros b u p Hb Hb' Hu Hu' Hp Hp'.
    apply String.eqb_neq in Hb', Hu', Hp'.
    unfold init_uim_client. rewrite Hb, Hu, Hp. simpl.
    rewrite Hb', Hu', Hp'. reflexivity.
Qed.

End Properties.

(** ** The properties on sample runs *)

Import Sample.

(** An exception from each stage of the [try] block ends as the error
    response: a missing key while extracting arguments, a refused
    connection in the client, a payload without length while rendering. *)
Lemma call_tool_catches_witness :
  fst (call_tool unreachable "accept_alarm" (VDict []) ready) =
    inr [text_content "Error: 'alarm_id'"]
  /\ fst (call_tool unreachable "list_probes" VNone ready) =
       inr [text_content "Error: Connection refused"]
  /\ fst (call_tool (stub (fixture (VInt 5))) "list_metrics" VNone ready) =
       inr [text_content "Error: object of type 'int' has no len()"].
Proof.
  split; [| split].
  - rewrite (proj1 (call_tool_catches unreachable "accept_alarm" (VDict [])
                      ready)
               client (KeyError "alarm_id") ready eq_refl eq_refl).
    reflexivity.
  - rewrite (proj1 (call_tool_catches unreachable "list_probes" VNone ready)
               client (ConnectionError "Connection refused")
               (snd (call_tool_body unreachable client "list_probes" VNone
                       ready))
               eq_refl eq_refl).
    reflexivity.
  - rewrite (proj1 (call_tool_catches (stub (fixture (VInt 5))) "list_metrics"
                      VNone ready)
               client (TypeError "object of type 'int' has no len()")
               (snd (call_tool_body (stub (fixture (VInt 5))) client
                       "list_metrics" VNone ready))
               eq_refl eq_refl).
    reflexivity.
Defined.

Lemma call_tool_uninitialized_witness :
  uim_client initial_state = None
  /\ call_tool unreachable "list_devices" (VDict []) initial_state =
       (inr [text_content
               "Error: UIM client not initialized. Please check environment variables."],
        initial_state)
  /\ issued (snd (call_tool unreachable "list_devices" (VDict [])
                    initial_state)) = [].
Proof.
  split; [reflexivity |].
  apply (call_tool_uninitialized unreachable "list_devices" (VDict [])
           initial_state).
  reflexivity.
Defined.

Lemma list_summary_count_witness :
  fst (call_tool (stub (fixture (VList inventory))) "list_devices"
         (VDict []) ready) =
    inr [text_content
           ("Found 2 devices:" +:+ nl +:+ nl +:+ inventory_text)]
  /\ json_loads inventory_text = Some (VList inventory)
  /\ fst (call_tool (stub (fixture (VList two_devices))) "list_devices"
            (VDict []) ready) =
       inr [text_content
              ("Found 2 devices:" +:+ nl +:+ nl
                 +:+ format_json (VList two_devices))]
  /\ fst (call_tool (stub (fixture (VList []))) "list_robots" (VDict [])
            ready) =
       inr [text_content ("Found 0 robots:" +:+ nl +:+ nl +:+ "[]")].
Proof.
  assert (Hnested :
            fst (call_tool (stub (fixture (VList inventory))) "list_devices"
                   (VDict []) ready) =
              inr [text_content
                     ("Found " +:+ pretty (Z.of_nat (length inventory))
                        +:+ " " +:+ "devices" +:+ ":" +:+ nl +:+ nl
                        +:+ format_json (VList inventory))]
            /\ (inventory = [] ->
                fst (call_tool (stub (fixture (VList inventory)))
                       "list_devices" (VDict []) ready) =
                  inr [text_content
                         ("Found 0 " +:+ "devices" +:+ ":" +:+ nl +:+ nl
                            +:+ "[]")])
            /\ format_json (VList inventory) =
                 write_lines (layout 0 (VList inventory))
            /\ (wf_payload (VList inventory) = true ->
                json_loads (format_json (VList inventory)) =
                  Some (VList inventory))).
  { apply (list_summary_count (stub (fixture (VList inventory)))
             "list_devices" "devices" [] inventory
             (fixture (VList inventory)) ready client).
    - left. reflexivity.
    - reflexivity.
    - intros r. reflexivity.
    - reflexivity.
    - vm_compute. discriminate.
    - reflexivity. }
  destruct Hnested as (Htext & _ & _ & Hback).
  split; [exact Htext |].
  split; [exact (Hback eq_refl) |].
  split.
  - apply (list_summary_count (stub (fixture (VList two_devices)))
             "list_devices" "devices" [] two_devices
             (fixture (VList two_devices)) ready client).
    + left. reflexivity.
    + reflexivity.
    + intros r. reflexivity.
    + reflexivity.
    + vm_compute. discriminate.
    + reflexivity.
  - apply (list_summary_count (stub (fixture (VList []))) "list_robots"
             "robots" [] [] (fixture (VList [])) ready client).
    + do 4 right. left. reflexivity.
    + reflexivity.
    + intros r. reflexivity.
    + reflexivity.
    + vm_compute. discriminate.
    + reflexivity.
    + reflexivity.
Defined.

Lemma acknowledge_alarm_request_witness :
  exists r,
    issued (snd (call_tool (stub no_content) "acknowledge_alarm"
                   (VDict [("alarm_id", VStr "A1"); ("message", VStr "x")])
                   ready)) = issued ready ++ [r]
    /\ method r = "PUT"
    /\ req_url r = "https://uim.example.com:8443/alarms/A1/ack"
    /\ json r = Some (VDict [("message", VStr "x")]).
Proof.
  destruct (acknowledge_alarm_request (stub no_content) client
              [("alarm_id", VStr "A1"); ("message", VStr "x")] (VStr "A1")
              ready eq_refl eq_refl)
    as (r & Hissued & Hmethod & Hurl & _ & _ & Hmessage).
  exists r.
  split; [exact Hissued |]. split; [exact Hmethod |]. split; [exact Hurl |].
  apply (Hmessage (VStr "x")); reflexivity.
Defined.

Lemma list_alarms_request_witness :
  exists r ps,
    issued (snd (call_tool unreachable "list_alarms"
                   (VDict [("severity", VInt 0)]) ready)) = issued ready ++ [r]
    /\ params r = Some ps
    /\ dict_lookup "severity" ps = Some (VInt 0)
    /\ dict_lookup "limit" ps = Some (VInt 100).
Proof.
  destruct (list_alarms_request unreachable client [("severity", VInt 0)]
              ready eq_refl)
    as (r & ps & Hissued & _ & _ & Hparams & Hsev & _ & Hlimit).
  exists r, ps.
  split; [exact Hissued |]. split; [exact Hparams |]. split.
  - apply Hsev; [reflexivity | discriminate].
  - apply Hlimit. reflexivity.
Defined.

Lemma missing_required_argument_witness :
  call_tool unreachable "assign_alarm" (VDict [("alarm_id", VStr "A1")]) ready
  = (inr [text_content "Error: 'username'"],
     with_log ready "ERROR" "Error executing tool 'assign_alarm': 'username'")
  /\ issued (snd (call_tool unreachable "assign_alarm"
                    (VDict [("alarm_id", VStr "A1")]) ready)) = issued ready.
Proof.
  apply (missing_required_argument unreachable client "assign_alarm"
           [("alarm_id", VStr "A1")] "username" ready); reflexivity.
Defined.

Lemma make_request_failures_witness :
  (exists rest,
      fst (_make_request (stub not_found) client "GET" "/devices/D1" no_kwargs
             ready) = inl (HTTPError ("404" +:+ rest) not_found)
      /\ upstream_status (HTTPError ("404" +:+ rest) not_found) = Some 404)
  /\ fst (_make_request unreachable client "GET" "/devices/D1" no_kwargs ready)
     = inl (ConnectionError "Connection refused")
  /\ fst (_make_request (stub no_content) client "PUT" "/alarms/A1/accept"
            no_kwargs ready) = inr (VDict [])
  /\ fst (call_tool (stub not_found) "get_device_info"
            (VDict [("device_id", VStr "D1")]) ready) =
       inr [text_content
              "Error: 404 Client Error: Not Found for url: https://uim.example.com:8443/devices/D1"].
Proof.
  split; [| split; [| split]].
  - apply (proj1 (make_request_failures (stub not_found) client "GET"
                    "/devices/D1" no_kwargs ready) not_found);
      reflexivity.
  - apply (proj1 (proj2 (make_request_failures unreachable client "GET"
                           "/devices/D1" no_kwargs ready))).
    reflexivity.
  - apply (proj1 (proj2 (proj2 (make_request_failures (stub no_content) client
                                  "PUT" "/alarms/A1/accept" no_kwargs ready)))
             no_content); reflexivity.
  - apply (proj2 (proj2 (proj2 (make_request_failures (stub not_found) client
                                  "GET" "/devices" no_kwargs ready)))
             [("device_id", VStr "D1")] (VStr "D1") not_found); reflexivity.
Defined.

Lemma init_uim_client_checks_witness :
  main unreachable session_headers env_without_password
    [("list_devices", VDict [])] initial_state =
    (inl (ValueError
            "Missing required environment variables: UIM_BASE_URL, UIM_USERNAME, UIM_PASSWORD"),
     with_log initial_state "ERROR"
       "Failed to initialize UIM client: Missing required environment variables: UIM_BASE_URL, UIM_USERNAME, UIM_PASSWORD")
  /\ init_uim_client session_headers full_env initial_state =
       (inr tt,
        with_log ready "INFO"
          "Initialized UIM client for https://uim.example.com:8443/").
Proof.
  split.
  - apply (proj1 (init_uim_client_checks unreachable session_headers
                    env_without_password initial_state) "UIM_PASSWORD").
    + do 2 right. left. reflexivity.
    + left. reflexivity.
  - apply (proj2 (init_uim_client_checks unreachable session_headers full_env
                    initial_state)
             "https://uim.example.com:8443/" "admin" "secret");
      first [reflexivity | discriminate].
Defined.

Lemma requests_carry_json_headers_witness :
  exists new,
    issued (snd (call_tool unreachable "acknowledge_alarm"
                   (VDict [("alarm_id", VStr "A1")]) ready)) =
      issued ready ++ new
    /\ Forall carries_json_headers new.
Proof.
  apply (requests_carry_json_headers unreachable session_headers
           "https://uim.example.com:8443/" "admin" "secret" true
           "acknowledge_alarm" (VDict [("alarm_id", VStr "A1")]) ready).
  reflexivity.
Defined.

(** ** Where the code departs from the stated contract *)

(** C4 as stated fails: a message is supplied, the empty text, and the
    body is the empty object, not the object holding that message. *)
Lemma acknowledge_alarm_empty_message :
  let d := [("alarm_id", VStr "A1"); ("message", VStr "")] in
  dict_lookup "message" d = Some (VStr "")
  /\ map json (issued (snd (call_tool (stub no_content) "acknowledge_alarm"
                             (VDict d) ready))) = [Some (VDict [])]
  /\ map json (issued (snd (call_tool (stub no_content) "acknowledge_alarm"
                             (VDict d) ready)))
     <> [Some (VDict [("message", VStr "")])].
Proof.
  split; [reflexivity |]. split; [reflexivity |].
  vm_compute. discriminate.
Qed.

(** C7 as stated fails: status 304 is not a 2xx status, yet nothing is
    raised; the empty body is returned as the empty object and the
    dispatcher reports success. *)
Lemma non_2xx_status_not_raised :
  status_code not_modified = 304
  /\ ~ (200 <= status_code not_modified < 300)
  /\ fst (_make_request (stub not_modified) client "GET" "/devices/D1"
            no_kwargs ready) = inr (VDict [])
  /\ fst (call_tool (stub not_modified) "get_device_info"
            (VDict [("device_id", VStr "D1")]) ready) =
       inr [text_content ("Device Information:" +:+ nl +:+ nl +:+ "{}")].
Proof.
  split; [reflexivity |]. split; [simpl; lia |].
  split; reflexivity.
Qed.

(** C8 as stated fails twice: with all three variables present (the
    password empty) initialization raises; and the message is the same
    whether one variable is missing or all are, so it does not tell
    which ones are missing. *)
Lemma init_uim_client_empty_or_unnamed :
  Forall (fun k => is_Some (env_empty_password !! k)) required_variables
  /\ fst (init_uim_client session_headers env_empty_password initial_state) =
       inl (ValueError
              "Missing required environment variables: UIM_BASE_URL, UIM_USERNAME, UIM_PASSWORD")
  /\ is_Some (env_without_password !! "UIM_BASE_URL")
  /\ env_without_anything !! "UIM_BASE_URL" = None
  /\ fst (init_uim_client session_headers env_without_password initial_state)
     = fst (init_uim_client session_headers env_without_anything
              initial_state).
Proof.
  split.
  - repeat constructor; vm_compute; eauto.
  - split; [reflexivity |]. split; [vm_compute; eauto |].
    split; reflexivity.
Qed.

(** C9 as stated fails in its "only": a GET without a body carries
    [Content-Type: application/json]. *)
Lemma content_type_without_body :
  exists r,
    issued (snd (call_tool unreachable "list_devices" (VDict []) ready)) = [r]
    /\ method r = "GET"
    /\ json r = None
    /\ header_lookup "Content-Type" (req_headers r) = Some "application/json".
Proof.
  eexists. split; [reflexivity |]. split; [reflexivity |].
  split; reflexivity.
Qed.

(** * Further properties *)

(** ** What a call may do to the state *)

Lemma footprint_pure {A} n k (m : M A) :
  (forall st, snd (m st) = st) -> footprint n k m.
Proof.
  intros H st. rewrite H. split; [reflexivity |].
  exists [], []. rewrite !app_nil_r. simpl.
  repeat split; try lia. constructor.
Qed.

Lemma footprint_ret {A} n k (a : A) : footprint n k (ret a).
Proof. apply footprint_pure. reflexivity. Qed.

Lemma footprint_raise {A} n k e : footprint n k (@raise A e).
Proof. apply footprint_pure. reflexivity. Qed.

Lemma footprint_lift_option {A} n k (o : option A) e :
  footprint n k (lift_option o e).
Proof. destruct o; [apply footprint_ret | apply footprint_raise]. Qed.

Lemma footprint_py_get n k arguments key dflt :
  footprint n k (py_get arguments key dflt).
Proof.
  destruct arguments; first [apply footprint_ret | apply footprint_raise].
Qed.

Lemma footprint_py_getitem n k arguments key :
  footprint n k (py_getitem arguments key).
Proof.
  destruct arguments;
    first [apply footprint_lift_option | apply footprint_raise].
Qed.

Lemma footprint_len n k v : footprint n k (len v).
Proof. apply footprint_lift_option. Qed.

Lemma footprint_log_error k msg : footprint 0 (S k) (log "ERROR" msg).
Proof.
  intros st. split; [reflexivity |].
  exists [], [mkLog "ERROR" msg]. rewrite app_nil_r. simpl.
  repeat split; try lia. repeat constructor.
Qed.

Lemma footprint_seq {A B} n1 k1 n2 k2 (m : M A) (f : A -> M B) :
  footprint n1 k1 m -> (forall a, footprint n2 k2 (f a)) ->
  footprint (n1 + n2) (k1 + k2) (bind m f).
Proof.
  intros Hm Hf st. unfold bind.
  destruct (Hm st) as (Hc1 & rs1 & ls1 & Hi1 & Hn1 & Hl1 & Hk1 & He1).
  destruct (m st) as [[e | a] st1]; simpl in *.
  - split; [assumption |]. exists rs1, ls1. repeat split; auto; lia.
  - destruct (Hf a st1) as (Hc2 & rs2 & ls2 & Hi2 & Hn2 & Hl2 & Hk2 & He2).
    split; [congruence |]. exists (rs1 ++ rs2), (ls1 ++ ls2).
    rewrite Hi2, Hi1, Hl2, Hl1, !app_assoc, !length_app.
    repeat split; try lia. apply Forall_app; auto.
Qed.

(** A silent step before, or a silent step after. *)
Lemma footprint_bind_l {A B} n k (m : M A) (f : A -> M B) :
  footprint 0 0 m -> (forall a, footprint n k (f a)) ->
  footprint n k (bind m f).
Proof. apply (footprint_seq 0 0 n k). Qed.

Lemma footprint_bind_r {A B} n k (m : M A) (f : A -> M B) :
  footprint n k m -> (forall a, footprint 0 0 (f a)) ->
  footprint n k (bind m f).
Proof.
  intros Hm Hf. pose proof (footprint_seq n k 0 0 m f Hm Hf) as H.
  rewrite !Nat.add_0_r in H. exact H.
Qed.

Lemma footprint_try_except {A} n1 k1 n2 k2 (m : M A) catches handler :
  footprint n1 k1 m -> (forall e, footprint n2 k2 (handler e)) ->
  footprint (n1 + n2) (k1 + k2) (try_except m catches handler).
Proof.
  intros Hm Hh st. unfold try_except.
  destruct (Hm st) as (Hc1 & rs1 & ls1 & Hi1 & Hn1 & Hl1 & Hk1 & He1).
  destruct (m st) as [[e | a] st1]; simpl in *.
  - destruct (catches e); simpl.
    + destruct (Hh e st1) as (Hc2 & rs2 & ls2 & Hi2 & Hn2 & Hl2 & Hk2 & He2).
      split; [congruence |]. exists (rs1 ++ rs2), (ls1 ++ ls2).
      rewrite Hi2, Hi1, Hl2, Hl1, !app_assoc, !length_app.
      repeat split; try lia. apply Forall_app; auto.
    + split; [assumption |]. exists rs1, ls1. repeat split; auto; lia.
  - split; [assumption |]. exists rs1, ls1. repeat split; auto; lia.
Qed.

Create HintDb footprint.
#[local] Hint Resolve footprint_ret footprint_raise footprint_lift_option
  footprint_py_get footprint_py_getitem footprint_len footprint_bind_l
  footprint_bind_r : footprint.

Section Footprint.

Variable upstream : list Request -> Request -> exn + Response.

Lemma footprint_session_request s method url kw :
  footprint 1 0 (session_request upstream s method url kw).
Proof.
  intros st. unfold session_request.
  destruct (upstream _ _); (split; [reflexivity |]);
    exists [prepare_request s method url kw], [];
    rewrite app_nil_r; simpl; repeat split; try lia; constructor.
Qed.

Lemma footprint_make_request self method endpoint kwargs :
  footprint 1 1 (_make_request upstream self method endpoint kwargs).
Proof.
  unfold _make_request.
  apply (footprint_try_except 1 0 0 1).
  - apply (footprint_seq 1 0 0 0); [apply footprint_session_request |].
    intros response. apply footprint_bind_l.
    + unfold raise_for_status. destruct (String.eqb _ _); auto with footprint.
    + intros _. destruct (negb _); [| auto with footprint].
      unfold response_json. destruct (body response); auto with footprint.
  - intros e. apply (footprint_seq 0 1 0 0);
      [apply footprint_log_error | auto with footprint].
Qed.

Lemma footprint_call_tool_body self name arguments :
  footprint 1 1 (call_tool_body upstream self name arguments).
Proof.
  pose proof (footprint_make_request self) as Hreq.
  unfold call_tool_body, get_devices, get_device_info, get_alarms,
    get_alarm_summary, acknowledge_alarm, accept_alarm, assign_alarm,
    get_metrics, get_metric_definitions, get_metric_by_id, get_probes,
    get_robots.
  repeat match goal with
         | |- context [if String.eqb name ?s then _ else _] =>
             destruct (String.eqb name s)
         end; auto 20 with footprint.
Qed.

Lemma footprint_call_tool name arguments :
  footprint 1 2 (call_tool upstream name arguments).
Proof.
  intros st. unfold call_tool.
  destruct (uim_client st) as [self |] eqn:Hc.
  - assert (H : footprint 1 2
                  (try_except (call_tool_body upstream self name arguments)
                     is_Exception (call_tool_handler name))).
    { apply (footprint_try_except 1 1 0 1).
      - apply footprint_call_tool_body.
      - intros e. unfold call_tool_handler.
        apply (footprint_seq 0 1 0 0);
          [apply footprint_log_error | auto with footprint]. }
    specialize (H st). rewrite Hc in H. exact H.
  - pose proof (footprint_ret 1 2 [text_content
       "Error: UIM client not initialized. Please check environment variables."]
       st) as H.
    rewrite Hc in H. exact H.
Qed.

Lemma footprint_serve calls :
  footprint (length calls) (2 * length calls) (serve upstream calls).
Proof.
  induction calls as [| [name arguments] calls IH].
  - apply footprint_ret.
  - replace (2 * length ((name, arguments) :: calls))%nat
      with (2 + 2 * length calls)%nat by (simpl; lia).
    change (length ((name, arguments) :: calls)) with (1 + length calls)%nat.
    simpl serve. apply footprint_seq; [apply footprint_call_tool |].
    intros r. apply footprint_bind_r; [exact IH |].
    intros rs. apply footprint_ret.
Qed.

Lemma serve_total calls st :
  exists rs,
    fst (serve upstream calls st) = inr rs
    /\ length rs = length calls
    /\ Forall (fun r => exists s, r = [text_content s]) rs.
Proof.
  revert st. induction calls as [| [name arguments] calls IH]; intros st.
  - exists []. repeat split. constructor.
  - simpl serve. unfold bind.
    destruct (call_tool_total upstream name arguments st) as [s Hs].
    destruct (call_tool upstream name arguments st) as [[e | r] st1];
      simpl in Hs; [discriminate |].
    injection Hs as ->.
    destruct (IH st1) as (rs & Hrs & Hlen & Hall).
    destruct (serve upstream calls st1) as [[e | rs'] st2];
      simpl in Hrs; [discriminate |].
    injection Hrs as ->.
    exists ([text_content s] :: rs). simpl.
    split; [reflexivity |]. split; [congruence |].
    constructor; eauto.
Qed.

(** X1: one call of [call_tool] leaves the client handle alone, issues
    at most one request and writes at most two log records, both
    errors; what was issued and logged before stays as a prefix. *)
Theorem call_tool_footprint name arguments :
  footprint 1 2 (call_tool upstream name arguments).
Proof. apply footprint_call_tool. Qed.

(** X2: the host loop answers every call it delivers: [serve] never
    raises, returns one single-text response per call in order, keeps
    the client handle, and issues at most one request per call. *)
Theorem serve_answers_every_call calls st :
  exists rs,
    fst (serve upstream calls st) = inr rs
    /\ length rs = length calls
    /\ Forall (fun r => exists s, r = [text_content s]) rs
    /\ uim_client (snd (serve upstream calls st)) = uim_client st
    /\ exists new,
         issued (snd (serve upstream calls st)) = issued st ++ new
         /\ (length new <= length calls)%nat.
Proof.
  destruct (serve_total calls st) as (rs & Hrs & Hlen & Hall).
  destruct (footprint_serve calls st) as (Hc & new & ls & Hi & Hn & _).
  exists rs. repeat split; try assumption. exists new. split; assumption.
Qed.

End Footprint.

(** ** Responses do not depend on earlier calls *)

Lemma state_blind_pure {A} (m : M A) :
  (forall st, m st = (fst (m initial_state), st)) -> state_blind m.
Proof.
  intros H st1 st2 Hc. rewrite (H st1), (H st2). split; [reflexivity | exact Hc].
Qed.

Lemma state_blind_ret {A} (a : A) : state_blind (ret a).
Proof. apply state_blind_pure. reflexivity. Qed.

Lemma state_blind_raise {A} e : state_blind (@raise A e).
Proof. apply state_blind_pure. reflexivity. Qed.

Lemma state_blind_log level msg : state_blind (log level msg).
Proof. intros st1 st2 Hc. split; [reflexivity | exact Hc]. Qed.

Lemma state_blind_lift_option {A} (o : option A) e :
  state_blind (lift_option o e).
Proof. destruct o; [apply state_blind_ret | apply state_blind_raise]. Qed.

Lemma state_blind_py_get arguments key dflt :
  state_blind (py_get arguments key dflt).
Proof.
  destruct arguments; first [apply state_blind_ret | apply state_blind_raise].
Qed.

Lemma state_blind_py_getitem arguments key :
  state_blind (py_getitem arguments key).
Proof.
  destruct arguments;
    first [apply state_blind_lift_option | apply state_blind_raise].
Qed.

Lemma state_blind_len v : state_blind (len v).
Proof. apply state_blind_lift_option. Qed.

Lemma state_blind_bind {A B} (m : M A) (f : A -> M B) :
  state_blind m -> (forall a, state_blind (f a)) -> state_blind (bind m f).
Proof.
  intros Hm Hf st1 st2 Hc. unfold bind.
  destruct (Hm st1 st2 Hc) as [Hr Hc'].
  destruct (m st1) as [[e1 | a1] st1'], (m st2) as [[e2 | a2] st2'];
    simpl in *; try discriminate.
  - injection Hr as ->. split; [reflexivity | assumption].
  - injection Hr as ->. apply Hf. exact Hc'.
Qed.

Lemma state_blind_try_except {A} (m : M A) catches handler :
  state_blind m -> (forall e, state_blind (handler e)) ->
  state_blind (try_except m catches handler).
Proof.
  intros Hm Hh st1 st2 Hc. unfold try_except.
  destruct (Hm st1 st2 Hc) as [Hr Hc'].
  destruct (m st1) as [[e1 | a1] st1'], (m st2) as [[e2 | a2] st2'];
    simpl in *; try discriminate.
  - injection Hr as ->. destruct (catches e2); [apply Hh; exact Hc' |].
    split; [reflexivity | exact Hc'].
  - split; assumption.
Qed.

Create HintDb blind.
#[local] Hint Resolve state_blind_ret state_blind_raise state_blind_log
  state_blind_lift_option state_blind_py_get state_blind_py_getitem
  state_blind_len state_blind_bind state_blind_try_except : blind.

Section Stateless.

Variable upstream : list Request -> Request -> exn + Response.

(** The upstream answers a request the same way whatever came before. *)
Hypothesis upstream_stateless :
  forall h1 h2 r, upstream h1 r = upstream h2 r.

Lemma state_blind_session_request s method url kw :
  state_blind (session_request upstream s method url kw).
Proof.
  intros st1 st2 Hc. unfold session_request.
  rewrite (upstream_stateless (issued st1) (issued st2)).
  destruct (upstream _ _); split; simpl; auto.
Qed.

Lemma state_blind_make_request self method endpoint kwargs :
  state_blind (_make_request upstream self method endpoint kwargs).
Proof.
  unfold _make_request.
  apply state_blind_try_except; [| auto with blind].
  apply state_blind_bind; [apply state_blind_session_request |].
  intros response. apply state_blind_bind.
  - unfold raise_for_status. destruct (String.eqb _ _); auto with blind.
  - intros _. destruct (negb _); [| auto with blind].
    unfold response_json. destruct (body response); auto with blind.
Qed.

Lemma state_blind_call_tool_body self name arguments :
  state_blind (call_tool_body upstream self name arguments).
Proof.
  pose proof (state_blind_make_request self) as Hreq.
  unfold call_tool_body, get_devices, get_device_info, get_alarms,
    get_alarm_summary, acknowledge_alarm, accept_alarm, assign_alarm,
    get_metrics, get_metric_definitions, get_metric_by_id, get_probes,
    get_robots.
  repeat match goal with
         | |- context [if String.eqb name ?s then _ else _] =>
             destruct (String.eqb name s)
         end; auto 20 with blind.
Qed.

Lemma state_blind_call_tool name arguments :
  state_blind (call_tool upstream name arguments).
Proof.
  intros st1 st2 Hc. unfold call_tool. rewrite <- Hc.
  destruct (uim_client st1) as [self |] eqn:H1.
  - assert (H : state_blind
                  (try_except (call_tool_body upstream self name arguments)
                     is_Exception (call_tool_handler name))).
    { apply state_blind_try_except; [apply state_blind_call_tool_body |].
      intros e. unfold call_tool_handler. auto with blind. }
    apply H. congruence.
  - split; [reflexivity | simpl; congruence].
Qed.

(** X3: against an upstream that answers each request the same way
    whatever came before, the response to a call depends only on the
    client, the operation name and the arguments: it is the same in any
    two states with the same client, and so the same after any calls
    served in between (the same call twice gives the same text). *)
Theorem call_tool_no_hidden_state name arguments :
  (forall st1 st2,
      uim_client st1 = uim_client st2 ->
      fst (call_tool upstream name arguments st1) =
        fst (call_tool upstream name arguments st2))
  /\ (forall calls st,
        fst (call_tool upstream name arguments
               (snd (serve upstream calls st))) =
          fst (call_tool upstream name arguments st)).
Proof.
  split.
  - intros st1 st2 Hc. apply state_blind_call_tool. exact Hc.
  - intros calls st. apply state_blind_call_tool.
    apply (footprint_serve upstream calls st).
Qed.

End Stateless.

(** ** Transport settings of every request *)

Section Settings.

Variable upstream : list Request -> Request -> exn + Response.

Lemma sends_make_request_of P self method endpoint kwargs :
  (forall m ep k, P (request_of self m ep k)) ->
  sends P (_make_request upstream self method endpoint kwargs).
Proof.
  intros HP st. exists [request_of self method endpoint kwargs].
  rewrite make_request_issued. split; [reflexivity | auto].
Qed.

Lemma sends_call_tool_body_of P self name arguments :
  (forall m ep k, P (request_of self m ep k)) ->
  sends P (call_tool_body upstream self name arguments).
Proof.
  intros HP. pose proof (sends_make_request_of P self) as Hreq.
  unfold call_tool_body, get_devices, get_device_info, get_alarms,
    get_alarm_summary, acknowledge_alarm, accept_alarm, assign_alarm,
    get_metrics, get_metric_definitions, get_metric_by_id, get_probes,
    get_robots.
  repeat match goal with
         | |- context [if String.eqb name ?s then _ else _] =>
             destruct (String.eqb name s)
         end; auto 12 with sends.
Qed.

Lemma sends_call_tool_of P self name arguments st :
  uim_client st = Some self ->
  (forall m ep k, P (request_of self m ep k)) ->
  exists new,
    issued (snd (call_tool upstream name arguments st)) = issued st ++ new
    /\ Forall P new.
Proof.
  intros Hc HP. unfold call_tool. rewrite Hc.
  apply sends_try_except.
  - apply sends_call_tool_body_of, HP.
  - intros e. unfold call_tool_handler. auto with sends.
Qed.

Lemma sends_serve_of P self calls st :
  uim_client st = Some self ->
  (forall m ep k, P (request_of self m ep k)) ->
  exists new,
    issued (snd (serve upstream calls st)) = issued st ++ new
    /\ Forall P new.
Proof.
  intros Hc HP. revert st Hc.
  induction calls as [| [name arguments] calls IH]; intros st Hc.
  - exists []. simpl. rewrite app_nil_r. split; constructor.
  - simpl serve. unfold bind.
    destruct (sends_call_tool_of P self name arguments st Hc HP)
      as (new1 & E1 & F1).
    pose proof (proj1 (footprint_call_tool upstream name arguments st)) as Hc1.
    destruct (call_tool upstream name arguments st) as [[e | r] st1];
      simpl in *; [eauto |].
    destruct (IH st1 ltac:(congruence)) as (new2 & E2 & F2).
    destruct (serve upstream calls st1) as [[e | rs] st2]; simpl in *;
      exists (new1 ++ new2); rewrite E2, E1, app_assoc;
      (split; [reflexivity | apply Forall_app; auto]).
Qed.

Lemma request_of_sent_by self method endpoint kwargs :
  sent_by self (request_of self method endpoint kwargs).
Proof.
  repeat split. exists (lstrip "/" endpoint). reflexivity.
Qed.

(** X4: every request a call issues carries the credentials and the
    TLS-verification flag of the client's session, and goes to a URL
    under the client's base address. *)
Theorem requests_use_client_settings self name arguments st :
  uim_client st = Some self ->
  exists new,
    issued (snd (call_tool upstream name arguments st)) = issued st ++ new
    /\ Forall (sent_by self) new.
Proof.
  intros Hc. apply (sends_call_tool_of _ self name arguments st Hc).
  apply request_of_sent_by.
Qed.

End Settings.

(** ** Base address and request URLs *)

Lemma rstrip_decompose c s :
  exists n, s = rstrip c s +:+ repeat_char c n.
Proof.
  induction s as [| c' s [n IH]]; simpl.
  - exists 0%nat. reflexivity.
  - destruct (rstrip c s) as [| a t] eqn:E.
    + destruct (Ascii.eqb_spec c' c) as [-> | Hne].
      * exists (S n). simpl in *. rewrite IH at 1. reflexivity.
      * exists n. simpl in *. rewrite IH at 1. reflexivity.
    + exists n. simpl in *. rewrite IH at 1. reflexivity.
Qed.

Lemma rstrip_not_ends_with c s : ~ ends_with c (rstrip c s).
Proof.
  induction s as [| c' s IH]; simpl; intros [t Ht].
  - destruct t; discriminate.
  - destruct (rstrip c s) as [| a u] eqn:E.
    + destruct (Ascii.eqb_spec c' c) as [-> | Hne].
      * destruct t; discriminate.
      * destruct t as [| x t]; simpl in Ht.
        -- injection Ht as ->. congruence.
        -- injection Ht as _ Ht. destruct t; discriminate.
    + destruct t as [| x t]; simpl in Ht; [discriminate |].
      injection Ht as _ Ht. apply IH. exists t. exact Ht.
Qed.

Lemma lstrip_decompose c s :
  exists n, s = repeat_char c n +:+ lstrip c s.
Proof.
  induction s as [| c' s [n IH]]; simpl.
  - exists 0%nat. reflexivity.
  - destruct (Ascii.eqb_spec c' c) as [-> | Hne].
    + exists (S n). simpl. rewrite IH at 1. reflexivity.
    + exists 0%nat. reflexivity.
Qed.

Lemma lstrip_not_starts_with c s : ~ starts_with c (lstrip c s).
Proof.
  induction s as [| c' s IH]; simpl; intros [t Ht].
  - discriminate.
  - destruct (Ascii.eqb_spec c' c) as [-> | Hne].
    + apply IH. exists t. exact Ht.
    + injection Ht as -> _. congruence.
Qed.

(** X5: the URL of a request is the configured base address without
    its trailing slashes, one slash, and the endpoint without its
    leading slashes; so base and path are joined by exactly one slash
    however the base address was written. *)
Theorem request_url_single_slash default_headers b u p v method endpoint kw :
  exists base path n k,
    req_url (request_of (UIMClient_init default_headers b u p v)
               method endpoint kw) = base +:+ "/" +:+ path
    /\ b = base +:+ repeat_char "/" n
    /\ endpoint = repeat_char "/" k +:+ path
    /\ ~ ends_with "/" base
    /\ ~ starts_with "/" path.
Proof.
  destruct (rstrip_decompose "/" b) as [n Hn].
  destruct (lstrip_decompose "/" endpoint) as [k Hk].
  exists (rstrip "/" b), (lstrip "/" endpoint), n, k.
  split; [reflexivity |]. split; [exact Hn |]. split; [exact Hk |].
  split; [apply rstrip_not_ends_with | apply lstrip_not_starts_with].
Qed.

(** ** Session headers *)

Lemma header_set_names k v h x :
  In x (map (fun kv => lower kv.1) (header_set k v h)) ->
  x = lower k \/ In x (map (fun kv => lower kv.1) h).
Proof.
  induction h as [| [k' v'] h IH]; simpl.
  - intros [<- | []]. auto.
  - destruct (String.eqb (lower k) (lower k')) eqn:E; simpl.
    + intros [<- | H]; auto.
    + intros [<- | H]; auto. destruct (IH H); auto.
Qed.

Lemma header_set_distinct k v h :
  header_names_distinct h -> header_names_distinct (header_set k v h).
Proof.
  unfold header_names_distinct.
  induction h as [| [k' v'] h IH]; simpl; intros Hnd.
  - repeat constructor. intros H. inversion H.
  - apply NoDup_cons in Hnd as [Hnotin Hnd].
    destruct (String.eqb (lower k) (lower k')) eqn:E; simpl.
    + apply String.eqb_eq in E. rewrite E.
      apply NoDup_cons. split; assumption.
    + apply NoDup_cons. split; [| apply IH; exact Hnd].
      rewrite list_elem_of_In in *. intros H.
      apply header_set_names in H as [H | H]; [| auto].
      apply String.eqb_neq in E. congruence.
Qed.

(** X6: on a session whose default headers have distinct names, the
    headers of every request a client prepares still have distinct
    names (the default [Accept] is replaced, not doubled), and every
    default header other than [Accept] and [Content-Type] is sent
    unchanged. *)
Theorem request_headers_distinct default_headers b u p v method url kw :
  header_names_distinct default_headers ->
  let r := prepare_request (session (UIMClient_init default_headers b u p v))
             method url kw in
  header_names_distinct (req_headers r)
  /\ (forall k, lower k <> "accept" -> lower k <> "content-type" ->
                header_lookup k (req_headers r) =
                  header_lookup k default_headers).
Proof.
  intros Hnd r.
  assert (Hc : header_lookup "Content-Type"
                 (s_headers (session (UIMClient_init default_headers b u p v)))
               = Some "application/json").
  { simpl. unfold headers_update. simpl. apply header_lookup_set_same. }
  assert (Hr : req_headers r =
                 header_set "Content-Type" "application/json"
                   (header_set "Accept" "application/json" default_headers)).
  { subst r. unfold prepare_request. rewrite Hc.
    destruct (kw_json kw); reflexivity. }
  rewrite Hr. split.
  - do 2 apply header_set_distinct. exact Hnd.
  - intros k Ha Hct.
    rewrite !header_lookup_set_other; [reflexivity | |];
      apply String.eqb_neq; assumption.
Qed.

(** ** From start-up to the served calls *)

Section EndToEnd.

Variable upstream : list Request -> Request -> exn + Response.
Variable default_headers : headers.

Lemma init_uim_client_run env b u p st :
  env !! "UIM_BASE_URL" = Some b -> b <> "" ->
  env !! "UIM_USERNAME" = Some u -> u <> "" ->
  env !! "UIM_PASSWORD" = Some p -> p <> "" ->
  init_uim_client default_headers env st =
    (inr tt,
     with_log
       (mkState
          (Some (UIMClient_init default_headers b u p
                   (String.eqb
                      (lower (default "true" (env !! "UIM_VERIFY_SSL")))
                      "true")))
          (issued st) (logged st))
       "INFO" ("Initialized UIM client for " +:+ b)).
Proof.
  intros Hb Hb' Hu Hu' Hp Hp'.
  apply String.eqb_neq in Hb', Hu', Hp'.
  unfold init_uim_client. rewrite Hb, Hu, Hp. simpl.
  rewrite Hb', Hu', Hp'. reflexivity.
Qed.

(** X7: started with the three variables set and non-empty, [main]
    installs the client and answers every call delivered, one response
    per call; every request issued on the way carries the user name
    and password of the environment, the TLS flag read from
    [UIM_VERIFY_SSL], both JSON headers, and a URL under the base
    address without its trailing slashes. *)
Theorem main_serves_configured env b u p calls st :
  env !! "UIM_BASE_URL" = Some b -> b <> "" ->
  env !! "UIM_USERNAME" = Some u -> u <> "" ->
  env !! "UIM_PASSWORD" = Some p -> p <> "" ->
  let verify :=
    String.eqb (lower (default "true" (env !! "UIM_VERIFY_SSL"))) "true" in
  exists rs new,
    fst (main upstream default_headers env calls st) = inr rs
    /\ length rs = length calls
    /\ uim_client (snd (main upstream default_headers env calls st)) =
         Some (UIMClient_init default_headers b u p verify)
    /\ issued (snd (main upstream default_headers env calls st)) =
         issued st ++ new
    /\ (length new <= length calls)%nat
    /\ Forall (fun r =>
                 req_auth r = (u, p)
                 /\ req_verify r = verify
                 /\ carries_json_headers r
                 /\ exists path, req_url r = rstrip "/" b +:+ "/" +:+ path)
         new.
Proof.
  intros Hb Hb' Hu Hu' Hp Hp' verify.
  set (self := UIMClient_init default_headers b u p verify).
  set (st0 := with_log (mkState (Some self) (issued st) (logged st)) "INFO"
                ("Initialized UIM client for " +:+ b)).
  assert (Hmain : main upstream default_headers env calls st =
                    serve upstream calls st0).
  { unfold main, try_except, bind.
    rewrite (init_uim_client_run env b u p st) by assumption.
    reflexivity. }
  rewrite Hmain.
  destruct (serve_total upstream calls st0) as (rs & Hrs & Hlen & _).
  destruct (footprint_serve upstream calls st0)
    as (Hc & new & ls & Hi & Hn & _).
  destruct (sends_serve_of upstream
              (fun r => req_auth r = (u, p) /\ req_verify r = verify
                        /\ carries_json_headers r
                        /\ exists path,
                             req_url r = rstrip "/" b +:+ "/" +:+ path)
              self calls st0 eq_refl) as (new' & Hi' & Hall).
  { intros m ep k. split; [reflexivity |]. split; [reflexivity |].
    split; [apply client_request_headers |].
    exists (lstrip "/" ep). reflexivity. }
  rewrite Hi in Hi'. apply app_inv_head in Hi' as <-.
  exists rs, new. repeat split; assumption.
Qed.

End EndToEnd.

(** ** The dispatcher against the operation catalog *)

(** The catalog lists the advertised tools, in the order of
    [list_tools], and its path parameters are the arguments the schema
    declares as required. *)
Lemma catalog_matches_schema :
  map fst catalog = map t_name list_tools
  /\ Forall (fun e => path_parameters (op_endpoint e.2) =
                        required_arguments e.1) catalog.
Proof. split; [reflexivity | repeat constructor]. Qed.

Section Catalog.

Variable upstream : list Request -> Request -> exn + Response.

(** X8: for each of the twelve advertised tools, a call whose
    argument object holds the path parameters issues exactly one
    request, with the method of the catalog, the URL made of the base
    address and the catalog endpoint with the arguments filled in, and
    query parameters or a JSON body only where the catalog says so. *)
Theorem call_tool_follows_catalog self name op d path st :
  uim_client st = Some self ->
  catalog_lookup name = Some op ->
  expand d (op_endpoint op) = Some path ->
  exists r,
    issued (snd (call_tool upstream name (VDict d) st)) = issued st ++ [r]
    /\ method r = op_method op
    /\ req_url r = base_url self +:+ path
    /\ payload_matches (op_kind op) r.
Proof.
  intros Hc Hop Hpath. rewrite (call_tool_issued upstream self) by assumption.
  revert Hop. unfold catalog_lookup, catalog. cbn [find fst snd].
  dispatch_cases name; try discriminate; intros [= <-];
    cbn [op_endpoint expand] in Hpath;
    repeat match type of Hpath with
           | context [dict_lookup ?k d] =>
               let E := fresh "E" in
               destruct (dict_lookup k d) eqn:E; [| discriminate]
           end;
    injection Hpath as <-;
    select_branch;
    rewrite ?py_get_dict;
    repeat match goal with
           | E : dict_lookup ?k d = Some _ |- _ =>
               rewrite (py_getitem_dict _ _ _ E)
           end;
    rewrite ?bind_ret_l;
    rewrite ?(bind_len_ret_issued _ (fun result => result)),
      ?bind_ret_issued;
    try (rewrite bind_silent_issued by (intros; reflexivity));
    unfold get_devices, get_device_info, get_alarms, get_alarm_summary,
      acknowledge_alarm, accept_alarm, assign_alarm, get_metrics,
      get_metric_definitions, get_metric_by_id, get_probes, get_robots;
    rewrite make_request_issued;
    (eexists; split; [reflexivity |]; split; [reflexivity |]; split;
     [ cbn [req_url request_of prepare_request lstrip Ascii.eqb Bool.eqb];
       rewrite ?append_empty_r; reflexivity
     | cbn; eauto ]).
Qed.

End Catalog.

(** ** Query parameters *)

Section Parameters.

Variable upstream : list Request -> Request -> exn + Response.

(** X9: [list_devices] sends exactly the filters that are given and
    non-empty, [domain] before [hub]; an omitted, null or empty filter
    is not sent. *)
Theorem list_devices_params self d st :
  uim_client st = Some self ->
  exists r,
    issued (snd (call_tool upstream "list_devices" (VDict d) st)) =
      issued st ++ [r]
    /\ params r =
         Some (List.filter (fun kv => truthy kv.2)
                 [("domain", default VNone (dict_lookup "domain" d));
                  ("hub", default VNone (dict_lookup "hub" d))]).
Proof.
  intros Hc. rewrite (call_tool_issued upstream self) by assumption.
  select_branch. rewrite !py_get_dict, !bind_ret_l.
  rewrite (bind_len_ret_issued _ (fun result => result)). unfold get_devices.
  rewrite make_request_issued. eexists. split; [reflexivity |].
  cbn [params request_of prepare_request kw_params].
  destruct (truthy (default VNone (dict_lookup "domain" d))) eqn:Hd,
    (truthy (default VNone (dict_lookup "hub" d))) eqn:Hh;
    cbn [List.filter snd]; rewrite ?Hd, ?Hh; reflexivity.
Qed.

(** X10: [list_alarms] sends [limit] (the argument, or 100) unless it
    is falsy, so a limit of 0 is not sent; [severity] unless it is
    absent or null; [source] unless it is absent or empty; in that
    order and nothing else. *)
Theorem list_alarms_params self d st :
  uim_client st = Some self ->
  let limit := default (VInt 100) (dict_lookup "limit" d) in
  let severity := default VNone (dict_lookup "severity" d) in
  let source := default VNone (dict_lookup "source" d) in
  exists r,
    issued (snd (call_tool upstream "list_alarms" (VDict d) st)) =
      issued st ++ [r]
    /\ params r =
         Some ((if truthy limit then [("limit", limit)] else [])
                 ++ match severity with
                    | VNone => []
                    | _ => [("severity", severity)]
                    end
                 ++ (if truthy source then [("source", source)] else [])).
Proof.
  intros Hc limit severity source.
  rewrite (call_tool_issued upstream self) by assumption.
  select_branch. rewrite !py_get_dict, !bind_ret_l.
  rewrite (bind_len_ret_issued _ (fun result => result)). unfold get_alarms.
  rewrite make_request_issued. eexists. split; [reflexivity |].
  cbn [params request_of prepare_request kw_params].
  fold limit severity source.
  destruct (truthy limit), (truthy source), severity; reflexivity.
Qed.

End Parameters.

(** ** Arguments, names and payloads at the edges *)

Section Edges.

Variable upstream : list Request -> Request -> exn + Response.

Lemma call_tool_run self name arguments st :
  uim_client st = Some self ->
  call_tool upstream name arguments st =
    match call_tool_body upstream self name arguments st with
    | (inl e, st') =>
        (inr [text_content ("Error: " +:+ exn_str e)],
         with_log st' "ERROR"
           ("Error executing tool '" +:+ name +:+ "': " +:+ exn_str e))
    | (inr r, st') => (inr r, st')
    end.
Proof. apply call_tool_initialized. Qed.

Lemma bind_inl {A B} (m : M A) (k : A -> M B) st e st' :
  m st = (inl e, st') -> bind m k st = (inl e, st').
Proof. intros H. unfold bind. rewrite H. reflexivity. Qed.

Lemma py_get_not_dict arguments key dflt st :
  (forall d, arguments <> VDict d) ->
  exists msg, py_get arguments key dflt st = (inl (AttributeError msg), st).
Proof.
  intros H. destruct arguments; simpl; eauto. destruct (H kvs eq_refl).
Qed.

Lemma py_getitem_not_dict arguments key st :
  (forall d, arguments <> VDict d) ->
  exists msg, py_getitem arguments key st = (inl (TypeError msg), st).
Proof.
  intros H. destruct arguments; simpl; eauto. destruct (H kvs eq_refl).
Qed.

(** X11: when the argument object is not a mapping (null, a list, a
    string, ...), a tool that declares arguments answers with an error
    response and issues no request, while a tool that declares none
    does not look at the argument object at all. *)
Theorem call_tool_argument_object self name st :
  uim_client st = Some self ->
  (declares_arguments name = true ->
   forall arguments,
     (forall d, arguments <> VDict d) ->
     issued (snd (call_tool upstream name arguments st)) = issued st
     /\ exists msg,
          fst (call_tool upstream name arguments st) =
            inr [text_content ("Error: " +:+ msg)])
  /\ (declares_arguments name = false ->
      forall arguments arguments',
        call_tool upstream name arguments st =
          call_tool upstream name arguments' st).
Proof.
  intros Hc. split.
  - intros Hdecl arguments Hnd.
    rewrite (call_tool_run self) by assumption.
    revert Hdecl. unfold declares_arguments, list_tools.
    cbn [find t_name t_properties].
    dispatch_cases name; cbn [find t_properties]; try discriminate; intros _;
      select_branch;
      match goal with
      | |- context [bind (py_get arguments ?key ?dflt) _ st] =>
          destruct (py_get_not_dict arguments key dflt st Hnd) as [msg H]
      | |- context [bind (py_getitem arguments ?key) _ st] =>
          destruct (py_getitem_not_dict arguments key st Hnd) as [msg H]
      end;
      rewrite !(bind_inl _ _ _ _ _ H);
      (split; [reflexivity | exists msg; reflexivity]).
  - intros Hdecl arguments arguments'.
    rewrite !(call_tool_run self) by assumption.
    revert Hdecl. unfold declares_arguments, list_tools.
    cbn [find t_name t_properties].
    dispatch_cases name; cbn [find t_properties]; try discriminate; intros _;
      select_branch; try reflexivity.
    unfold call_tool_body.
    repeat match goal with
           | H : ?n <> ?s |- context [String.eqb ?n ?s] =>
               rewrite (proj2 (String.eqb_neq n s) H)
           end.
    reflexivity.
Qed.

(** X12: a name that is not among the advertised tools gets the one
    response "Error: Unknown tool '<name>'"; nothing is issued and
    nothing is logged. *)
Theorem call_tool_unknown_name self name arguments st :
  uim_client st = Some self ->
  ~ In name (map t_name list_tools) ->
  call_tool upstream name arguments st =
    (inr [text_content ("Error: Unknown tool '" +:+ name +:+ "'")], st).
Proof.
  intros Hc Hname. rewrite (call_tool_run self) by assumption.
  unfold call_tool_body.
  repeat match goal with
         | |- context [if String.eqb name ?s then _ else _] =>
             destruct (String.eqb_spec name s) as [-> | _];
             [exfalso; apply Hname; simpl; tauto |]
         end.
  reflexivity.
Qed.

End Edges.

(** ** Rendering of payloads *)

Section Rendering.

Variable upstream : list Request -> Request -> exn + Response.

Lemma make_request_payload self method endpoint kwargs response v st :
  upstream (issued st) (request_of self method endpoint kwargs)
    = inr response ->
  payload_of response = Some v ->
  _make_request upstream self method endpoint kwargs st =
    (inr v, with_request st (request_of self method endpoint kwargs)).
Proof.
  intros Hup Hv. rewrite make_request_run, Hup.
  unfold payload_of in Hv.
  destruct (error_status _); [discriminate |].
  destruct (String.eqb _ _); [congruence |].
  destruct (body response); congruence.
Qed.

Lemma bind_inr {A B} (m : M A) (k : A -> M B) st a st' :
  m st = (inr a, st') -> bind m k st = k a st'.
Proof. intros H. unfold bind. rewrite H. reflexivity. Qed.

(** X13: for the seven operations without a count, whatever value the
    upstream payload decodes to (an object, a list, null; the empty
    object for an empty body), the response is the title of the
    operation, an empty line and the indented serialization of that
    value; [assign_alarm] puts the user name into its title.  The
    serialization is the text of the lines of [layout], every nested
    item two spaces deeper than the brackets around it, and reading
    it back gives the whole value. *)
Theorem object_rendering self name d title response v st :
  uim_client st = Some self ->
  success_title name d = Some title ->
  forallb (fun k => is_Some_b (dict_lookup k d)) (required_arguments name)
    = true ->
  (forall r, upstream (issued st) r = inr response) ->
  payload_of response = Some v ->
  fst (call_tool upstream name (VDict d) st) =
    inr [text_content (title +:+ nl +:+ nl +:+ format_json v)]
  /\ format_json v = write_lines (layout 0 v)
  /\ (wf_payload v = true -> json_loads (format_json v) = Some v).
Proof.
  intros Hc Htitle Hreq Hup Hv.
  split; [| split; [apply format_json_layout
                   | apply json_loads_format_json]].
  rewrite (call_tool_initialized upstream self) by assumption.
  assert (Hrun : forall method endpoint kwargs,
             _make_request upstream self method endpoint kwargs st =
               (inr v, with_request st
                         (request_of self method endpoint kwargs))).
  { intros. apply (make_request_payload _ _ _ _ response); auto. }
  revert Htitle Hreq. unfold success_title, required_arguments, list_tools.
  cbn [find t_name t_required].
  dispatch_cases name;
    cbn [find t_required forallb String.eqb Ascii.eqb Bool.eqb];
    try discriminate;
    intros [= <-]; unfold is_Some_b;
    repeat match goal with
           | |- context [dict_lookup ?k d] =>
               destruct (dict_lookup k d) eqn:?; cbn [andb];
               try discriminate
           end;
    intros _; select_branch; rewrite ?py_get_dict;
    repeat match goal with
           | E : dict_lookup ?k d = Some _ |- _ =>
               rewrite (py_getitem_dict _ _ _ E); clear E
           end;
    rewrite ?bind_ret_l;
    unfold get_device_info, get_alarm_summary, acknowledge_alarm,
      accept_alarm, assign_alarm, get_metric_definitions, get_metric_by_id;
    rewrite (bind_inr _ _ _ _ _ (Hrun _ _ _));
    rewrite ?string_append_assoc; reflexivity.
Qed.

(** X14: a list-shaped operation counts whatever sized value the
    payload decodes to: the items of a list, the keys of an object (so
    an empty body gives "Found 0 ..." over the empty object), the
    characters of a string.  For a payload without length (a number, a
    boolean, null) it answers "Error: object of type '...' has no
    len()", although the request was issued and answered. *)
Theorem list_rendering self name noun d response v st :
  uim_client st = Some self ->
  In (name, noun) list_shaped ->
  (forall r, upstream (issued st) r = inr response) ->
  payload_of response = Some v ->
  (exists r,
      issued (snd (call_tool upstream name (VDict d) st)) = issued st ++ [r])
  /\ fst (call_tool upstream name (VDict d) st) =
       inr [text_content
              match py_len v with
              | Some n =>
                  "Found " +:+ pretty n +:+ " " +:+ noun +:+ ":"
                    +:+ nl +:+ nl +:+ format_json v
              | None =>
                  "Error: object of type '" +:+ type_name v
                    +:+ "' has no len()"
              end].
Proof.
  intros Hc Hin Hup Hv.
  assert (Hrun : forall method endpoint kwargs,
             _make_request upstream self method endpoint kwargs st =
               (inr v, with_request st
                         (request_of self method endpoint kwargs))).
  { intros. apply (make_request_payload _ _ _ _ response); auto. }
  split.
  - rewrite (call_tool_issued upstream self) by assumption.
    simpl in Hin.
    destruct Hin as [[= <- <-] | [[= <- <-] | [[= <- <-] | [[= <- <-] |
                    [[= <- <-] | []]]]]];
      select_branch; rewrite ?py_get_dict, ?bind_ret_l;
      rewrite (bind_len_ret_issued _ (fun result => result));
      unfold get_devices, get_alarms, get_metrics, get_probes, get_robots;
      rewrite Hrun; eexists; reflexivity.
  - rewrite (call_tool_initialized upstream self) by assumption.
    simpl in Hin.
    destruct Hin as [[= <- <-] | [[= <- <-] | [[= <- <-] | [[= <- <-] |
                    [[= <- <-] | []]]]]];
      select_branch; rewrite ?py_get_dict, ?bind_ret_l;
      unfold get_devices, get_alarms, get_metrics, get_probes, get_robots;
      rewrite (bind_inr _ _ _ _ _ (Hrun _ _ _));
      unfold bind, len; destruct (py_len v); reflexivity.
Qed.

End Rendering.

(** ** What is logged *)

Lemma logs_failures_only_ret {A} (a : A) : logs_failures_only (ret a).
Proof. intros st. reflexivity. Qed.

Lemma logs_failures_only_raise {A} e :
  is_RequestException e = false -> logs_failures_only (@raise A e).
Proof.
  intros He st. simpl. unfold client_log. rewrite He, app_nil_r. reflexivity.
Qed.

Lemma logs_failures_only_py_get arguments key dflt :
  logs_failures_only (py_get arguments key dflt).
Proof.
  destruct arguments;
    first [apply logs_failures_only_ret
          | apply logs_failures_only_raise; reflexivity].
Qed.

Lemma logs_failures_only_py_getitem arguments key :
  logs_failures_only (py_getitem arguments key).
Proof.
  destruct arguments; simpl;
    try (apply logs_failures_only_raise; reflexivity).
  destruct (dict_lookup key kvs);
    [apply logs_failures_only_ret
    | apply logs_failures_only_raise; reflexivity].
Qed.

Lemma logs_failures_only_len v : logs_failures_only (len v).
Proof.
  unfold len. destruct (py_len v);
    [apply logs_failures_only_ret
    | apply logs_failures_only_raise; reflexivity].
Qed.

Lemma logs_failures_only_bind {A B} (m : M A) (f : A -> M B) :
  logs_failures_only m -> (forall a, logs_failures_only (f a)) ->
  logs_failures_only (bind m f).
Proof.
  intros Hm Hf st. unfold bind. specialize (Hm st).
  destruct (m st) as [[e | a] st1]; [exact Hm |].
  specialize (Hf a st1). destruct (f a st1) as [[e | b] st2]; congruence.
Qed.

Create HintDb logs.
#[local] Hint Resolve logs_failures_only_ret logs_failures_only_py_get
  logs_failures_only_py_getitem logs_failures_only_len
  logs_failures_only_bind : logs.

Section Logging.

Variable upstream : list Request -> Request -> exn + Response.

Lemma logs_failures_only_make_request self method endpoint kwargs :
  logs_failures_only (_make_request upstream self method endpoint kwargs).
Proof.
  intros st. rewrite make_request_run. unfold client_log.
  destruct (upstream _ _) as [e | response].
  - destruct (is_RequestException e); simpl;
      rewrite ?app_nil_r; reflexivity.
  - destruct (error_status _); [reflexivity |].
    destruct (String.eqb _ _); [reflexivity |].
    destruct (body response); reflexivity.
Qed.

Lemma logs_failures_only_call_tool_body self name arguments :
  logs_failures_only (call_tool_body upstream self name arguments).
Proof.
  pose proof (logs_failures_only_make_request self) as Hreq.
  unfold call_tool_body, get_devices, get_device_info, get_alarms,
    get_alarm_summary, acknowledge_alarm, accept_alarm, assign_alarm,
    get_metrics, get_metric_definitions, get_metric_by_id, get_probes,
    get_robots.
  repeat match goal with
         | |- context [if String.eqb name ?s then _ else _] =>
             destruct (String.eqb name s)
         end; auto 20 with logs.
Qed.

(** X15: a call that succeeds logs nothing.  A call that fails is
    logged once by the dispatcher, with the tool name and the message
    of the response, and once before that by the client when the
    failure is a transport failure (an HTTP error status, a refused
    connection, a body that is no JSON). *)
Theorem call_tool_logging self name arguments st :
  uim_client st = Some self ->
  match call_tool_body upstream self name arguments st with
  | (inr r, _) =>
      fst (call_tool upstream name arguments st) = inr r
      /\ logged (snd (call_tool upstream name arguments st)) = logged st
  | (inl e, _) =>
      fst (call_tool upstream name arguments st) =
        inr [text_content ("Error: " +:+ exn_str e)]
      /\ logged (snd (call_tool upstream name arguments st)) =
           logged st ++ client_log e ++ [dispatcher_log name e]
  end.
Proof.
  intros Hc. rewrite (call_tool_initialized upstream self) by assumption.
  pose proof (logs_failures_only_call_tool_body self name arguments st) as H.
  destruct (call_tool_body _ _ _ _ _) as [[e | r] st']; simpl.
  - split; [reflexivity |]. rewrite H, app_assoc. reflexivity.
  - split; [reflexivity | exact H].
Qed.

End Logging.

(** ** Transport failures reach the caller *)

Section Failures.

Variable upstream : list Request -> Request -> exn + Response.

Lemma make_request_failure self method endpoint kwargs e st :
  failure_of (upstream (issued st) (request_of self method endpoint kwargs))
    = Some e ->
  exists st', _make_request upstream self method endpoint kwargs st
              = (inl e, st').
Proof.
  intros H. rewrite make_request_run. unfold failure_of in H.
  destruct (upstream _ _) as [e' | response].
  - injection H as ->. eauto.
  - destruct (error_status _); [injection H as <-; eauto |].
    destruct (String.eqb _ _); [discriminate |].
    destruct (body response); [discriminate |].
    injection H as <-. eauto.
Qed.

(** X16: for every advertised tool called with its path parameters,
    a failure of the transport (the library raising, a 4xx or 5xx
    status, a non-empty body that is no JSON) comes back as the one
    response "Error: <message of the failure>"; for an error status
    that message starts with the status code. *)
Theorem transport_failure_surfaces self name op d path outcome e st :
  uim_client st = Some self ->
  catalog_lookup name = Some op ->
  expand d (op_endpoint op) = Some path ->
  (forall r, upstream (issued st) r = outcome) ->
  failure_of outcome = Some e ->
  fst (call_tool upstream name (VDict d) st) =
    inr [text_content ("Error: " +:+ exn_str e)]
  /\ (forall response,
        outcome = inr response ->
        error_status (status_code response) = true ->
        exists rest,
          exn_str e = pretty (status_code response) +:+ rest).
Proof.
  intros Hc Hop Hpath Hup He. split.
  - rewrite (call_tool_initialized upstream self) by assumption.
    assert (Hrun : forall method endpoint kwargs,
               exists st', _make_request upstream self method endpoint kwargs
                             st = (inl e, st')).
    { intros. apply make_request_failure. rewrite Hup. exact He. }
    revert Hop. unfold catalog_lookup, catalog. cbn [find fst snd].
    dispatch_cases name; try discriminate; intros [= <-];
      cbn [op_endpoint expand] in Hpath;
      repeat match type of Hpath with
             | context [dict_lookup ?k d] =>
                 let E := fresh "E" in
                 destruct (dict_lookup k d) eqn:E; [| discriminate]
             end;
      select_branch;
      rewrite ?py_get_dict;
      repeat match goal with
             | E : dict_lookup ?k d = Some _ |- _ =>
                 rewrite (py_getitem_dict _ _ _ E); clear E
             end;
      rewrite ?bind_ret_l;
      unfold get_devices, get_device_info, get_alarms, get_alarm_summary,
        acknowledge_alarm, accept_alarm, assign_alarm, get_metrics,
        get_metric_definitions, get_metric_by_id, get_probes, get_robots;
      match goal with
      | |- context [bind (_make_request upstream self ?m ?ep ?kw) _ st] =>
          destruct (Hrun m ep kw) as [st' Hst'];
          rewrite (bind_inl _ _ _ _ _ Hst')
      end;
      reflexivity.
  - intros response -> Herr. simpl in He. rewrite Herr in He.
    injection He as <-. simpl. apply http_error_msg_status. exact Herr.
Qed.

End Failures.

(** ** The serialization *)

(** X17: the text [format_json] produces is plain ASCII: printable
    characters and line feeds only, whatever code points the strings
    and keys of the payload hold (they are escaped: below 65536 as
    one [\uXXXX], from there as a surrogate pair), provided the floats
    in it are written in plain ASCII. *)
Theorem format_json_plain v :
  Forall (fun tok => plain tok = true) (float_tokens v) ->
  plain (format_json v) = true.
Proof. intros H. apply plain_dumps. exact H. Qed.

(** X18: the escaping of strings loses nothing on the strings a
    decoded payload holds (code points below 1114112, no high
    surrogate directly before a low one): the literal reads back as
    the string, so two different strings or keys never have the same
    literal.  A high surrogate directly before a low one is written
    like the code point the pair stands for. *)
Theorem json_str_lossless :
  (forall s, wf_str s = true -> json_loads (json_str s) = Some (VStr s))
  /\ (forall s1 s2, wf_str s1 = true -> wf_str s2 = true ->
      s1 <> s2 -> json_str s1 <> json_str s2)
  /\ json_str [55357; 56832]%N = json_str [128512]%N.
Proof.
  assert (Hback : forall s, wf_str s = true ->
                            json_loads (json_str s) = Some (VStr s)).
  { intros s Hs. apply (json_loads_format_json (VStr s)). exact Hs. }
  split; [exact Hback |]. split; [| reflexivity].
  intros s1 s2 H1 H2 Hne Heq.
  apply Hne. pose proof (Hback s1 H1) as Hb1. rewrite Heq in Hb1.
  rewrite (Hback s2 H2) in Hb1. congruence.
Qed.

(** ** The further properties on sample runs *)

Import Sample2.

Lemma call_tool_no_hidden_state_witness :
  fst (call_tool devices_upstream "get_alarm_summary" (VDict [])
         (snd (serve devices_upstream
                 [("list_devices", VDict []); ("nope", VNone)] ready))) =
    fst (call_tool devices_upstream "get_alarm_summary" (VDict []) ready).
Proof.
  apply (proj2 (call_tool_no_hidden_state devices_upstream
                  (fun h1 h2 r => eq_refl) "get_alarm_summary" (VDict []))).
Defined.

Lemma requests_use_client_settings_witness :
  exists new,
    issued (snd (call_tool unreachable "list_probes" VNone ready)) =
      issued ready ++ new
    /\ Forall (sent_by client) new.
Proof.
  apply (requests_use_client_settings unreachable client "list_probes" VNone
           ready).
  reflexivity.
Defined.

Lemma request_headers_distinct_witness :
  header_names_distinct
    (req_headers (prepare_request (session client) "GET"
                    "https://uim.example.com:8443/robots" no_kwargs))
  /\ header_lookup "user-agent"
       (req_headers (prepare_request (session client) "GET"
                       "https://uim.example.com:8443/robots" no_kwargs))
     = header_lookup "user-agent" session_headers.
Proof.
  destruct (request_headers_distinct session_headers
              "https://uim.example.com:8443/" "admin" "secret" true "GET"
              "https://uim.example.com:8443/robots" no_kwargs)
    as [Hdistinct Hkept].
  - apply (bool_decide_unpack _). vm_compute. exact I.
  - split; [exact Hdistinct |].
    apply Hkept; vm_compute; discriminate.
Defined.

Lemma main_serves_configured_witness :
  exists rs new,
    fst (main devices_upstream session_headers full_env
           [("list_devices", VDict []); ("get_device_info", VDict [])]
           initial_state) = inr rs
    /\ length rs = 2%nat
    /\ issued (snd (main devices_upstream session_headers full_env
                      [("list_devices", VDict []);
                       ("get_device_info", VDict [])]
                      initial_state)) = new
    /\ (length new <= 2)%nat
    /\ Forall (fun r => req_auth r = ("admin", "secret")
                        /\ req_verify r = true) new.
Proof.
  destruct (main_serves_configured devices_upstream session_headers full_env
              "https://uim.example.com:8443/" "admin" "secret"
              [("list_devices", VDict []); ("get_device_info", VDict [])]
              initial_state)
    as (rs & new & Hrs & Hlen & _ & Hissued & Hcount & Hall);
    try reflexivity; try discriminate.
  exists rs, new.
  split; [exact Hrs |]. split; [exact Hlen |]. split; [exact Hissued |].
  split; [exact Hcount |].
  apply (Forall_impl _ _ _ Hall). intros r (Ha & Hv & _). split; assumption.
Defined.

Lemma call_tool_follows_catalog_witness :
  exists r,
    issued (snd (call_tool unreachable "assign_alarm" (VDict assign_arguments)
                   ready)) = issued ready ++ [r]
    /\ method r = "PUT"
    /\ req_url r = "https://uim.example.com:8443/alarms/A1/assign/bob"
    /\ payload_matches Bare r.
Proof.
  apply (call_tool_follows_catalog unreachable client "assign_alarm"
           (mkOperation "PUT"
              [Lit "/alarms/"; Arg "alarm_id"; Lit "/assign/"; Arg "username"]
              Bare)
           assign_arguments "/alarms/A1/assign/bob" ready);
    reflexivity.
Defined.

Lemma list_devices_params_witness :
  exists r,
    issued (snd (call_tool unreachable "list_devices"
                   (VDict [("domain", VStr ""); ("hub", VStr "h1")]) ready))
      = issued ready ++ [r]
    /\ params r = Some [("hub", VStr "h1")].
Proof.
  apply (list_devices_params unreachable client
           [("domain", VStr ""); ("hub", VStr "h1")] ready).
  reflexivity.
Defined.

Lemma list_alarms_params_witness :
  exists r,
    issued (snd (call_tool unreachable "list_alarms" (VDict alarm_filters)
                   ready)) = issued ready ++ [r]
    /\ params r = Some [("severity", VInt 0)].
Proof.
  apply (list_alarms_params unreachable client alarm_filters ready).
  reflexivity.
Defined.

Lemma call_tool_argument_object_witness :
  (issued (snd (call_tool unreachable "list_devices" VNone ready)) =
     issued ready
   /\ exists msg,
        fst (call_tool unreachable "list_devices" VNone ready) =
          inr [text_content ("Error: " +:+ msg)])
  /\ call_tool unreachable "list_metrics" VNone ready =
       call_tool unreachable "list_metrics" (VDict []) ready.
Proof.
  split.
  - apply (proj1 (call_tool_argument_object unreachable client "list_devices"
                    ready eq_refl) eq_refl VNone).
    intros d. discriminate.
  - apply (proj2 (call_tool_argument_object unreachable client "list_metrics"
                    ready eq_refl) eq_refl).
Defined.

Lemma call_tool_unknown_name_witness :
  call_tool unreachable "nonexistent_tool" (VDict []) ready =
    (inr [text_content "Error: Unknown tool 'nonexistent_tool'"], ready).
Proof.
  apply (call_tool_unknown_name unreachable client "nonexistent_tool"
           (VDict []) ready).
  - reflexivity.
  - apply (bool_decide_unpack _). vm_compute. exact I.
Defined.

Lemma object_rendering_witness :
  fst (call_tool (stub (fixture accepted_alarm)) "accept_alarm"
         (VDict [("alarm_id", VStr "A1")]) ready) =
    inr [text_content
           ("Alarm accepted successfully:" +:+ nl +:+ nl
              +:+ accepted_alarm_text)]
  /\ json_loads accepted_alarm_text = Some accepted_alarm
  /\ fst (call_tool (stub no_content) "accept_alarm"
            (VDict [("alarm_id", VStr "A1")]) ready) =
       inr [text_content
              ("Alarm accepted successfully:" +:+ nl +:+ nl +:+ "{}")].
Proof.
  assert (Hnested :
            fst (call_tool (stub (fixture accepted_alarm)) "accept_alarm"
                   (VDict [("alarm_id", VStr "A1")]) ready) =
              inr [text_content
                     ("Alarm accepted successfully:" +:+ nl +:+ nl
                        +:+ format_json accepted_alarm)]
            /\ format_json accepted_alarm =
                 write_lines (layout 0 accepted_alarm)
            /\ (wf_payload accepted_alarm = true ->
                json_loads (format_json accepted_alarm) =
                  Some accepted_alarm)).
  { apply (object_rendering (stub (fixture accepted_alarm)) client
             "accept_alarm" [("alarm_id", VStr "A1")]
             "Alarm accepted successfully:" (fixture accepted_alarm)
             accepted_alarm ready);
      first [reflexivity | intros r; reflexivity]. }
  destruct Hnested as (Htext & _ & Hback).
  split; [exact Htext |].
  split; [exact (Hback eq_refl) |].
  apply (object_rendering (stub no_content) client "accept_alarm"
           [("alarm_id", VStr "A1")] "Alarm accepted successfully:"
           no_content (VDict []) ready);
    first [reflexivity | intros r; reflexivity].
Defined.

Lemma list_rendering_witness :
  fst (call_tool (stub no_content) "list_devices" (VDict []) ready) =
    inr [text_content ("Found 0 devices:" +:+ nl +:+ nl +:+ "{}")]
  /\ fst (call_tool (stub (fixture (VInt 5))) "list_devices" (VDict []) ready)
     = inr [text_content "Error: object of type 'int' has no len()"].
Proof.
  split.
  - apply (proj2 (list_rendering (stub no_content) client "list_devices"
                    "devices" [] no_content (VDict []) ready eq_refl
                    (or_introl eq_refl) (fun r => eq_refl) eq_refl)).
  - apply (proj2 (list_rendering (stub (fixture (VInt 5))) client
                    "list_devices" "devices" [] (fixture (VInt 5)) (VInt 5)
                    ready eq_refl (or_introl eq_refl) (fun r => eq_refl)
                    eq_refl)).
Defined.

Lemma call_tool_logging_witness :
  logged (snd (call_tool (stub not_found) "get_device_info"
                 (VDict [("device_id", VStr "D1")]) ready)) =
    [mkLog "ERROR"
       "API request failed: 404 Client Error: Not Found for url: https://uim.example.com:8443/devices/D1";
     mkLog "ERROR"
       "Error executing tool 'get_device_info': 404 Client Error: Not Found for url: https://uim.example.com:8443/devices/D1"]
  /\ logged (snd (call_tool (stub (fixture (VDict []))) "get_alarm_summary"
                    VNone ready)) = [].
Proof.
  split.
  - exact (proj2 (call_tool_logging (stub not_found) client "get_device_info"
                    (VDict [("device_id", VStr "D1")]) ready eq_refl)).
  - exact (proj2 (call_tool_logging (stub (fixture (VDict []))) client
                    "get_alarm_summary" VNone ready eq_refl)).
Defined.

Lemma transport_failure_surfaces_witness :
  fst (call_tool (stub not_found) "get_metric_by_id"
         (VDict [("metric_id", VStr "M1")]) ready) =
    inr [text_content
           "Error: 404 Client Error: Not Found for url: https://uim.example.com:8443/devices/D1"].
Proof.
  apply (proj1 (transport_failure_surfaces (stub not_found) client
                  "get_metric_by_id"
                  (mkOperation "GET"
                     [Lit "/configuration_items/metrics/"; Arg "metric_id"]
                     Bare)
                  [("metric_id", VStr "M1")]
                  "/configuration_items/metrics/M1" (inr not_found)
                  (HTTPError (http_error_msg not_found) not_found) ready
                  eq_refl eq_refl eq_refl (fun r => eq_refl) eq_refl)).
Defined.

Lemma format_json_plain_witness :
  plain (format_json mixed_payload) = true
  /\ format_json mixed_payload = mixed_payload_text.
Proof.
  split; [| reflexivity].
  apply (format_json_plain mixed_payload).
  repeat constructor.
Defined.

Lemma json_str_lossless_witness :
  json_loads (json_str with_quote) = Some (VStr with_quote)
  /\ json_loads (json_str [233; 8364; 128512; 55357]%N) =
       Some (VStr [233; 8364; 128512; 55357]%N)
  /\ json_str with_quote <> json_str without_quote.
Proof.
  split; [| split].
  - apply (proj1 json_str_lossless with_quote). reflexivity.
  - apply (proj1 json_str_lossless [233; 8364; 128512; 55357]%N).
    reflexivity.
  - apply (proj1 (proj2 json_str_lossless) with_quote without_quote).
    + reflexivity.
    + reflexivity.
    + discriminate.
Defined.
